(** * Lab Assistant Pro (proto.py): data-access and session layer

    A shallow embedding of the parts of [src/proto.py] that read and write
    the SQLite store [lab_assistant.db] (users, tasks, reagents, experiments,
    buffers), of the forms of login_page, of the session state and the
    routing of main, of the labels of the Update Inventory tab and of the
    dilution calculator, followed by the properties of the specification
    that concern them and by further properties of the code.

    Conventions of the embedding.
    - A Python [str] is a [string] of characters with codes below 256;
      [len] is [String.length]. Text of the source beyond that range (in
      messages and unit names) stands as its UTF-8 bytes.
    - A Python [float] and an SQLite [REAL] are IEEE binary64 numbers: the
      kernel's primitive [float].
    - An SQLite [INTEGER] is a [Z]; the rowid limit 2^63-1 is written out.
    - A table is the list of its rows in rowid order together with the
      counter that [AUTOINCREMENT] keeps in [sqlite_sequence].
    - Streamlit's output ([st.success], [st.error], [st.rerun]) and the calls
      on the connection are recorded as events in a log.
    - A handler is the code that runs on the press of one button, with the
      values of the widgets as arguments. The drawing of the page around it
      is left out, and so is Streamlit's bookkeeping of widgets (their keys,
      their state between runs). *)

From Stdlib Require Import ZArith List String Ascii Bool Lia Floats Sorted.
From Stdlib Require Import Permutation.
Import ListNotations.

Local Open Scope string_scope.
Local Open Scope list_scope.
Local Open Scope Z_scope.

(* ================================================================== *)
(** * Python's [datetime], as far as the planner uses it *)
(* ================================================================== *)

(** The planner calls [datetime.strptime(s, "%Y-%m-%d")], adds a
    [timedelta] of whole days and formats with [strftime("%Y-%m-%d")].
    The definitions follow CPython's [_pydatetime.py]: proleptic Gregorian
    ordinals, day 1 being 0001-01-01. *)
Module Datetime.

Record date := mkdate { year : Z; month : Z; day : Z }.

Definition MINYEAR : Z := 1.
Definition MAXYEAR : Z := 9999.
Definition MAXORDINAL : Z := 3652059.

(** [_DAYS_IN_MONTH], index 0 being the placeholder -1. *)
Definition DAYS_IN_MONTH (m : Z) : Z :=
  match m with
  | 1 => 31 | 2 => 28 | 3 => 31 | 4 => 30 | 5 => 31 | 6 => 30
  | 7 => 31 | 8 => 31 | 9 => 30 | 10 => 31 | 11 => 30 | 12 => 31
  | _ => -1
  end.

(** [_DAYS_BEFORE_MONTH], the running sum of the table above. *)
Definition DAYS_BEFORE_MONTH (m : Z) : Z :=
  match m with
  | 1 => 0 | 2 => 31 | 3 => 59 | 4 => 90 | 5 => 120 | 6 => 151
  | 7 => 181 | 8 => 212 | 9 => 243 | 10 => 273 | 11 => 304 | 12 => 334
  | _ => -1
  end.

Definition is_leap (y : Z) : bool :=
  (y mod 4 =? 0) && (negb (y mod 100 =? 0) || (y mod 400 =? 0)).

Definition days_before_year (y : Z) : Z :=
  let y := y - 1 in y * 365 + y / 4 - y / 100 + y / 400.

Definition days_in_month (y m : Z) : Z :=
  if (m =? 2) && is_leap y then 29 else DAYS_IN_MONTH m.

Definition days_before_month (y m : Z) : Z :=
  DAYS_BEFORE_MONTH m + (if (2 <? m) && is_leap y then 1 else 0).

Definition ymd2ord (d : date) : Z :=
  days_before_year (year d) + days_before_month (year d) (month d) + day d.

Definition DI400Y : Z := 146097.
Definition DI100Y : Z := 36524.
Definition DI4Y : Z := 1461.

Definition ord2ymd (n : Z) : date :=
  let n := n - 1 in
  let n400 := n / DI400Y in
  let n := n mod DI400Y in
  let year := n400 * 400 + 1 in
  let n100 := n / DI100Y in
  let n := n mod DI100Y in
  let n4 := n / DI4Y in
  let n := n mod DI4Y in
  let n1 := n / 365 in
  let n := n mod 365 in
  let year := year + n100 * 100 + n4 * 4 + n1 in
  if (n1 =? 4) || (n100 =? 4) then mkdate (year - 1) 12 31
  else
    let leapyear := (n1 =? 3) && (negb (n4 =? 24) || (n100 =? 3)) in
    let month := Z.shiftr (n + 50) 5 in
    let preceding :=
      DAYS_BEFORE_MONTH month + (if (2 <? month) && leapyear then 1 else 0) in
    if n <? preceding then
      let month := month - 1 in
      let preceding :=
        preceding
        - (DAYS_IN_MONTH month + (if (month =? 2) && leapyear then 1 else 0)) in
      mkdate year month (n - preceding + 1)
    else mkdate year month (n - preceding + 1).

(** The check of the [date] constructor ([_check_date_fields]). *)
Definition valid_date (d : date) : bool :=
  (MINYEAR <=? year d) && (year d <=? MAXYEAR)
  && (1 <=? month d) && (month d <=? 12)
  && (1 <=? day d) && (day d <=? days_in_month (year d) (month d)).

(** [d + timedelta(days=n)]: [None] stands for the [OverflowError]
    ("date value out of range"). *)
Definition add_days (d : date) (n : Z) : option date :=
  let o := ymd2ord d + n in
  if (0 <? o) && (o <=? MAXORDINAL) then Some (ord2ymd o) else None.

(** ** Decimal digits *)

Definition digit_char (k : Z) : ascii := ascii_of_nat (Z.to_nat (48 + k)).

Definition digit_val (c : ascii) : option Z :=
  let n := Z.of_nat (nat_of_ascii c) in
  if (48 <=? n) && (n <=? 57) then Some (n - 48) else None.

Definition pad2 (n : Z) : string :=
  String (digit_char (n / 10)) (String (digit_char (n mod 10)) "").

Definition pad4 (n : Z) : string :=
  String (digit_char (n / 1000))
    (String (digit_char (n / 100 mod 10))
       (String (digit_char (n / 10 mod 10))
          (String (digit_char (n mod 10)) ""))).

(** [strftime("%Y-%m-%d")] for a year of four digits (1000 to 9999).
    Below the year 1000 the C library decides whether the year is padded
    with zeros, as it is here, or not (glibc does not pad). *)
Definition strftime (d : date) : string :=
  (pad4 (year d) ++ "-" ++ pad2 (month d) ++ "-" ++ pad2 (day d))%string.

(** ** [strptime(s, "%Y-%m-%d")]

    [_strptime] compiles the format to the regular expression
    [(\d\d\d\d)-(1[0-2]|0[1-9]|[1-9])-(3[01]|[12]\d|0[1-9]|[1-9]| [1-9])],
    requires it to consume the whole string and then builds the date, which
    checks the fields. [None] stands for the [ValueError]. *)

(** The month field and the rest after the dash that ends it. *)
Definition parse_month (s : string) : option (Z * string) :=
  match s with
  | String a (String b (String "-" rest)) =>
      match digit_val a, digit_val b with
      | Some 1, Some y => if y <=? 2 then Some (10 + y, rest) else None
      | Some 0, Some y => if 1 <=? y then Some (y, rest) else None
      | _, _ => None
      end
  | String a (String "-" rest) =>
      match digit_val a with
      | Some x => if 1 <=? x then Some (x, rest) else None
      | None => None
      end
  | _ => None
  end.

(** The day field, which must end the string. *)
Definition parse_day (s : string) : option Z :=
  match s with
  | String a (String b "") =>
      match digit_val a, digit_val b with
      | Some 3, Some y => if y <=? 1 then Some (30 + y) else None
      | Some 0, Some y => if 1 <=? y then Some y else None
      | Some x, Some y => if x <=? 2 then Some (10 * x + y) else None
      | None, Some y =>
          if (a =? " ")%char && (1 <=? y) then Some y else None
      | _, None => None
      end
  | String a "" =>
      match digit_val a with
      | Some x => if 1 <=? x then Some x else None
      | None => None
      end
  | _ => None
  end.

(** The three fields that the regular expression captures, as numbers. *)
Definition strptime_fields (s : string) : option (Z * Z * Z) :=
  match s with
  | String a (String b (String c (String d (String "-" rest)))) =>
      match digit_val a, digit_val b, digit_val c, digit_val d with
      | Some a, Some b, Some c, Some d =>
          match parse_month rest with
          | Some (m, rest) =>
              match parse_day rest with
              | Some dd => Some (1000 * a + 100 * b + 10 * c + d, m, dd)
              | None => None
              end
          | None => None
          end
      | _, _, _, _ => None
      end
  | _ => None
  end.

Definition strptime (s : string) : option date :=
  match strptime_fields s with
  | Some (y, m, d) =>
      let r := mkdate y m d in
      if valid_date r then Some r else None
  | None => None
  end.

End Datetime.

(* ================================================================== *)
(** * SQLite: tables with an [AUTOINCREMENT] key *)
(* ================================================================== *)

Module Sqlite.

(** The largest rowid, 2^63-1. *)
Definition MAX_ROWID : Z := 9223372036854775807.

(** The rows in rowid order and the [sqlite_sequence] counter: the largest
    key the table has ever held. *)
Record table (R : Type) := mktable { rows : list R; seq : Z }.
Arguments mktable {R} _ _.
Arguments rows {R} _.
Arguments seq {R} _.

Definition empty_table {R : Type} : table R := mktable [] 0.

(** [INSERT] without an explicit key: the new key is one more than the
    counter; once the counter is the largest rowid the statement fails
    ([SQLITE_FULL]). The result is the new key and the new table. *)
Definition insert {R : Type} (mk : Z -> R) (t : table R)
  : string + (Z * table R) :=
  if seq t <? MAX_ROWID
  then inr (seq t + 1, mktable (rows t ++ [mk (seq t + 1)]) (seq t + 1))
  else inl "database or disk is full".

(** [UPDATE ... SET ... WHERE p]. *)
Definition update_where {R : Type} (p : R -> bool) (f : R -> R) (t : table R)
  : table R :=
  mktable (map (fun r => if p r then f r else r) (rows t)) (seq t).

(** [DELETE FROM ... WHERE p]. *)
Definition delete_where {R : Type} (p : R -> bool) (t : table R) : table R :=
  mktable (filter (fun r => negb (p r)) (rows t)) (seq t).

(** [SELECT * FROM ... WHERE p], in rowid order. *)
Definition select_where {R : Type} (p : R -> bool) (t : table R) : list R :=
  filter p (rows t).

(** [ORDER BY]: a stable insertion sort; [le a b] says that [a] may stand
    before [b]. SQLite leaves the order of rows with equal keys open; here
    they keep their rowid order. *)
Fixpoint insert_sorted {R : Type} (le : R -> R -> bool) (x : R) (l : list R)
  : list R :=
  match l with
  | [] => [x]
  | y :: l' => if le x y then x :: l else y :: insert_sorted le x l'
  end.

Definition order_by {R : Type} (le : R -> R -> bool) (l : list R) : list R :=
  fold_right (insert_sorted le) [] l.

(** [LIMIT n]. *)
Definition limit {R : Type} (n : nat) (l : list R) : list R := firstn n l.

(** [cursor.fetchone()]. *)
Definition fetchone {A : Type} (l : list A) : option A := hd_error l.

End Sqlite.

(* ================================================================== *)
(** * The schema of [initialize_db] *)
(* ================================================================== *)

Module Schema.

(** [users]: [username TEXT UNIQUE NOT NULL]. *)
Record user_row := mkuser {
  u_id : Z;
  u_username : string;
  u_password : string;
  u_email : string;
  u_full_name : string;
  u_registration_date : string
}.

(** [tasks]: [completed INTEGER DEFAULT 0]. *)
Record task_row := mktask {
  t_id : Z;
  t_user_id : Z;
  t_title : string;
  t_description : string;
  t_due_date : string;
  t_frequency : string;
  t_completed : Z
}.

(** [reagents]: [name], [quantity] and [unit] are [NOT NULL]; the columns
    that the inventory editor can set to [NULL] are options. *)
Record reagent_row := mkreagent {
  r_id : Z;
  r_user_id : Z;
  r_name : string;
  r_quantity : float;
  r_unit : string;
  r_location : option string;
  r_supplier : option string;
  r_catalog_number : option string;
  r_date_added : string;
  r_expiry_date : option string;
  r_notes : option string
}.

(** [experiments]: [reagents] and [procedure] hold [json.dumps] of a list
    of strings, kept here as the list. *)
Record experiment_row := mkexperiment {
  e_id : Z;
  e_user_id : Z;
  e_title : string;
  e_aim : string;
  e_date : string;
  e_reagents : list string;
  e_procedure : list string;
  e_observations : string;
  e_notes : string;
  e_results : string
}.

(** [buffers]. *)
Record buffer_row := mkbuffer {
  b_id : Z;
  b_user_id : Z;
  b_name : string;
  b_ph : float;
  b_components : string;
  b_preparation : string
}.

Record database := mkdb {
  users : Sqlite.table user_row;
  tasks : Sqlite.table task_row;
  reagents : Sqlite.table reagent_row;
  experiments : Sqlite.table experiment_row;
  buffers : Sqlite.table buffer_row
}.

(** [initialize_db] on a new file: the five tables, empty. On an existing
    file [CREATE TABLE IF NOT EXISTS] changes nothing. *)
Definition initialize_db : database :=
  mkdb Sqlite.empty_table Sqlite.empty_table Sqlite.empty_table
       Sqlite.empty_table Sqlite.empty_table.

Definition set_users (db : database) (t : Sqlite.table user_row) : database :=
  mkdb t (tasks db) (reagents db) (experiments db) (buffers db).
Definition set_tasks (db : database) (t : Sqlite.table task_row) : database :=
  mkdb (users db) t (reagents db) (experiments db) (buffers db).
Definition set_reagents (db : database) (t : Sqlite.table reagent_row)
  : database :=
  mkdb (users db) (tasks db) t (experiments db) (buffers db).
Definition set_experiments (db : database) (t : Sqlite.table experiment_row)
  : database :=
  mkdb (users db) (tasks db) (reagents db) t (buffers db).
Definition set_buffers (db : database) (t : Sqlite.table buffer_row)
  : database :=
  mkdb (users db) (tasks db) (reagents db) (experiments db) t.

End Schema.

(* ================================================================== *)
(** * The SQL statements of proto.py *)
(* ================================================================== *)

(** One function per statement text of the source. A [SELECT] comes in two
    layers: the rows it selects ([..._rows]) and the tuples of the columns
    it names. A statement that can fail returns the message of the
    [sqlite3.Error] on the left. *)
Module Stmt.
Import Sqlite Schema.

(** ** users *)

(** [INSERT INTO users (username, password, email, full_name,
    registration_date) VALUES (?, ?, ?, ?, ?)] (create_user). The key is
    drawn first, then [UNIQUE] on [username] is checked (byte by byte, the
    collation being [BINARY]); a statement that fails changes nothing. *)
Definition INSERT_user (db : database)
    (username password email full_name registration_date : string)
  : string + database :=
  match insert (fun i => mkuser i username password email full_name
                           registration_date) (users db) with
  | inl e => inl e
  | inr (_, t) =>
      if existsb (fun r => String.eqb (u_username r) username)
           (rows (users db))
      then inl "UNIQUE constraint failed: users.username"
      else inr (set_users db t)
  end.

Definition user_by_credentials_rows (db : database) (username password : string)
  : list user_row :=
  select_where
    (fun r => String.eqb (u_username r) username
              && String.eqb (u_password r) password)
    (users db).

(** [SELECT id, username FROM users WHERE username = ? AND password = ?]
    (verify_user). *)
Definition SELECT_user_by_credentials (db : database)
    (username password : string) : list (Z * string) :=
  map (fun r => (u_id r, u_username r))
      (user_by_credentials_rows db username password).

(** ** tasks *)

(** [INSERT INTO tasks (user_id, title, description, due_date, frequency)
    VALUES (?, ?, ?, ?, ?)] (lab_planner, three forms). *)
Definition INSERT_task (db : database) (user_id : Z)
    (title description due_date frequency : string)
  : string + (Z * database) :=
  match insert (fun i => mktask i user_id title description due_date
                           frequency 0) (tasks db) with
  | inl e => inl e
  | inr (i, t) => inr (i, set_tasks db t)
  end.

(** Python's truth value of the [frequency] argument of get_tasks. *)
Definition truthy (s : option string) : bool :=
  match s with
  | None | Some EmptyString => false
  | Some _ => true
  end.

(** The [WHERE] clause that get_tasks assembles. *)
Definition get_tasks_where (user_id : Z) (frequency : option string)
    (completed : bool) (r : task_row) : bool :=
  (t_user_id r =? user_id)
  && (if truthy frequency
      then match frequency with
           | Some f => String.eqb (t_frequency r) f
           | None => true
           end
      else true)
  && (if negb completed then t_completed r =? 0 else true).

Definition get_tasks_rows (db : database) (user_id : Z)
    (frequency : option string) (completed : bool) : list task_row :=
  order_by (fun a b => String.leb (t_due_date a) (t_due_date b))
    (select_where (get_tasks_where user_id frequency completed) (tasks db)).

Definition task_tuple : Type := Z * string * string * string * string * Z.

(** [SELECT id, title, description, due_date, frequency, completed FROM
    tasks WHERE user_id = ? [AND frequency = ?] [AND completed = 0]
    ORDER BY due_date] (get_tasks). *)
Definition SELECT_tasks (db : database) (user_id : Z)
    (frequency : option string) (completed : bool) : list task_tuple :=
  map (fun r => (t_id r, t_title r, t_description r, t_due_date r,
                 t_frequency r, t_completed r))
      (get_tasks_rows db user_id frequency completed).

(** [UPDATE tasks SET completed = 1 WHERE id = ?] (Daily Tasks tab). *)
Definition UPDATE_task_completed (db : database) (task_id : Z) : database :=
  set_tasks db
    (update_where (fun r => t_id r =? task_id)
       (fun r => mktask (t_id r) (t_user_id r) (t_title r) (t_description r)
                   (t_due_date r) (t_frequency r) 1)
       (tasks db)).

(** [UPDATE tasks SET due_date = ? WHERE id = ?] (Weekly/Monthly tab). *)
Definition UPDATE_task_due_date (db : database) (new_date : string)
    (task_id : Z) : database :=
  set_tasks db
    (update_where (fun r => t_id r =? task_id)
       (fun r => mktask (t_id r) (t_user_id r) (t_title r) (t_description r)
                   new_date (t_frequency r) (t_completed r))
       (tasks db)).

Definition upcoming_tasks_rows (db : database) (user_id : Z) (today : string)
  : list task_row :=
  limit 5
    (order_by (fun a b => String.leb (t_due_date a) (t_due_date b))
       (select_where
          (fun r => (t_user_id r =? user_id) && (t_completed r =? 0)
                    && (String.leb today (t_due_date r)
                        || negb (String.eqb (t_frequency r) "once")))
          (tasks db))).

(** [SELECT title, description, due_date FROM tasks WHERE user_id = ? AND
    completed = 0 AND (due_date >= ? OR frequency != 'once') ORDER BY
    due_date LIMIT 5] (dashboard_page). *)
Definition SELECT_upcoming_tasks (db : database) (user_id : Z) (today : string)
  : list (string * string * string) :=
  map (fun r => (t_title r, t_description r, t_due_date r))
      (upcoming_tasks_rows db user_id today).

Definition tasks_on_rows (db : database) (user_id : Z) (date_str : string)
  : list task_row :=
  select_where
    (fun r => (t_user_id r =? user_id) && String.eqb (t_due_date r) date_str
              && (t_completed r =? 0))
    (tasks db).

(** [SELECT title, description FROM tasks WHERE user_id = ? AND due_date = ?
    AND completed = 0] (Calendar View tab). *)
Definition SELECT_tasks_on (db : database) (user_id : Z) (date_str : string)
  : list (string * string) :=
  map (fun r => (t_title r, t_description r))
      (tasks_on_rows db user_id date_str).

(** ** experiments *)

(** [INSERT INTO experiments (user_id, title, aim, date, reagents,
    procedure, observations, notes, results) VALUES (?,...)]
    (protocol_generator). *)
Definition INSERT_experiment (db : database) (user_id : Z)
    (title aim date : string) (reagents procedure : list string)
    (observations notes results : string) : string + (Z * database) :=
  match insert (fun i => mkexperiment i user_id title aim date reagents
                           procedure observations notes results)
               (experiments db) with
  | inl e => inl e
  | inr (i, t) => inr (i, set_experiments db t)
  end.

Definition recent_experiments_rows (db : database) (user_id : Z)
  : list experiment_row :=
  limit 3
    (order_by (fun a b => String.leb (e_date b) (e_date a))
       (select_where (fun r => e_user_id r =? user_id) (experiments db))).

(** [SELECT title, date FROM experiments WHERE user_id = ? ORDER BY date
    DESC LIMIT 3] (dashboard_page). *)
Definition SELECT_recent_experiments (db : database) (user_id : Z)
  : list (string * string) :=
  map (fun r => (e_title r, e_date r)) (recent_experiments_rows db user_id).

(** ** buffers *)

(** [INSERT INTO buffers (user_id, name, ph, components, preparation)
    VALUES (?, ?, ?, ?, ?)] (buffer_helper, Tris and Custom). *)
Definition INSERT_buffer (db : database) (user_id : Z) (name : string)
    (ph : float) (components preparation : string)
  : string + (Z * database) :=
  match insert (fun i => mkbuffer i user_id name ph components preparation)
               (buffers db) with
  | inl e => inl e
  | inr (i, t) => inr (i, set_buffers db t)
  end.

(** ** reagents *)

(** [INSERT INTO reagents (user_id, name, quantity, unit, location,
    supplier, catalog_number, expiry_date, notes, date_added) VALUES
    (?,?,?,?,?,?,?,?,?,?)] (Add New Reagent tab). *)
Definition INSERT_reagent (db : database) (user_id : Z) (name : string)
    (quantity : float) (unit location supplier catalog_number : string)
    (expiry_date : option string) (notes date_added : string)
  : string + (Z * database) :=
  match insert (fun i => mkreagent i user_id name quantity unit
                           (Some location) (Some supplier)
                           (Some catalog_number) date_added expiry_date
                           (Some notes))
               (reagents db) with
  | inl e => inl e
  | inr (i, t) => inr (i, set_reagents db t)
  end.

Definition get_reagents_rows (db : database) (user_id : Z)
  : list reagent_row :=
  order_by (fun a b => String.leb (r_name a) (r_name b))
    (select_where (fun r => r_user_id r =? user_id) (reagents db)).

Definition reagent_tuple : Type :=
  Z * string * float * string * option string * option string
  * option string * option string * option string.

(** [SELECT id, name, quantity, unit, location, supplier, catalog_number,
    expiry_date, notes FROM reagents WHERE user_id = ? ORDER BY name]
    (get_reagents). *)
Definition SELECT_reagents (db : database) (user_id : Z)
  : list reagent_tuple :=
  map (fun r => (r_id r, r_name r, r_quantity r, r_unit r, r_location r,
                 r_supplier r, r_catalog_number r, r_expiry_date r,
                 r_notes r))
      (get_reagents_rows db user_id).

Definition low_reagents_rows (db : database) (user_id : Z)
  : list reagent_row :=
  limit 3
    (order_by (fun a b => PrimFloat.leb (r_quantity a) (r_quantity b))
       (select_where
          (fun r => (r_user_id r =? user_id)
                    && PrimFloat.ltb (r_quantity r) 10%float)
          (reagents db))).

(** [SELECT name, quantity, unit FROM reagents WHERE user_id = ? AND
    quantity < 10 ORDER BY quantity ASC LIMIT 3] (dashboard_page). *)
Definition SELECT_low_reagents (db : database) (user_id : Z)
  : list (string * float * string) :=
  map (fun r => (r_name r, r_quantity r, r_unit r))
      (low_reagents_rows db user_id).

(** The [SET] list shared by the two [UPDATE reagents] statements. *)
Definition set_reagent_fields (name : string) (quantity : float)
    (unit : string) (location supplier catalog_number expiry_date
                     notes : option string) (r : reagent_row) : reagent_row :=
  mkreagent (r_id r) (r_user_id r) name quantity unit location supplier
            catalog_number (r_date_added r) expiry_date notes.

(** [UPDATE reagents SET name=?, quantity=?, unit=?, location=?,
    supplier=?, catalog_number=?, expiry_date=?, notes=? WHERE id=? AND
    user_id=?] (View Inventory tab, the editable table). A [NULL] bound to
    a [NOT NULL] column fails when a row matches. *)
Definition UPDATE_reagent_of_user (db : database) (name : option string)
    (quantity : option float) (unit : option string)
    (location supplier catalog_number expiry_date notes : option string)
    (id user_id : Z) : string + database :=
  let p := fun r => (r_id r =? id) && (r_user_id r =? user_id) in
  if existsb p (rows (reagents db)) then
    match name, quantity, unit with
    | None, _, _ => inl "NOT NULL constraint failed: reagents.name"
    | _, None, _ => inl "NOT NULL constraint failed: reagents.quantity"
    | _, _, None => inl "NOT NULL constraint failed: reagents.unit"
    | Some n, Some q, Some u =>
        inr (set_reagents db
               (update_where p
                  (set_reagent_fields n q u location supplier catalog_number
                     expiry_date notes)
                  (reagents db)))
    end
  else inr db.

(** [UPDATE reagents SET name=?, quantity=?, unit=?, location=?,
    supplier=?, catalog_number=?, expiry_date=?, notes=? WHERE id=?]
    (Update Inventory tab, button Update). *)
Definition UPDATE_reagent (db : database) (name : string) (quantity : float)
    (unit : string)
    (location supplier catalog_number expiry_date notes : option string)
    (id : Z) : database :=
  set_reagents db
    (update_where (fun r => r_id r =? id)
       (set_reagent_fields name quantity unit location supplier
          catalog_number expiry_date notes)
       (reagents db)).

(** [DELETE FROM reagents WHERE id=?] (Update Inventory tab, button
    Delete). *)
Definition DELETE_reagent (db : database) (id : Z) : database :=
  set_reagents db (delete_where (fun r => r_id r =? id) (reagents db)).

End Stmt.

(* ================================================================== *)
(** * The application: page handlers over the store *)
(* ================================================================== *)

Module App.
Import Sqlite Schema Stmt.

(** What a script run does besides changing the store. *)
Inductive event :=
| ev_connect                 (* sqlite3.connect succeeded *)
| ev_commit                  (* conn.commit() *)
| ev_success (msg : string)  (* st.success *)
| ev_error (msg : string)    (* st.error *)
| ev_info (msg : string)     (* st.info *)
| ev_rerun                   (* st.rerun() *)
| ev_raise (exc : string).   (* an exception that no handler catches *)

(** The store, whether [sqlite3.connect] succeeds, and the events so far
    (oldest first). *)
Record world := mkworld {
  store : database;
  storage_ok : bool;
  log : list event
}.

Definition App (A : Type) : Type := world -> A * world.

Definition ret {A : Type} (a : A) : App A := fun w => (a, w).

Definition bind {A B : Type} (m : App A) (k : A -> App B) : App B :=
  fun w => let (a, w') := m w in k a w'.

Notation "x <- m ;; k" := (bind m (fun x => k))
  (at level 61, m at next level, right associativity).
Notation "m ;; k" := (bind m (fun _ => k))
  (at level 61, right associativity).

Definition exec {A : Type} (m : App A) (w : world) : world := snd (m w).
Definition eval {A : Type} (m : App A) (w : world) : A := fst (m w).

Definition emit (e : event) : App unit :=
  fun w => (tt, mkworld (store w) (storage_ok w) (log w ++ [e])).

Definition get_db : App database := fun w => (store w, w).

(** The pending changes of the connection become the store. *)
Definition commit (db : database) : App unit :=
  fun w => (tt, mkworld db (storage_ok w) (log w ++ [ev_commit])).

(** [create_connection]: [true] for a connection, [false] for [None]. *)
Definition create_connection : App bool :=
  fun w =>
    if storage_ok w
    then (true, mkworld (store w) true (log w ++ [ev_connect]))
    else (false,
          mkworld (store w) false
            (log w ++ [ev_error "Database connection error: unable to open database file"])).

(** What a handler says when it calls a method of the [None] that
    [create_connection] returned. *)
Definition none_has_no_execute : string :=
  "'NoneType' object has no attribute 'execute'".

(** ** Widgets *)

(** [st.number_input(..., min_value=m)] holds no value below [m]. *)
Definition number_input_ok (min_value : option float) (v : float) : bool :=
  match min_value with
  | Some m => PrimFloat.leb m v
  | None => PrimFloat.eqb v v
  end.

(** The options of the frequency select box of the Daily Tasks tab. *)
Inductive frequency_option := once | daily | weekly | monthly.

Definition frequency_text (f : frequency_option) : string :=
  match f with
  | once => "once" | daily => "daily" | weekly => "weekly"
  | monthly => "monthly"
  end.

(** The options of the radio of the Weekly/Monthly tab. *)
Inductive recurring_option := radio_weekly | radio_monthly.

Definition recurring_text (f : recurring_option) : string :=
  match f with radio_weekly => "weekly" | radio_monthly => "monthly" end.

(** The options of the unit select boxes of the reagent forms. *)
Definition unit_options : list string := ["g"; "mg"; "µg"; "L"; "mL"; "µL"].

Section Credentials.

(** [hashlib.sha256(password.encode()).hexdigest()]. *)
Variable sha256 : string -> string.

(** ** Authentication (section 4 of the source) *)

(** [create_user]; [now] is [datetime.datetime.now()] as text. *)
Definition create_user (username password email full_name now : string)
  : App bool :=
  conn <- create_connection ;;
  if conn then
    db <- get_db ;;
    let hashed_password := sha256 password in
    match INSERT_user db username hashed_password email full_name now with
    | inr db' => commit db' ;; ret true
    | inl e => emit (ev_error ("Error creating user: " ++ e)) ;; ret false
    end
  else ret false.

(** [verify_user]. *)
Definition verify_user (username password : string)
  : App (option (Z * string)) :=
  conn <- create_connection ;;
  if conn then
    db <- get_db ;;
    let hashed_password := sha256 password in
    ret (fetchone (SELECT_user_by_credentials db username hashed_password))
  else ret None.

(** The fields of the form "register_form". *)
Record register_form := mkregister {
  new_username : string;
  new_password : string;
  confirm_password : string;
  email : string;
  full_name : string
}.

(** login_page, menu Register, on the submit button. *)
Definition login_page_register (f : register_form) (now : string) : App unit :=
  if negb (String.eqb (new_password f) (confirm_password f)) then
    emit (ev_error "Passwords don't match!")
  else if (String.length (new_password f) <? 6)%nat then
    emit (ev_error "Password must be ≥6 characters")
  else
    ok <- create_user (new_username f) (new_password f) (email f)
            (full_name f) now ;;
    if ok then emit (ev_success "Account created! Please login.")
    else emit (ev_error "Username already exists").

End Credentials.

(** ** dashboard_page: the three queries *)

Definition dashboard_data : Type :=
  list (string * string * string) * list (string * string)
  * list (string * float * string).

(** With no connection the three lists stay unbound and the layout code
    that follows raises. *)
Definition dashboard_page (user_id : Z) (today : string)
  : App (option dashboard_data) :=
  conn <- create_connection ;;
  if conn then
    db <- get_db ;;
    ret (Some (SELECT_upcoming_tasks db user_id today,
               SELECT_recent_experiments db user_id,
               SELECT_low_reagents db user_id))
  else emit (ev_raise "UnboundLocalError") ;; ret None.

(** ** lab_planner *)

(** The helper [get_tasks(frequency=None, completed=False)]. *)
Definition get_tasks (user_id : Z) (frequency : option string)
    (completed : bool) : App (list task_tuple) :=
  conn <- create_connection ;;
  if conn then
    db <- get_db ;;
    ret (SELECT_tasks db user_id frequency completed)
  else ret [].

(** The body shared by the three forms that add a task, entered when
    [submit_button and title] holds. *)
Definition insert_task (user_id : Z) (title description due_date
                                      frequency success : string)
  : App unit :=
  if String.eqb title "" then ret tt
  else
    conn <- create_connection ;;
    if conn then
      db <- get_db ;;
      match INSERT_task db user_id title description due_date frequency with
      | inr (_, db') =>
          commit db' ;; emit (ev_success success) ;; emit ev_rerun
      | inl e => emit (ev_error ("Error adding task: " ++ e))
      end
    else ret tt.

(** Daily Tasks tab, form "add_task_form". *)
Definition add_task (user_id : Z) (title description : string)
    (due_date : Datetime.date) (frequency : frequency_option) : App unit :=
  insert_task user_id title description (Datetime.strftime due_date)
    (frequency_text frequency) "Task added successfully!".

(** Weekly/Monthly tab, form "add_recurring_task_form"; [frequency] is
    the radio above the form. *)
Definition add_recurring_task (user_id : Z) (frequency : recurring_option)
    (title description : string) (due_date : Datetime.date) : App unit :=
  insert_task user_id title description (Datetime.strftime due_date)
    (recurring_text frequency) "Recurring task added successfully!".

(** Calendar View tab, form "quick_add_task_form". *)
Definition quick_add_task (user_id : Z) (selected_date : Datetime.date)
    (quick_title quick_desc : string) : App unit :=
  insert_task user_id quick_title quick_desc
    (Datetime.strftime selected_date) "once" "Task added successfully!".

(** Daily Tasks tab: the button (key [complete_<id>]) of the [k]-th
    task that [get_tasks()] lists. Before it draws a button the page parses
    the due date of the task for its label; the texts that the forms store
    parse (they are [%Y-%m-%d] of a date), and the parse is left out. *)
Definition complete_click (user_id : Z) (k : nat) : App unit :=
  tasks <- get_tasks user_id None false ;;
  match nth_error tasks k with
  | None => ret tt
  | Some (task_id, _, _, _, _, _) =>
      conn <- create_connection ;;
      if conn then
        db <- get_db ;;
        commit (UPDATE_task_completed db task_id) ;; emit ev_rerun
      else ret tt
  end.

(** Weekly/Monthly tab: the body of the button (key [complete_<id>]
    again) of the [k]-th task that [get_tasks(frequency)] lists. The source
    parses the due date once more for the label of the task; that is the
    same call as the one below. In a run of the page the Daily Tasks tab
    has drawn a button with the same key for the same task before, and
    Streamlit refuses a second widget with a key of the run
    ([StreamlitDuplicateElementKey] at the call of [st.button]): the body
    is what the button would do, and the page does not get to it. It is
    kept among the actions, so that what is proved never to happen is
    proved of this body too. *)
Definition advance_click (user_id : Z) (frequency : recurring_option)
    (k : nat) : App unit :=
  recurring_tasks <- get_tasks user_id (Some (recurring_text frequency))
                       false ;;
  match nth_error recurring_tasks k with
  | None => ret tt
  | Some (task_id, _, _, due_date, freq, _) =>
      match Datetime.strptime due_date with
      | None => emit (ev_raise "ValueError")
      | Some d =>
          match Datetime.add_days d
                  (if String.eqb freq "weekly" then 7 else 30) with
          | None => emit (ev_raise "OverflowError")
          | Some d' =>
              let new_date := Datetime.strftime d' in
              conn <- create_connection ;;
              if conn then
                db <- get_db ;;
                commit (UPDATE_task_due_date db new_date task_id) ;;
                emit ev_rerun
              else ret tt
          end
      end
  end.

(** Calendar View tab: the tasks of the selected date. *)
Definition calendar_tasks (user_id : Z) (selected_date : Datetime.date)
  : App (list (string * string)) :=
  conn <- create_connection ;;
  if conn then
    db <- get_db ;;
    ret (SELECT_tasks_on db user_id (Datetime.strftime selected_date))
  else ret [].

(** ** protocol_generator: saving the protocol *)

Definition save_protocol (user_id : Z) (project_title aim : string)
    (date : Datetime.date) (reagents procedure : list string)
    (observations notes results : string) : App unit :=
  if String.eqb project_title "" || String.eqb aim "" then ret tt
  else
    conn <- create_connection ;;
    if conn then
      db <- get_db ;;
      match INSERT_experiment db user_id project_title aim
              (Datetime.strftime date) reagents procedure observations notes
              results with
      | inr (_, db') =>
          commit db' ;; emit (ev_success "Protocol saved successfully!")
      | inl e => emit (ev_error ("Error saving protocol: " ++ e))
      end
    else ret tt.

(** ** buffer_helper: saving a recipe

    The Tris and the Custom branch run the same statement; the texts they
    format from the recipe are the arguments. *)
Definition save_buffer (user_id : Z) (name : string) (ph : float)
    (components preparation success : string) : App unit :=
  conn <- create_connection ;;
  if conn then
    db <- get_db ;;
    match INSERT_buffer db user_id name ph components preparation with
    | inr (_, db') => commit db' ;; emit (ev_success success)
    | inl e => emit (ev_error ("Error saving buffer: " ++ e))
    end
  else ret tt.

(** ** reagent_tracker *)

(** The helper [get_reagents()]. *)
Definition get_reagents (user_id : Z) : App (list reagent_tuple) :=
  conn <- create_connection ;;
  if conn then
    db <- get_db ;;
    ret (SELECT_reagents db user_id)
  else ret [].

Definition tuple_id (r : reagent_tuple) : Z :=
  let '(id, _, _, _, _, _, _, _, _) := r in id.

Definition tuple_unit (r : reagent_tuple) : string :=
  let '(_, _, _, unit, _, _, _, _, _) := r in unit.

(** *** View Inventory tab: the editable table *)

(** A row of the data frame [df]; a cleared cell is [None]. *)
Record df_row := mkdf {
  ID : Z;
  Name : option string;
  Quantity : option float;
  Unit : option string;
  Location : option string;
  Supplier : option string;
  Catalog : option string;
  Expiry_Date : option string;
  Notes : option string
}.

Definition df_of (r : reagent_tuple) : df_row :=
  let '(id, name, quantity, unit, location, supplier, catalog_number,
        expiry_date, notes) := r in
  mkdf id (Some name) (Some quantity) (Some unit) location supplier
       catalog_number expiry_date notes.

(** One edit of a cell. The columns ID (hidden) and Status (disabled)
    cannot be edited. *)
Inductive cell :=
| cell_Name (v : option string)
| cell_Quantity (v : option float)
| cell_Unit (v : option string)
| cell_Location (v : option string)
| cell_Supplier (v : option string)
| cell_Catalog (v : option string)
| cell_Expiry (v : option Datetime.date)
| cell_Notes (v : option string).

(** [NumberColumn(min_value=0)] and [DateColumn(min_value=date.today())]
    refuse a value below their minimum: the cell keeps what it held. *)
Definition apply_cell (today : Datetime.date) (c : cell) (r : df_row)
  : df_row :=
  match c with
  | cell_Name v =>
      mkdf (ID r) v (Quantity r) (Unit r) (Location r) (Supplier r)
           (Catalog r) (Expiry_Date r) (Notes r)
  | cell_Quantity v =>
      match v with
      | Some q =>
          if PrimFloat.leb 0%float q
          then mkdf (ID r) (Name r) v (Unit r) (Location r) (Supplier r)
                    (Catalog r) (Expiry_Date r) (Notes r)
          else r
      | None =>
          mkdf (ID r) (Name r) None (Unit r) (Location r) (Supplier r)
               (Catalog r) (Expiry_Date r) (Notes r)
      end
  | cell_Unit v =>
      mkdf (ID r) (Name r) (Quantity r) v (Location r) (Supplier r)
           (Catalog r) (Expiry_Date r) (Notes r)
  | cell_Location v =>
      mkdf (ID r) (Name r) (Quantity r) (Unit r) v (Supplier r)
           (Catalog r) (Expiry_Date r) (Notes r)
  | cell_Supplier v =>
      mkdf (ID r) (Name r) (Quantity r) (Unit r) (Location r) v
           (Catalog r) (Expiry_Date r) (Notes r)
  | cell_Catalog v =>
      mkdf (ID r) (Name r) (Quantity r) (Unit r) (Location r) (Supplier r)
           v (Expiry_Date r) (Notes r)
  | cell_Expiry v =>
      match v with
      | Some d =>
          if Datetime.ymd2ord today <=? Datetime.ymd2ord d
          then mkdf (ID r) (Name r) (Quantity r) (Unit r) (Location r)
                    (Supplier r) (Catalog r) (Some (Datetime.strftime d))
                    (Notes r)
          else r
      | None =>
          mkdf (ID r) (Name r) (Quantity r) (Unit r) (Location r)
               (Supplier r) (Catalog r) None (Notes r)
      end
  | cell_Notes v =>
      mkdf (ID r) (Name r) (Quantity r) (Unit r) (Location r) (Supplier r)
           (Catalog r) (Expiry_Date r) v
  end.

Fixpoint edit_row (i : nat) (f : df_row -> df_row) (df : list df_row)
  : list df_row :=
  match df, i with
  | [], _ => []
  | r :: df', O => f r :: df'
  | r :: df', S i' => r :: edit_row i' f df'
  end.

(** [st.data_editor(df, ...)] with a fixed number of rows: the frame after
    the user's edits, each given by the index of its row and the cell. *)
Definition data_editor (today : Datetime.date) (df : list df_row)
    (edits : list (nat * cell)) : list df_row :=
  fold_left (fun d e => edit_row (fst e) (apply_cell today (snd e)) d)
            edits df.

Definition opt_eqb {A : Type} (eqb : A -> A -> bool) (a b : option A)
  : bool :=
  match a, b with
  | Some x, Some y => eqb x y
  | None, None => true
  | _, _ => false
  end.

Definition df_row_eqb (a b : df_row) : bool :=
  (ID a =? ID b)
  && opt_eqb String.eqb (Name a) (Name b)
  && opt_eqb PrimFloat.eqb (Quantity a) (Quantity b)
  && opt_eqb String.eqb (Unit a) (Unit b)
  && opt_eqb String.eqb (Location a) (Location b)
  && opt_eqb String.eqb (Supplier a) (Supplier b)
  && opt_eqb String.eqb (Catalog a) (Catalog b)
  && opt_eqb String.eqb (Expiry_Date a) (Expiry_Date b)
  && opt_eqb String.eqb (Notes a) (Notes b).

(** [edited_df.equals(df)]. *)
Fixpoint df_equals (a b : list df_row) : bool :=
  match a, b with
  | [], [] => true
  | x :: a', y :: b' => df_row_eqb x y && df_equals a' b'
  | _, _ => false
  end.

(** The loop over [edited_df.iterrows()]: one [UPDATE ... WHERE id=? AND
    user_id=?] per row, stopping at the first that fails. *)
Fixpoint update_rows (db : database) (user_id : Z) (edited_df : list df_row)
  : string + database :=
  match edited_df with
  | [] => inr db
  | row :: rest =>
      match UPDATE_reagent_of_user db (Name row) (Quantity row) (Unit row)
              (Location row) (Supplier row) (Catalog row) (Expiry_Date row)
              (Notes row) (ID row) user_id with
      | inl e => inl e
      | inr db' => update_rows db' user_id rest
      end
  end.

(** View Inventory tab: what follows [st.data_editor]. Nothing is
    committed unless every statement of the loop succeeds. *)
Definition inventory_edit (user_id : Z) (today : Datetime.date)
    (edits : list (nat * cell)) : App unit :=
  reagents <- get_reagents user_id ;;
  match reagents with
  | [] => emit (ev_info "No reagents found. Add some reagents to get started.")
  | _ =>
      let df := map df_of reagents in
      let edited_df := data_editor today df edits in
      if df_equals edited_df df then ret tt
      else
        conn <- create_connection ;;
        if conn then
          db <- get_db ;;
          match update_rows db user_id edited_df with
          | inr db' =>
              commit db' ;;
              emit (ev_success "Inventory updated successfully!") ;;
              emit ev_rerun
          | inl e => emit (ev_error ("Error updating inventory: " ++ e))
          end
        else
          emit (ev_error ("Error updating inventory: " ++ none_has_no_execute))
  end.

(** *** Add New Reagent tab *)

(** The fields of "add_reagent_form". *)
Record add_reagent_form := mkadd {
  add_name : string;
  add_quantity : float;        (* number_input, min_value=0.0 *)
  add_unit : string;           (* selectbox over unit_options *)
  add_location : string;
  add_supplier : string;
  add_catalog_num : string;
  add_expiry_date : option Datetime.date;
  add_notes : string
}.

(** What the widgets of the form can hold. *)
Definition add_form_ok (f : add_reagent_form) : bool :=
  number_input_ok (Some 0%float) (add_quantity f)
  && existsb (String.eqb (add_unit f)) unit_options.

(** On the button "Add Reagent"; [today] is [datetime.now()] as
    [%Y-%m-%d]. *)
Definition add_reagent (user_id : Z) (f : add_reagent_form) (today : string)
  : App unit :=
  if negb (add_form_ok f) || String.eqb (add_name f) "" then ret tt
  else
    conn <- create_connection ;;
    if conn then
      db <- get_db ;;
      match INSERT_reagent db user_id (add_name f) (add_quantity f)
              (add_unit f) (add_location f) (add_supplier f)
              (add_catalog_num f)
              (option_map Datetime.strftime (add_expiry_date f))
              (add_notes f) today with
      | inr (_, db') =>
          commit db' ;; emit (ev_success "Reagent added successfully!") ;;
          emit ev_rerun
      | inl e => emit (ev_error ("Error adding reagent: " ++ e))
      end
    else emit (ev_error ("Error adding reagent: " ++ none_has_no_execute)).

(** *** Update Inventory tab *)

(** The fields of "update_form". *)
Record update_form := mkupdate {
  upd_name : string;
  upd_quantity : float;        (* number_input without min_value *)
  upd_unit : string;           (* selectbox over unit_options *)
  upd_location : option string;
  upd_supplier : option string;
  upd_catalog_num : option string;
  upd_expiry : option Datetime.date;
  upd_notes : option string
}.

Definition update_form_ok (f : update_form) : bool :=
  number_input_ok None (upd_quantity f)
  && existsb (String.eqb (upd_unit f)) unit_options.

(** The part of the tab above the two buttons: [reagent_id] is the number
    read off the selected label, [reagent_data] the row of [get_reagents()]
    with that id, and the form is built from it. [k] continues with the
    row found. *)
Definition with_selected (user_id reagent_id : Z)
    (k : reagent_tuple -> App unit) : App unit :=
  reagents <- get_reagents user_id ;;
  match reagents with
  | [] => emit (ev_info "No reagents available to update")
  | _ =>
      match find (fun r => tuple_id r =? reagent_id) reagents with
      | None => emit (ev_raise "StopIteration")
      | Some reagent_data =>
          if existsb (String.eqb (tuple_unit reagent_data)) unit_options
          then k reagent_data
          else emit (ev_raise "ValueError")
      end
  end.

(** Button Update: the [try] block. *)
Definition update_reagent (reagent_id : Z) (f : update_form) : App unit :=
  conn <- create_connection ;;
  if conn then
    db <- get_db ;;
    commit (UPDATE_reagent db (upd_name f) (upd_quantity f) (upd_unit f)
              (upd_location f) (upd_supplier f) (upd_catalog_num f)
              (option_map Datetime.strftime (upd_expiry f))
              (upd_notes f) reagent_id) ;;
    emit (ev_success "Reagent updated!") ;; emit ev_rerun
  else emit (ev_error ("Error updating: " ++ none_has_no_execute)).

(** Button Delete: the [try] block. *)
Definition delete_reagent (reagent_id : Z) : App unit :=
  conn <- create_connection ;;
  if conn then
    db <- get_db ;;
    commit (DELETE_reagent db reagent_id) ;;
    emit (ev_success "Reagent deleted!") ;; emit ev_rerun
  else emit (ev_error ("Error deleting: " ++ none_has_no_execute)).

(** The tab on a press of Update. *)
Definition update_submit (user_id reagent_id : Z) (f : update_form)
  : App unit :=
  with_selected user_id reagent_id (fun _ =>
    if update_form_ok f then update_reagent reagent_id f else ret tt).

(** The tab on a press of Delete. *)
Definition delete_submit (user_id reagent_id : Z) : App unit :=
  with_selected user_id reagent_id (fun _ => delete_reagent reagent_id).

(** ** dilution_calculator *)

(** Python's [a / b] on floats. *)
Definition truediv (a b : float) : string + float :=
  if PrimFloat.eqb b 0%float then inl "ZeroDivisionError"
  else inr (PrimFloat.div a b).

Inductive dilution_outcome :=
| dilution_value (v1 : float)     (* st.success with the volume v1 *)
| dilution_error (msg : string).  (* st.error *)

(** An entry of [st.session_state.dilution_history], before formatting. *)
Record dilution_entry := mkentry {
  stock_conc : float;
  final_conc : float;
  final_vol : float;
  stock_vol : float
}.

(** On the button "Calculate": the [try] block and its
    [except ZeroDivisionError]. *)
Definition dilution_calculator (c1 c2 v2 : float)
    (history : list dilution_entry)
  : dilution_outcome * list dilution_entry :=
  match truediv (PrimFloat.mul c2 v2) c1 with
  | inr v1 => (dilution_value v1, history ++ [mkentry c1 c2 v2 v1])
  | inl _ => (dilution_error "Stock concentration cannot be zero!", history)
  end.

(** ** The actions of the users *)

(** A form submitted or a button pressed, with the identity of the session
    ([st.session_state.user_id]) that does it. *)
Inductive action :=
| Register (f : register_form) (now : string)
| AddTask (user_id : Z) (title description : string)
    (due_date : Datetime.date) (frequency : frequency_option)
| AddRecurringTask (user_id : Z) (frequency : recurring_option)
    (title description : string) (due_date : Datetime.date)
| QuickAddTask (user_id : Z) (selected_date : Datetime.date)
    (quick_title quick_desc : string)
| CompleteClick (user_id : Z) (k : nat)
| AdvanceClick (user_id : Z) (frequency : recurring_option) (k : nat)
| SaveProtocol (user_id : Z) (project_title aim : string)
    (date : Datetime.date) (reagents procedure : list string)
    (observations notes results : string)
| SaveBuffer (user_id : Z) (name : string) (ph : float)
    (components preparation success : string)
| InventoryEdit (user_id : Z) (today : Datetime.date)
    (edits : list (nat * cell))
| AddReagent (user_id : Z) (f : add_reagent_form) (today : string)
| UpdateSubmit (user_id reagent_id : Z) (f : update_form)
| DeleteSubmit (user_id reagent_id : Z).

Definition step (sha256 : string -> string) (a : action) : App unit :=
  match a with
  | Register f now => login_page_register sha256 f now
  | AddTask u t d dd fr => add_task u t d dd fr
  | AddRecurringTask u fr t d dd => add_recurring_task u fr t d dd
  | QuickAddTask u sd t d => quick_add_task u sd t d
  | CompleteClick u k => complete_click u k
  | AdvanceClick u fr k => advance_click u fr k
  | SaveProtocol u t a d rs ps o n r => save_protocol u t a d rs ps o n r
  | SaveBuffer u n ph c p s => save_buffer u n ph c p s
  | InventoryEdit u today edits => inventory_edit u today edits
  | AddReagent u f today => add_reagent u f today
  | UpdateSubmit u i f => update_submit u i f
  | DeleteSubmit u i => delete_submit u i
  end.

(** The user whose session does the action; registration has none. *)
Definition actor (a : action) : option Z :=
  match a with
  | Register _ _ => None
  | AddTask u _ _ _ _ | AddRecurringTask u _ _ _ _ | QuickAddTask u _ _ _
  | CompleteClick u _ | AdvanceClick u _ _
  | SaveProtocol u _ _ _ _ _ _ _ _ | SaveBuffer u _ _ _ _ _
  | InventoryEdit u _ _ | AddReagent u _ _ | UpdateSubmit u _ _
  | DeleteSubmit u _ => Some u
  end.

(** The actions that create a row of one of the four repositories. *)
Definition is_create (a : action) : bool :=
  match a with
  | AddTask _ _ _ _ _ | AddRecurringTask _ _ _ _ _ | QuickAddTask _ _ _ _
  | SaveProtocol _ _ _ _ _ _ _ _ _ | SaveBuffer _ _ _ _ _ _
  | AddReagent _ _ _ => true
  | _ => false
  end.

Definition run (sha256 : string -> string) (l : list action) (w : world)
  : world :=
  fold_left (fun w a => exec (step sha256 a) w) l w.

End App.

(* ================================================================== *)
(** * Sessions: login_page (Login, Logout) and main *)
(* ================================================================== *)

Module Session.
Import Sqlite Schema Stmt App.

(** The keys of [st.session_state] that login_page and main use; a key
    that is absent or [None] is [None]. *)
Record session_state := mksession {
  logged_in : bool;
  username : option string;
  user_id : option Z;
  current_page : string
}.

(** A new browser session after the first lines of main: [logged_in] is
    [False] and [current_page] is "dashboard". *)
Definition initial_session : session_state :=
  mksession false None None "dashboard".

(** The button Logout, in the sidebar of main and in login_page. *)
Definition logout (s : session_state) : session_state :=
  mksession false None None "login".

(** login_page, menu Login, on the submit button. The form is drawn for a
    session that is not logged in. *)
Definition login_page_login (sha256 : string -> string) (s : session_state)
    (typed_username password : string) : App session_state :=
  if logged_in s then ret s
  else
    user <- verify_user sha256 typed_username password ;;
    match user with
    | Some (id, _) =>
        emit (ev_success "Login successful!") ;; emit ev_rerun ;;
        ret (mksession true (Some typed_username) (Some id) "dashboard")
    | None => emit (ev_error "Invalid credentials") ;; ret s
    end.

(** The options of the sidebar menu of main. *)
Definition menu_options : list string :=
  ["Dashboard"; "Dilution Calculator"; "Solution Helper"; "Buffer Helper";
   "Lab Planner"; "Protocol Generator"; "Reagent Tracker"; "Data Visualizer";
   "Help"].

(** [page_mapping.get(selected_page, "dashboard")]. *)
Definition page_mapping (selected_page : string) : string :=
  if String.eqb selected_page "Dashboard" then "dashboard"
  else if String.eqb selected_page "Dilution Calculator"
  then "dilution_calculator"
  else if String.eqb selected_page "Solution Helper" then "solution_helper"
  else if String.eqb selected_page "Buffer Helper" then "buffer_helper"
  else if String.eqb selected_page "Lab Planner" then "lab_planner"
  else if String.eqb selected_page "Protocol Generator"
  then "protocol_generator"
  else if String.eqb selected_page "Reagent Tracker" then "reagent_tracker"
  else if String.eqb selected_page "Data Visualizer" then "data_visualizer"
  else if String.eqb selected_page "Help" then "help"
  else "dashboard".

(** The sidebar of main, drawn for a session that is logged in:
    [selected_page] is the value of the menu, [logout_pressed] the
    button. *)
Definition sidebar (s : session_state) (selected_page : string)
    (logout_pressed : bool) : session_state :=
  if logged_in s then
    let s1 := mksession (logged_in s) (username s) (user_id s)
                (page_mapping selected_page) in
    if logout_pressed then logout s1 else s1
  else s.

(** The functions that main dispatches to; [no_page] when no branch of
    the dispatch is taken. *)
Inductive page :=
| login_page | dashboard_page | dilution_calculator | solution_helper
| buffer_helper | lab_planner | protocol_generator | reagent_tracker
| data_visualizer | help_section | no_page.

(** The page routing at the end of main. *)
Definition routing (s : session_state) : page :=
  if negb (logged_in s) then login_page
  else if String.eqb (current_page s) "dashboard" then dashboard_page
  else if String.eqb (current_page s) "dilution_calculator"
  then dilution_calculator
  else if String.eqb (current_page s) "solution_helper" then solution_helper
  else if String.eqb (current_page s) "buffer_helper" then buffer_helper
  else if String.eqb (current_page s) "lab_planner" then lab_planner
  else if String.eqb (current_page s) "protocol_generator"
  then protocol_generator
  else if String.eqb (current_page s) "reagent_tracker" then reagent_tracker
  else if String.eqb (current_page s) "data_visualizer" then data_visualizer
  else if String.eqb (current_page s) "help" then help_section
  else no_page.

(** One run of main up to the dispatch: the session after the sidebar and
    the page drawn. A press of Logout ends the run with [st.rerun()], and
    the run that follows dispatches. *)
Definition main (s : session_state) (selected_page : string)
    (logout_pressed : bool) : session_state * page :=
  let s' := sidebar s selected_page logout_pressed in
  (s', routing s').

(** A Quick Action button of the dashboard: it sets [current_page] to
    [target] and reruns. *)
Definition quick_action (s : session_state) (target : string)
  : session_state :=
  mksession (logged_in s) (username s) (user_id s) target.

(** What a user can do on a page other than login_page: the actions of
    the application without the identity, which the handlers read from
    the session. *)
Inductive page_action :=
| PAddTask (title description : string) (due_date : Datetime.date)
    (frequency : frequency_option)
| PAddRecurringTask (frequency : recurring_option)
    (title description : string) (due_date : Datetime.date)
| PQuickAddTask (selected_date : Datetime.date)
    (quick_title quick_desc : string)
| PCompleteClick (k : nat)
| PAdvanceClick (frequency : recurring_option) (k : nat)
| PSaveProtocol (project_title aim : string) (date : Datetime.date)
    (reagents procedure : list string) (observations notes results : string)
| PSaveBuffer (name : string) (ph : float)
    (components preparation success : string)
| PInventoryEdit (today : Datetime.date) (edits : list (nat * cell))
| PAddReagent (f : add_reagent_form) (today : string)
| PUpdateSubmit (reagent_id : Z) (f : update_form)
| PDeleteSubmit (reagent_id : Z).

(** The action with [st.session_state.user_id] filled in. *)
Definition with_user (u : Z) (p : page_action) : action :=
  match p with
  | PAddTask t d dd fr => AddTask u t d dd fr
  | PAddRecurringTask fr t d dd => AddRecurringTask u fr t d dd
  | PQuickAddTask sd t d => QuickAddTask u sd t d
  | PCompleteClick k => CompleteClick u k
  | PAdvanceClick fr k => AdvanceClick u fr k
  | PSaveProtocol t a d rs ps o n r => SaveProtocol u t a d rs ps o n r
  | PSaveBuffer n ph c p s => SaveBuffer u n ph c p s
  | PInventoryEdit today edits => InventoryEdit u today edits
  | PAddReagent f today => AddReagent u f today
  | PUpdateSubmit i f => UpdateSubmit u i f
  | PDeleteSubmit i => DeleteSubmit u i
  end.

(** What one browser session can do in one run of the script. *)
Inductive session_action :=
| SLogin (typed_username password : string)
| SRegister (f : register_form) (now : string)
| SLogout
| SPage (p : page_action).

(** One run of the script for the session [s]. main draws login_page for a
    session that is not logged in and a page for one that is; the page
    handlers read [user_id] from the session (a session that is logged in
    has one: login sets the two keys together). *)
Definition session_step (sha256 : string -> string) (a : session_action)
    (s : session_state) : App session_state :=
  match a with
  | SLogin u p => login_page_login sha256 s u p
  | SRegister f now =>
      if logged_in s then ret s
      else login_page_register sha256 f now ;; ret s
  | SLogout =>
      if logged_in s then emit ev_rerun ;; ret (logout s) else ret s
  | SPage p =>
      if logged_in s then
        match user_id s with
        | Some u => step sha256 (with_user u p) ;; ret s
        | None => ret s
        end
      else ret s
  end.

(** The application with its browser sessions, numbered. *)
Record system := mksystem {
  sys_world : world;
  sys_sessions : nat -> session_state
}.

Definition initial_system (storage : bool) : system :=
  mksystem (mkworld initialize_db storage []) (fun _ => initial_session).

(** The session [sid] does [a]. *)
Definition system_step (sha256 : string -> string)
    (e : nat * session_action) (y : system) : system :=
  let (sid, a) := e in
  let (s', w') := session_step sha256 a (sys_sessions y sid) (sys_world y) in
  mksystem w'
    (fun i => if Nat.eqb i sid then s' else sys_sessions y i).

Definition system_run (sha256 : string -> string)
    (l : list (nat * session_action)) (y : system) : system :=
  fold_left (fun y e => system_step sha256 e y) l y.

End Session.

(* ================================================================== *)
(** * The labels of the Update Inventory tab *)
(* ================================================================== *)

Module Labels.
Import Stmt.

(** ** The methods of [str] and [int] that the tab uses *)

(** [s.startswith(prefix)]. *)
Fixpoint startswith (prefix s : string) : bool :=
  match prefix, s with
  | "", _ => true
  | String _ _, "" => false
  | String a prefix', String b s' => (a =? b)%char && startswith prefix' s'
  end.

(** [s[n:]]. *)
Fixpoint drop (n : nat) (s : string) : string :=
  match n, s with
  | O, _ => s
  | S _, "" => ""
  | S n', String _ s' => drop n' s'
  end.

(** [s.partition(sep)] without its middle, for a separator that is not
    empty: the text before and the text after the first occurrence of
    [sep] in [s]; [None] when there is none. *)
Fixpoint partition (sep s : string) : option (string * string) :=
  if startswith sep s then Some ("", drop (String.length sep) s)
  else
    match s with
    | "" => None
    | String c s' =>
        match partition sep s' with
        | Some (before, after) => Some (String c before, after)
        | None => None
        end
    end.

(** [s.split(sep)[1]]: the text between the first occurrence of [sep] and
    the next one, or the end of [s]. [None] stands for the [IndexError]
    on a list of one item. *)
Definition split_item_1 (sep s : string) : option string :=
  match partition sep s with
  | None => None
  | Some (_, rest) =>
      match partition sep rest with
      | None => Some rest
      | Some (item, _) => Some item
      end
  end.

(** [s.replace(old, "")] for a single character [old]. *)
Fixpoint remove_char (old : ascii) (s : string) : string :=
  match s with
  | "" => ""
  | String c s' =>
      if (c =? old)%char then remove_char old s'
      else String c (remove_char old s')
  end.

(** The decimal digits of [n], which is not negative and below
    [10 ^ fuel]. *)
Fixpoint digits_of (fuel : nat) (n : Z) : string :=
  match fuel with
  | O => ""
  | S fuel' =>
      if n <? 10 then String (Datetime.digit_char n) ""
      else digits_of fuel' (n / 10)
           ++ String (Datetime.digit_char (n mod 10)) ""
  end.

(** [str(n)] for an [int]. *)
Definition str (n : Z) : string :=
  if n <? 0 then String "-" (digits_of (S (Z.to_nat (Z.log2 (- n)))) (- n))
  else digits_of (S (Z.to_nat (Z.log2 n))) n.

(** [c.isspace()] for a character with a code below 256. *)
Definition isspace (c : ascii) : bool :=
  let n := nat_of_ascii c in
  ((9 <=? n) && (n <=? 13) || (28 <=? n) && (n <=? 32) || (n =? 133)
   || (n =? 160))%nat.

Fixpoint lstrip (s : string) : string :=
  match s with
  | "" => ""
  | String c s' => if isspace c then lstrip s' else s
  end.

Fixpoint rstrip (s : string) : string :=
  match s with
  | "" => ""
  | String c s' =>
      match rstrip s' with
      | "" => if isspace c then "" else String c ""
      | t => String c t
      end
  end.

(** [s.strip()]. *)
Definition strip (s : string) : string := rstrip (lstrip s).

(** The digits of a decimal literal, with single underscores between
    digits, read from the left; [acc] is the value so far. *)
Fixpoint int_digits (acc : Z) (s : string) : option Z :=
  match s with
  | "" => None
  | String c s' =>
      match Datetime.digit_val c with
      | None => None
      | Some d =>
          let acc := 10 * acc + d in
          match s' with
          | "" => Some acc
          | String c' s'' =>
              if (c' =? "_")%char then int_digits acc s''
              else int_digits acc s'
          end
      end
  end.

(** [int(s)] for a [str]; [None] stands for the [ValueError]. The limit
    that recent versions set on the number of digits is left out. *)
Definition int (s : string) : option Z :=
  match strip s with
  | String c t =>
      if (c =? "-")%char then option_map Z.opp (int_digits 0 t)
      else if (c =? "+")%char then int_digits 0 t
      else int_digits 0 (String c t)
  | "" => None
  end.

(** ** The select box *)

(** The label of a reagent: [f"{r[1]} (ID: {r[0]})"]. *)
Definition reagent_label (r : reagent_tuple) : string :=
  let '(id, name, _, _, _, _, _, _, _) := r in
  name ++ " (ID: " ++ str id ++ ")".

(** [int(selected.split("(ID: ")[1].replace(")", ""))]: the id that the
    tab reads off the selected label; on the left the exception. *)
Definition selected_reagent_id (selected : string) : string + Z :=
  match split_item_1 "(ID: " selected with
  | None => inl "IndexError"
  | Some item =>
      match int (remove_char ")" item) with
      | None => inl "ValueError"
      | Some reagent_id => inr reagent_id
      end
  end.

End Labels.

(* ================================================================== *)
(** * Vocabulary of the properties *)
(* ================================================================== *)

Import Sqlite Schema Stmt App.

Module Calendar.
Import Datetime.

(** The month and the day that [ord2ymd] reads off the day [n] (from 0)
    of a year. *)
Definition month_day (leapyear : bool) (n : Z) : Z * Z :=
  let month := Z.shiftr (n + 50) 5 in
  let preceding :=
    DAYS_BEFORE_MONTH month + (if (2 <? month) && leapyear then 1 else 0) in
  if n <? preceding then
    let month := month - 1 in
    let preceding :=
      preceding
      - (DAYS_IN_MONTH month + (if (month =? 2) && leapyear then 1 else 0)) in
    (month, n - preceding + 1)
  else (month, n - preceding + 1).

(** What [month_day] must satisfy, as a test. *)
Definition month_day_ok (leapyear : bool) (n : Z) : bool :=
  let (m, d) := month_day leapyear n in
  (1 <=? m) && (m <=? 12) && (1 <=? d)
  && (d <=? (if (m =? 2) && leapyear then 29 else DAYS_IN_MONTH m))
  && (DAYS_BEFORE_MONTH m + (if (2 <? m) && leapyear then 1 else 0) + d
      =? n + 1).

End Calendar.

(** The [UNIQUE] constraint on [users.username]. *)
Definition users_unique (db : database) : Prop :=
  NoDup (map u_username (rows (users db))).

(** Some row of [users] has the user name [u]. *)
Definition has_username (db : database) (u : string) : Prop :=
  In u (map u_username (rows (users db))).

(** ** Keys and owners *)

(** No row has a key above the counter of its table. *)
Definition keys_bounded {R : Type} (key : R -> Z) (t : table R) : Prop :=
  Forall (fun r => key r <= seq t) (rows t).

Definition keys_ok (db : database) : Prop :=
  keys_bounded t_id (tasks db) /\ keys_bounded r_id (reagents db)
  /\ keys_bounded e_id (experiments db) /\ keys_bounded b_id (buffers db).

(** [r] is a row that an action created: the table has it after the
    action and did not have it before. *)
Definition created {R : Type} (before after : table R) (r : R) : Prop :=
  In r (rows after) /\ ~ In r (rows before).

(** [t'] is [t], or [t] with one more row, which has the next key and the
    owner [u]. *)
Definition appended {R : Type} (key owner : R -> Z) (u : Z) (t t' : table R)
  : Prop :=
  t' = t
  \/ exists r, rows t' = rows t ++ [r] /\ key r = seq t + 1
               /\ seq t' = seq t + 1 /\ owner r = u.

(** [t'] has the rows of [t] and, after them, rows with later keys. *)
Definition extends {R : Type} (key : R -> Z) (t t' : table R) : Prop :=
  seq t <= seq t'
  /\ exists extra, rows t' = rows t ++ extra
                   /\ Forall (fun r => seq t < key r) extra.

(** The rows [selected] for user [A] from the table [final] are rows of
    that table, belong to [A], and none has the key of a row that the
    action between [before] and [after] created. *)
Definition isolated {R : Type} (key owner : R -> Z) (A : Z)
    (before after final : table R) (selected : list R) : Prop :=
  forall r, In r selected ->
    In r (rows final) /\ owner r = A
    /\ forall r0, created before after r0 -> key r <> key r0.





(** ** Ownership *)

(** The primary key: bounded by the counter and without repetition. *)
Definition key_wf {R : Type} (key : R -> Z) (t : table R) : Prop :=
  keys_bounded key t /\ NoDup (map key (rows t)).

Definition store_wf (db : database) : Prop :=
  key_wf t_id (tasks db) /\ key_wf r_id (reagents db)
  /\ key_wf e_id (experiments db) /\ key_wf b_id (buffers db).

(** The rows that do not belong to [A], in rowid order. *)
Definition others {R : Type} (owner : R -> Z) (A : Z) (t : table R) : list R :=
  filter (fun r => negb (owner r =? A)) (rows t).

(** The rows of the four repositories that do not belong to [A]. *)
Definition others_rows (A : Z) (db : database)
  : list task_row * list reagent_row * list experiment_row * list buffer_row :=
  (others t_user_id A (tasks db), others r_user_id A (reagents db),
   others e_user_id A (experiments db), others b_user_id A (buffers db)).

(** ** Quantities *)

(** Every reagent has a quantity that is not below zero. *)
Definition quantities_nonneg (db : database) : Prop :=
  Forall (fun r => PrimFloat.leb 0 (r_quantity r) = true) (rows (reagents db)).

(** A row of the inventory editor whose quantity, if any, is not below
    zero. *)
Definition quantity_ok (row : df_row) : Prop :=
  forall q, Quantity row = Some q -> PrimFloat.leb 0 q = true.

Definition is_update_submit (a : action) : bool :=
  match a with UpdateSubmit _ _ _ => true | _ => false end.

(** ** Histories *)

(** [r'] is the row [r] at a later time: the same key, owner, title,
    description and frequency; [completed] as it was or set. *)
Definition task_evolves (r r' : task_row) : Prop :=
  t_id r' = t_id r /\ t_user_id r' = t_user_id r /\ t_title r' = t_title r
  /\ t_description r' = t_description r /\ t_frequency r' = t_frequency r
  /\ (t_completed r' = t_completed r \/ t_completed r' = 1).

(** [t'] holds a later version of every row of [t], in the same order,
    and then the rows that came after. *)
Definition tasks_evolve (t t' : table task_row) : Prop :=
  exists kept extra,
    rows t' = kept ++ extra /\ Forall2 task_evolves (rows t) kept.

(** [t'] holds the rows of [t], unchanged and in the same order, and then
    the rows that came after. *)
Definition append_only {R : Type} (t t' : table R) : Prop :=
  exists extra, rows t' = rows t ++ extra.

(** The key [id] was issued by the table, and every row that has it is
    marked completed. *)
Definition checked_off (id : Z) (t : table task_row) : Prop :=
  keys_bounded t_id t /\ id <= seq t
  /\ Forall (fun r => t_id r = id -> t_completed r = 1) (rows t).

(** ** Dates *)

(** What [st.date_input] returns: a date, here of a year that is written
    with four digits. *)
Definition date_input_ok (d : Datetime.date) : bool :=
  Datetime.valid_date d && (1000 <=? Datetime.year d).

(** The text [s] is [%Y-%m-%d] of such a date. *)
Definition date_text (s : string) : Prop :=
  exists d, date_input_ok d = true /\ s = Datetime.strftime d.

Definition due_dates_ok (db : database) : Prop :=
  Forall (fun r => date_text (t_due_date r)) (rows (tasks db)).

(** The dates of the forms of an action are dates of [st.date_input]. *)
Definition action_dates_ok (a : action) : bool :=
  match a with
  | AddTask _ _ _ due_date _ | AddRecurringTask _ _ _ _ due_date
  | QuickAddTask _ due_date _ _ => date_input_ok due_date
  | _ => true
  end.

(** ** The inventory editor *)

(** The row of the frame holds a name, a quantity and a unit, the columns
    that are [NOT NULL]. *)
Definition df_complete (row : df_row) : bool :=
  match Name row, Quantity row, Unit row with
  | Some _, Some _, Some _ => true
  | _, _, _ => false
  end.

(** The messages of the [NOT NULL] constraints of [reagents]. *)
Definition not_null_messages : list string :=
  ["NOT NULL constraint failed: reagents.name";
   "NOT NULL constraint failed: reagents.quantity";
   "NOT NULL constraint failed: reagents.unit"].

(** ** Passwords *)

(** The column [password] of every account holds the digest of a password
    of at least six characters. *)
Definition passwords_hashed (sha256 : string -> string) (db : database)
  : Prop :=
  Forall (fun r => exists password,
                     u_password r = sha256 password
                     /\ (6 <= String.length password)%nat)
         (rows (users db)).

(** ** Text *)

(** Every character of [s] passes the test [p]. *)
Fixpoint all_chars (p : ascii -> bool) (s : string) : bool :=
  match s with
  | "" => true
  | String c s' => p c && all_chars p s'
  end.

(** The string has no opening parenthesis. *)
Definition no_paren (s : string) : bool :=
  all_chars (fun c => negb (c =? "(")%char) s.

(** A character that is neither white space nor a parenthesis. *)
Definition tame (c : ascii) : bool :=
  negb (Labels.isspace c) && negb (c =? "(")%char && negb (c =? ")")%char.

(** ** References *)

(** Some row of [users] has the key [u]. *)
Definition is_user (db : database) (u : Z) : Prop :=
  In u (map u_id (rows (users db))).

(** The owner of every row of the four repositories satisfies [P]. *)
Definition owners_in (P : Z -> Prop) (db : database) : Prop :=
  Forall (fun r => P (t_user_id r)) (rows (tasks db))
  /\ Forall (fun r => P (r_user_id r)) (rows (reagents db))
  /\ Forall (fun r => P (e_user_id r)) (rows (experiments db))
  /\ Forall (fun r => P (b_user_id r)) (rows (buffers db)).

(** [FOREIGN KEY (user_id) REFERENCES users (id)], which the connection
    of create_connection does not enforce ([PRAGMA foreign_keys] is never
    set). *)
Definition references_ok (db : database) : Prop := owners_in (is_user db) db.

(** A session that is logged in holds the key and the name of a row of
    [users]. *)
Definition session_ok (db : database) (s : Session.session_state) : Prop :=
  Session.logged_in s = true ->
  exists r, In r (rows (users db)) /\ Session.user_id s = Some (u_id r)
            /\ Session.username s = Some (u_username r).

Definition system_ok (y : Session.system) : Prop :=
  let db := store (Session.sys_world y) in
  references_ok db
  /\ (forall i, session_ok db (Session.sys_sessions y i))
  /\ users_unique db /\ key_wf u_id (users db) /\ store_wf db.

(* ================================================================== *)
(** * Properties *)
(* ================================================================== *)

(** Unfolds the monad of the handlers. *)
Ltac run_app :=
  unfold exec, eval, bind, ret, emit, commit, get_db, create_connection in *;
  cbn [fst snd store storage_ok log] in *.

(** Runs a handler case by case, innermost test first; the result of
    the loop of the inventory editor is kept as an equation. *)
Ltac step_through :=
  run_app;
  repeat (cbn [fst snd store storage_ok log];
          match goal with
          | |- context [match update_rows ?db ?u ?df with _ => _ end] =>
              destruct (update_rows db u df) eqn:?
          | |- context [match ?x with _ => _ end] =>
              lazymatch x with
              | context [match _ with _ => _ end] => fail
              | _ => destruct x
              end
          end);
  cbn [fst snd store storage_ok log].

(** ** The calendar *)

Example strptime_2024_01_01 :
  Datetime.strptime "2024-01-01" = Some (Datetime.mkdate 2024 1 1).
Proof. reflexivity. Qed.

Example add_week_2024_01_01 :
  option_map Datetime.strftime
    (Datetime.add_days (Datetime.mkdate 2024 1 1) 7) = Some "2024-01-08".
Proof. reflexivity. Qed.

Example add_30_2024_01_31 :
  option_map Datetime.strftime
    (Datetime.add_days (Datetime.mkdate 2024 1 31) 30) = Some "2024-03-01".
Proof. reflexivity. Qed.

Example ord_9999_12_31 :
  Datetime.ymd2ord (Datetime.mkdate 9999 12 31) = Datetime.MAXORDINAL
  /\ Datetime.ord2ymd Datetime.MAXORDINAL = Datetime.mkdate 9999 12 31
  /\ Datetime.ord2ymd 1 = Datetime.mkdate 1 1 1.
Proof. repeat split; reflexivity. Qed.

Section CalendarFacts.
Import Datetime Calendar.

Lemma is_leap_decomposed (n400 n100 n4 n1 : Z) :
  0 <= n400 -> 0 <= n100 <= 3 -> 0 <= n4 <= 24 -> 0 <= n1 <= 3 ->
  is_leap (n400 * 400 + 1 + n100 * 100 + n4 * 4 + n1)
  = (n1 =? 3) && (negb (n4 =? 24) || (n100 =? 3)).
Proof.
  intros H400 H100 H4 H1. unfold is_leap.
  set (y := n400 * 400 + 1 + n100 * 100 + n4 * 4 + n1).
  assert (E4 : y mod 4 = (n1 + 1) mod 4).
  { unfold y. replace (n400 * 400 + 1 + n100 * 100 + n4 * 4 + n1)
      with ((n1 + 1) + (n400 * 100 + n100 * 25 + n4) * 4) by ring.
    apply Z.mod_add. lia. }
  assert (E100 : y mod 100 = (n4 * 4 + n1 + 1) mod 100).
  { unfold y. replace (n400 * 400 + 1 + n100 * 100 + n4 * 4 + n1)
      with ((n4 * 4 + n1 + 1) + (n400 * 4 + n100) * 100) by ring.
    apply Z.mod_add. lia. }
  assert (E400 : y mod 400 = (n100 * 100 + n4 * 4 + n1 + 1) mod 400).
  { unfold y. replace (n400 * 400 + 1 + n100 * 100 + n4 * 4 + n1)
      with ((n100 * 100 + n4 * 4 + n1 + 1) + n400 * 400) by ring.
    apply Z.mod_add. lia. }
  rewrite E4, E100, E400.
  destruct (Z.eqb_spec n1 3) as [-> | N1].
  - replace ((3 + 1) mod 4) with 0 by reflexivity. cbn [Z.eqb andb].
    destruct (Z.eqb_spec n4 24) as [-> | N4].
    + replace ((24 * 4 + 3 + 1) mod 100) with 0 by reflexivity.
      cbn [Z.eqb negb orb].
      destruct (Z.eqb_spec n100 3) as [-> | N100]; [ reflexivity | ].
      apply Z.eqb_neq. rewrite Z.mod_small by lia. lia.
    + cbn [negb orb].
      assert ((n4 * 4 + 3 + 1) mod 100 <> 0) by (rewrite Z.mod_small by lia; lia).
      apply Z.eqb_neq in H. rewrite H. reflexivity.
  - assert ((n1 + 1) mod 4 <> 0) by (rewrite Z.mod_small by lia; lia).
    apply Z.eqb_neq in H. rewrite H. reflexivity.
Qed.

Lemma days_before_year_decomposed (n400 n100 n4 n1 : Z) :
  0 <= n400 -> 0 <= n100 <= 3 -> 0 <= n4 <= 24 -> 0 <= n1 <= 3 ->
  days_before_year (n400 * 400 + 1 + n100 * 100 + n4 * 4 + n1)
  = n400 * 146097 + n100 * 36524 + n4 * 1461 + n1 * 365.
Proof.
  intros H400 H100 H4 H1. unfold days_before_year. cbv zeta.
  replace (n400 * 400 + 1 + n100 * 100 + n4 * 4 + n1 - 1)
    with (n400 * 400 + n100 * 100 + n4 * 4 + n1) by ring.
  set (y := n400 * 400 + n100 * 100 + n4 * 4 + n1).
  assert (Q4 : y / 4 = n400 * 100 + n100 * 25 + n4).
  { symmetry. apply (Z.div_unique y 4 _ n1); unfold y; lia. }
  assert (Q100 : y / 100 = n400 * 4 + n100).
  { symmetry. apply (Z.div_unique y 100 _ (n4 * 4 + n1)); unfold y; lia. }
  assert (Q400 : y / 400 = n400).
  { symmetry. apply (Z.div_unique y 400 _ (n100 * 100 + n4 * 4 + n1)); unfold y; lia. }
  rewrite Q4, Q100, Q400. unfold y. ring.
Qed.

Lemma month_day_checked (leapyear : bool) :
  forallb (fun k => month_day_ok leapyear (Z.of_nat k)) (List.seq 0 365) = true.
Proof. destruct leapyear; vm_compute; reflexivity. Qed.

Lemma month_day_spec (leapyear : bool) (n : Z) :
  0 <= n < 365 -> month_day_ok leapyear n = true.
Proof.
  intros Hn. pose proof (month_day_checked leapyear) as H.
  rewrite forallb_forall in H.
  specialize (H (Z.to_nat n)). rewrite Z2Nat.id in H by lia.
  apply H. apply in_seq. lia.
Qed.

Lemma ord2ymd_month_day (n : Z) :
  ord2ymd n =
  let n := n - 1 in
  let n400 := n / DI400Y in
  let n := n mod DI400Y in
  let n100 := n / DI100Y in
  let n := n mod DI100Y in
  let n4 := n / DI4Y in
  let n := n mod DI4Y in
  let n1 := n / 365 in
  let n := n mod 365 in
  let year := n400 * 400 + 1 + n100 * 100 + n4 * 4 + n1 in
  if (n1 =? 4) || (n100 =? 4) then mkdate (year - 1) 12 31
  else
    let md := month_day ((n1 =? 3) && (negb (n4 =? 24) || (n100 =? 3))) n in
    mkdate year (fst md) (snd md).
Proof.
  unfold ord2ymd, month_day. cbv zeta.
  destruct (_ || _); [ reflexivity | ].
  destruct (_ <? _); reflexivity.
Qed.

Lemma days_before_month_table (y m : Z) (leap : bool) :
  is_leap y = leap ->
  days_before_month y m = DAYS_BEFORE_MONTH m + (if (2 <? m) && leap then 1 else 0).
Proof. intros <-. reflexivity. Qed.

Lemma ord2ymd_spec (n : Z) :
  1 <= n <= MAXORDINAL ->
  ymd2ord (ord2ymd n) = n /\ valid_date (ord2ymd n) = true.
Proof.
  unfold MAXORDINAL. intros Hn. rewrite ord2ymd_month_day. cbv zeta.
  unfold DI400Y, DI100Y, DI4Y.
  set (n0 := n - 1).
  pose proof (Z.div_mod n0 146097 ltac:(lia)) as E400.
  pose proof (Z.mod_pos_bound n0 146097 ltac:(lia)) as B400.
  set (n400 := n0 / 146097) in *. set (r1 := n0 mod 146097) in *.
  pose proof (Z.div_mod r1 36524 ltac:(lia)) as E100.
  pose proof (Z.mod_pos_bound r1 36524 ltac:(lia)) as B100.
  set (n100 := r1 / 36524) in *. set (r2 := r1 mod 36524) in *.
  pose proof (Z.div_mod r2 1461 ltac:(lia)) as E4.
  pose proof (Z.mod_pos_bound r2 1461 ltac:(lia)) as B4.
  set (n4 := r2 / 1461) in *. set (r3 := r2 mod 1461) in *.
  pose proof (Z.div_mod r3 365 ltac:(lia)) as E1.
  pose proof (Z.mod_pos_bound r3 365 ltac:(lia)) as B1.
  set (n1 := r3 / 365) in *. set (r4 := r3 mod 365) in *.
  assert (H400 : 0 <= n400 <= 24) by (unfold n0 in *; lia).
  assert (H100 : 0 <= n100 <= 4) by lia.
  assert (H4 : 0 <= n4 <= 24) by lia.
  assert (H1 : 0 <= n1 <= 4) by lia.
  clearbody n400 r1 n100 r2 n4 r3 n1 r4.
  destruct (Z.eqb_spec n1 4) as [N1 | N1]; cbn [orb].
  - (* the last day of a four-year cycle *)
    assert (n100 <= 3 /\ n4 <= 23 /\ r4 = 0) as (? & ? & ?) by lia.
    replace (n400 * 400 + 1 + n100 * 100 + n4 * 4 + n1 - 1)
      with (n400 * 400 + 1 + n100 * 100 + n4 * 4 + 3) by lia.
    pose proof (is_leap_decomposed n400 n100 n4 3) as L.
    pose proof (days_before_year_decomposed n400 n100 n4 3) as D.
    replace ((3 =? 3) && (negb (n4 =? 24) || (n100 =? 3))) with true in L
      by (destruct (Z.eqb_spec n4 24); [ lia | reflexivity ]).
    unfold ymd2ord, valid_date, days_in_month, MINYEAR, MAXYEAR.
    cbn [year month day].
    rewrite (days_before_month_table _ _ true) by (apply L; lia).
    rewrite D by lia. cbn. split; [ unfold n0 in *; lia | ].
    apply andb_true_intro; split; [ | reflexivity ].
    repeat (apply andb_true_intro; split); try reflexivity;
      apply Z.leb_le; lia.
  - destruct (Z.eqb_spec n100 4) as [N100 | N100].
    + (* the last day of a 400-year cycle *)
      assert (n4 = 0 /\ n1 = 0 /\ r4 = 0) as (? & ? & ?) by lia. subst.
      replace (n400 * 400 + 1 + 4 * 100 + 0 * 4 + 0 - 1)
        with (n400 * 400 + 1 + 3 * 100 + 24 * 4 + 3) by lia.
      pose proof (is_leap_decomposed n400 3 24 3) as L.
      pose proof (days_before_year_decomposed n400 3 24 3) as D.
      unfold ymd2ord, valid_date, days_in_month, MINYEAR, MAXYEAR.
      cbn [year month day].
      rewrite (days_before_month_table _ _ true) by (apply L; lia).
      rewrite D by lia. cbn. split; [ unfold n0 in *; lia | ].
      apply andb_true_intro; split; [ | reflexivity ].
      repeat (apply andb_true_intro; split); try reflexivity;
        apply Z.leb_le; lia.
    + (* any other day *)
      assert (Hn1 : 0 <= n1 <= 3) by lia.
      assert (Hn100 : 0 <= n100 <= 3) by lia.
      pose proof (is_leap_decomposed n400 n100 n4 n1
                    ltac:(lia) Hn100 H4 Hn1) as L.
      pose proof (days_before_year_decomposed n400 n100 n4 n1
                    ltac:(lia) Hn100 H4 Hn1) as D.
      assert (Hy : 1 <= n400 * 400 + 1 + n100 * 100 + n4 * 4 + n1 <= 9999)
        by (unfold n0 in *; lia).
      assert (Hord : n = n400 * 146097 + n100 * 36524 + n4 * 1461 + n1 * 365
                         + r4 + 1) by (unfold n0 in *; lia).
      set (y := n400 * 400 + 1 + n100 * 100 + n4 * 4 + n1) in *.
      set (leap := (n1 =? 3) && (negb (n4 =? 24) || (n100 =? 3))) in *.
      cbn [orb].
      pose proof (month_day_spec leap r4 ltac:(lia)) as M.
      unfold month_day_ok in M.
      destruct (month_day leap r4) as [m d]. cbn [fst snd].
      apply andb_prop in M. destruct M as [M M5].
      apply andb_prop in M. destruct M as [M M4].
      apply andb_prop in M. destruct M as [M M3].
      apply andb_prop in M. destruct M as [M1 M2].
      apply Z.eqb_eq in M5.
      unfold ymd2ord, valid_date, days_in_month, days_before_month,
        MINYEAR, MAXYEAR.
      cbn [year month day]. rewrite L, D. split; [ lia | ].
      rewrite M1, M2, M3, M4. cbn [andb]. rewrite !andb_true_r.
      apply andb_true_intro; split; apply Z.leb_le; lia.
Qed.

Lemma digit_val_digit_char (k : Z) :
  0 <= k <= 9 -> digit_val (digit_char k) = Some k.
Proof.
  intros Hk.
  assert (H : k = 0 \/ k = 1 \/ k = 2 \/ k = 3 \/ k = 4 \/ k = 5 \/ k = 6
              \/ k = 7 \/ k = 8 \/ k = 9) by lia.
  repeat (destruct H as [H | H]); subst k; reflexivity.
Qed.

Lemma parse_month_pad2 (m : Z) (rest : string) :
  1 <= m <= 12 ->
  parse_month (pad2 m ++ String "-" rest)%string = Some (m, rest).
Proof.
  intros Hm.
  assert (Hin : In m (map Z.of_nat (List.seq 1 12))) by (cbn; lia).
  cbn in Hin.
  repeat (destruct Hin as [<- | Hin]; [ reflexivity | ]). destruct Hin.
Qed.

Lemma parse_day_pad2 (d : Z) :
  1 <= d <= 31 -> parse_day (pad2 d) = Some d.
Proof.
  intros Hd.
  assert (Hin : In d (map Z.of_nat (List.seq 1 31))) by (cbn; lia).
  cbn in Hin.
  repeat (destruct Hin as [<- | Hin]; [ reflexivity | ]). destruct Hin.
Qed.

Lemma strptime_strftime (d : date) :
  valid_date d = true -> strptime (strftime d) = Some d.
Proof.
  destruct d as [y m dd]. unfold valid_date, MINYEAR, MAXYEAR.
  cbn [year month day]. intros H.
  apply andb_prop in H. destruct H as [H H6].
  apply andb_prop in H. destruct H as [H H5].
  apply andb_prop in H. destruct H as [H H4].
  apply andb_prop in H. destruct H as [H H3].
  apply andb_prop in H. destruct H as [H1 H2].
  assert (Hdim : days_in_month y m <= 31).
  { unfold days_in_month, DAYS_IN_MONTH.
    destruct ((m =? 2) && is_leap y); [ lia | ].
    apply Z.leb_le in H3, H4.
    assert (Hm : m = 1 \/ m = 2 \/ m = 3 \/ m = 4 \/ m = 5 \/ m = 6 \/
                 m = 7 \/ m = 8 \/ m = 9 \/ m = 10 \/ m = 11 \/ m = 12)
      by lia.
    repeat (destruct Hm as [Hm | Hm]); subst m; lia. }
  assert (Hv : valid_date (mkdate y m dd) = true).
  { unfold valid_date, MINYEAR, MAXYEAR. cbn [year month day].
    now rewrite H1, H2, H3, H4, H5, H6. }
  apply Z.leb_le in H1, H2, H3, H4, H5, H6.
  unfold strftime. cbn [year month day]. unfold pad4. cbn [append].
  unfold strptime, strptime_fields.
  pose proof (Z.div_mod y 10 ltac:(lia)).
  pose proof (Z.mod_pos_bound y 10 ltac:(lia)).
  pose proof (Z.div_mod (y / 10) 10 ltac:(lia)).
  pose proof (Z.mod_pos_bound (y / 10) 10 ltac:(lia)).
  pose proof (Z.div_mod (y / 100) 10 ltac:(lia)).
  pose proof (Z.mod_pos_bound (y / 100) 10 ltac:(lia)).
  assert (y / 100 = y / 10 / 10) by (rewrite Z.div_div by lia; reflexivity).
  assert (y / 1000 = y / 100 / 10) by (rewrite Z.div_div by lia; reflexivity).
  rewrite !digit_val_digit_char by lia.
  rewrite parse_month_pad2 by lia.
  replace (pad2 dd ++ "")%string with (pad2 dd) by reflexivity.
  rewrite parse_day_pad2 by lia.
  replace (1000 * (y / 1000) + 100 * (y / 100 mod 10) + 10 * (y / 10 mod 10)
           + y mod 10) with y by lia.
  cbv zeta. now rewrite Hv.
Qed.

Lemma strptime_valid (s : string) (d : date) :
  strptime s = Some d -> valid_date d = true.
Proof.
  unfold strptime. destruct (strptime_fields s) as [[[y m] dd] |]; [ | discriminate ].
  cbv zeta. destruct (valid_date (mkdate y m dd)) eqn:V; [ | discriminate ].
  intros [= <-]. exact V.
Qed.

Lemma ymd2ord_positive (d : date) : valid_date d = true -> 1 <= ymd2ord d.
Proof.
  destruct d as [y m dd]. unfold valid_date, MINYEAR, MAXYEAR.
  cbn [year month day]. intros H.
  apply andb_prop in H. destruct H as [H H6].
  apply andb_prop in H. destruct H as [H H5].
  apply andb_prop in H. destruct H as [H H4].
  apply andb_prop in H. destruct H as [H H3].
  apply andb_prop in H. destruct H as [H1 H2].
  apply Z.leb_le in H1, H2, H3, H4, H5.
  unfold ymd2ord, days_before_year, days_before_month. cbn [year month day].
  pose proof (Z.div_pos (y - 1) 4 ltac:(lia) ltac:(lia)).
  pose proof (Z.div_pos (y - 1) 400 ltac:(lia) ltac:(lia)).
  pose proof (Z.div_le_upper_bound (y - 1) 100 (y - 1) ltac:(lia) ltac:(lia)).
  assert (0 <= DAYS_BEFORE_MONTH m).
  { assert (Hin : In m (map Z.of_nat (List.seq 1 12))) by (cbn; lia).
    cbn in Hin.
    repeat (destruct Hin as [<- | Hin]; [ cbn; lia | ]). destruct Hin. }
  destruct ((2 <? m) && is_leap y); lia.
Qed.

(** Adding days to a valid date: the ordinal moves by exactly that many
    days, and the result prints and parses back. *)
Lemma add_days_spec (d : date) (n : Z) :
  valid_date d = true -> 0 <= n -> ymd2ord d + n <= MAXORDINAL ->
  let d' := ord2ymd (ymd2ord d + n) in
  add_days d n = Some d'
  /\ ymd2ord d' = ymd2ord d + n
  /\ valid_date d' = true
  /\ strptime (strftime d') = Some d'.
Proof.
  intros Hv Hn Hmax. pose proof (ymd2ord_positive d Hv) as Hpos.
  destruct (ord2ymd_spec (ymd2ord d + n) ltac:(lia)) as [Hord Hvalid].
  cbv zeta. unfold add_days. cbv zeta.
  destruct (Z.ltb_spec 0 (ymd2ord d + n)); [ | lia ].
  destruct (Z.leb_spec (ymd2ord d + n) MAXORDINAL); [ | lia ].
  cbn [andb]. repeat split; auto using strptime_strftime.
Qed.

End CalendarFacts.

(** ** Registration and authentication *)

Lemma existsb_username (l : list user_row) (u : string) :
  existsb (fun r => String.eqb (u_username r) u) l = true
  <-> In u (map u_username l).
Proof.
  rewrite existsb_exists, in_map_iff. split.
  - intros (r & Hin & Heq). apply String.eqb_eq in Heq. eauto.
  - intros (r & Heq & Hin). exists r. split; [ assumption | ].
    now apply String.eqb_eq.
Qed.

Lemma select_none_without_username (l : list user_row) (u h : string) :
  ~ In u (map u_username l) ->
  filter (fun r => String.eqb (u_username r) u && String.eqb (u_password r) h)
         l = [].
Proof.
  induction l as [| r l IH]; intros Hn; [ reflexivity | ].
  cbn [filter]. destruct (String.eqb_spec (u_username r) u) as [E | E].
  - exfalso. apply Hn. left. exact E.
  - cbn [andb]. apply IH. intros Hin. apply Hn. now right.
Qed.

Lemma INSERT_user_fresh (db : database) (u h e f now : string) :
  seq (users db) < MAX_ROWID ->
  ~ has_username db u ->
  INSERT_user db u h e f now
  = inr (set_users db
           (mktable (rows (users db)
                     ++ [mkuser (seq (users db) + 1) u h e f now])
                    (seq (users db) + 1))).
Proof.
  intros Hseq Hfresh. unfold INSERT_user, insert.
  apply Z.ltb_lt in Hseq. rewrite Hseq.
  destruct (existsb _ _) eqn:Hex; [ | reflexivity ].
  apply existsb_username in Hex. contradiction.
Qed.

Lemma INSERT_user_taken (db : database) (u h e f now : string) :
  has_username db u -> exists msg, INSERT_user db u h e f now = inl msg.
Proof.
  intros Htaken. unfold INSERT_user, insert.
  destruct (seq (users db) <? MAX_ROWID); [ | eauto ].
  apply existsb_username in Htaken. unfold has_username in Htaken.
  rewrite Htaken. eauto.
Qed.

(** [create_user] keeps the usernames distinct. *)
Lemma create_user_keeps_unique (sha256 : string -> string)
    (u p e f now : string) (w : world) :
  users_unique (store w) ->
  users_unique (store (exec (create_user sha256 u p e f now) w)).
Proof.
  intros Hu. unfold create_user. run_app.
  destruct (storage_ok w); cbn; [ | exact Hu ].
  unfold INSERT_user, insert.
  destruct (seq (users (store w)) <? MAX_ROWID); cbn; [ | exact Hu ].
  destruct (existsb _ _) eqn:Hex; cbn; [ exact Hu | ].
  unfold users_unique. cbn. rewrite map_app. cbn.
  apply NoDup_app; [ exact Hu | repeat constructor; intros [] | ].
  intros x Hx1 [<- | []].
  apply existsb_username in Hx1. congruence.
Qed.

Section Authentication.

Variable sha256 : string -> string.

(** C3. For a user name that is not taken yet (the store can be opened
    and its key counter is not exhausted), [create_user] succeeds; then
    [verify_user] with the same name and password returns the identity
    (id, username) of the row just stored, and with any password whose
    digest differs it returns [None]. *)
Theorem register_then_authenticate
    (w : world) (username password email full_name now : string) :
  storage_ok w = true ->
  seq (users (store w)) < MAX_ROWID ->
  ~ has_username (store w) username ->
  let w1 := exec (create_user sha256 username password email full_name now) w in
  let identity := (seq (users (store w)) + 1, username) in
  eval (create_user sha256 username password email full_name now) w = true
  /\ In (mkuser (fst identity) username (sha256 password) email full_name now)
        (rows (users (store w1)))
  /\ eval (verify_user sha256 username password) w1 = Some identity
  /\ (forall other : string,
        sha256 other <> sha256 password ->
        eval (verify_user sha256 username other) w1 = None).
Proof.
  intros Hok Hseq Hfresh. cbv zeta.
  unfold create_user, verify_user. run_app. rewrite Hok. cbn.
  rewrite (INSERT_user_fresh _ _ _ _ _ _ Hseq Hfresh). cbn.
  unfold SELECT_user_by_credentials, user_by_credentials_rows, select_where.
  cbn. repeat split.
  - apply in_or_app. right. now left.
  - rewrite filter_app, (select_none_without_username _ _ _ Hfresh). cbn.
    now rewrite !String.eqb_refl.
  - intros other Hother.
    rewrite filter_app, (select_none_without_username _ _ _ Hfresh). cbn.
    rewrite String.eqb_refl. cbn.
    destruct (String.eqb_spec (sha256 password) (sha256 other)); [ | reflexivity ].
    congruence.
Qed.

(** C4. Registering a user name that a row of [users] already has
    (compared byte by byte) fails: [create_user] returns [False] after an
    [st.error], the form reports "Username already exists", the store is
    left as it was, and [users] holds exactly one row with that name. *)
Theorem duplicate_username_rejected (w : world) (f : register_form)
    (now : string) :
  users_unique (store w) ->
  has_username (store w) (new_username f) ->
  new_password f = confirm_password f ->
  (6 <= String.length (new_password f))%nat ->
  let w' := exec (login_page_register sha256 f now) w in
  eval (create_user sha256 (new_username f) (new_password f) (email f)
          (full_name f) now) w = false
  /\ store w' = store w
  /\ (exists before, log w' = before ++ [ev_error "Username already exists"])
  /\ List.length
       (filter (fun r => String.eqb (u_username r) (new_username f))
               (rows (users (store w')))) = 1%nat.
Proof.
  intros Huniq Htaken Hpw Hlen. cbv zeta.
  assert (Hone : List.length
            (filter (fun r => String.eqb (u_username r) (new_username f))
                    (rows (users (store w)))) = 1%nat).
  { clear - Huniq Htaken. unfold users_unique, has_username in *.
    induction (rows (users (store w))) as [| r l IH]; [ destruct Htaken | ].
    cbn in *. inversion Huniq as [| ? ? Hnotin Hnodup]; subst.
    destruct (String.eqb_spec (u_username r) (new_username f)) as [E | E].
    - cbn. f_equal. rewrite E in Hnotin.
      clear - Hnotin. induction l as [| r' l IH]; [ reflexivity | ].
      cbn in *. destruct (String.eqb_spec (u_username r') (new_username f)).
      + exfalso. apply Hnotin. now left.
      + apply IH. intros H. apply Hnotin. now right.
    - apply IH; [ assumption | ]. destruct Htaken; [ contradiction | assumption ]. }
  destruct (INSERT_user_taken (store w) (new_username f)
              (sha256 (new_password f)) (email f) (full_name f) now Htaken)
    as [msg Hmsg].
  unfold login_page_register, create_user. rewrite Hpw, String.eqb_refl. cbn [negb].
  apply Nat.ltb_ge in Hlen. rewrite Hpw in Hlen. rewrite Hlen.
  rewrite <- Hpw. run_app.
  destruct (storage_ok w) eqn:Hok; cbn.
  - rewrite Hmsg. cbn. repeat split; eauto.
  - repeat split; eauto.
Qed.

(** C10. A registration whose password differs from its confirmation, or
    is shorter than 6 characters, only logs the error of the form: no
    connection is opened and the store stays as it was. Conversely, if
    submitting the form changes the table [users], then the two passwords
    are equal and at least 6 characters long. *)
Theorem registration_form_validated (w : world) (f : register_form)
    (now : string) :
  let w' := exec (login_page_register sha256 f now) w in
  (new_password f <> confirm_password f ->
   store w' = store w /\ log w' = log w ++ [ev_error "Passwords don't match!"])
  /\ (new_password f = confirm_password f ->
      (String.length (new_password f) < 6)%nat ->
      store w' = store w
      /\ log w' = log w ++ [ev_error "Password must be ≥6 characters"])
  /\ (users (store w') <> users (store w) ->
      new_password f = confirm_password f
      /\ (6 <= String.length (new_password f))%nat).
Proof.
  cbv zeta. unfold login_page_register.
  destruct (String.eqb_spec (new_password f) (confirm_password f)) as [E | E];
    cbn [negb].
  - destruct (Nat.ltb_spec (String.length (new_password f)) 6) as [L | L].
    + run_app. repeat split; try congruence; try lia.
    + repeat split; try congruence; try lia.
  - run_app. repeat split; try congruence.
Qed.

End Authentication.

(** ** Queries *)

Section QueryFacts.

Context {R : Type}.

Lemma in_insert_sorted (le : R -> R -> bool) (a x : R) (l : list R) :
  In x (insert_sorted le a l) <-> x = a \/ In x l.
Proof.
  induction l as [| y l IH]; cbn.
  - intuition congruence.
  - destruct (le a y); cbn; [ intuition congruence | ].
    rewrite IH. intuition congruence.
Qed.

Lemma in_order_by (le : R -> R -> bool) (x : R) (l : list R) :
  In x (order_by le l) <-> In x l.
Proof.
  unfold order_by. induction l as [| a l IH]; cbn; [ reflexivity | ].
  rewrite in_insert_sorted, IH. intuition congruence.
Qed.

Lemma in_limit (n : nat) (x : R) (l : list R) :
  In x (limit n l) -> In x l.
Proof.
  unfold limit. revert l. induction n as [| n IH]; intros [| a l]; cbn; try tauto.
  intros [-> | H]; [ now left | right; now apply IH ].
Qed.

Lemma in_select_where (p : R -> bool) (x : R) (t : table R) :
  In x (select_where p t) <-> In x (rows t) /\ p x = true.
Proof. unfold select_where. apply filter_In. Qed.

End QueryFacts.

(** The rows that [get_tasks] lists are rows of [tasks] that satisfy its
    [WHERE] clause. *)
Lemma get_tasks_rows_sound (db : database) (u : Z) (f : option string)
    (c : bool) (t : task_row) :
  In t (get_tasks_rows db u f c) ->
  In t (rows (tasks db)) /\ get_tasks_where u f c t = true.
Proof.
  unfold get_tasks_rows. rewrite in_order_by, in_select_where. tauto.
Qed.

Lemma nth_SELECT_tasks (db : database) (u : Z) (f : option string) (c : bool)
    (k : nat) :
  nth_error (SELECT_tasks db u f c) k
  = option_map
      (fun r => (t_id r, t_title r, t_description r, t_due_date r,
                 t_frequency r, t_completed r))
      (nth_error (get_tasks_rows db u f c) k).
Proof. unfold SELECT_tasks. apply nth_error_map. Qed.

(** ** Acknowledging tasks *)

Lemma get_tasks_connected (w : world) (u : Z) (f : option string) (c : bool) :
  storage_ok w = true ->
  get_tasks u f c w
  = (SELECT_tasks (store w) u f c,
     mkworld (store w) true (log w ++ [ev_connect])).
Proof. intros Hok. unfold get_tasks. run_app. now rewrite Hok. Qed.

(** C5 at its failing inputs. From the empty store, user 1 adds a weekly
    (a monthly) task due 2024-01-01 with the form of the Weekly/Monthly
    tab and acknowledges it with the button that the page has for it, the
    one of the Daily Tasks tab: the task is marked completed and keeps its
    due date, where the claim has the date 2024-01-08 (2024-01-31) and not
    completed. A task of frequency once is treated in the same way, which
    is what the claim has for it. Every task that the Weekly/Monthly tab
    lists is listed by the Daily Tasks tab as well, which draws its button
    first, under the same key [complete_<id>]. *)
Theorem recurring_task_completed_not_advanced :
  let w0 := mkworld initialize_db true [] in
  let sha256 := fun s : string => s in
  let day := Datetime.mkdate 2024 1 1 in
  let shown (w : world) :=
    map (fun r => (t_frequency r, t_due_date r, t_completed r))
        (rows (tasks (store w))) in
  let acknowledged radio :=
    shown (run sha256
             [AddRecurringTask 1 radio "Calibrate pH meter" "" day;
              CompleteClick 1 0] w0) in
  acknowledged radio_weekly = [("weekly", "2024-01-01", 1)]
  /\ acknowledged radio_weekly <> [("weekly", "2024-01-08", 0)]
  /\ acknowledged radio_monthly = [("monthly", "2024-01-01", 1)]
  /\ acknowledged radio_monthly <> [("monthly", "2024-01-31", 0)]
  /\ shown (run sha256
              [AddTask 1 "Order tips" "" day once; CompleteClick 1 0] w0)
     = [("once", "2024-01-01", 1)]
  /\ (forall db u radio r,
         In r (get_tasks_rows db u (Some (recurring_text radio)) false) ->
         In r (get_tasks_rows db u None false)).
Proof.
  cbv zeta.
  refine (conj eq_refl (conj _ (conj eq_refl (conj _ (conj eq_refl _)))));
    try discriminate.
  intros db u radio r Hr. unfold get_tasks_rows in *.
  apply in_order_by, in_select_where in Hr. destruct Hr as [Hin Hw].
  apply in_order_by, in_select_where. split; [ exact Hin | ].
  unfold get_tasks_where in *.
  apply andb_prop in Hw. destruct Hw as [Hw Hdone].
  apply andb_prop in Hw. destruct Hw as [Hown _].
  cbn in *. now rewrite Hown, Hdone.
Qed.

(** C6 at its failing inputs. From the empty store, user 1 adds a weekly
    task in the Weekly/Monthly tab (a daily task in the Daily Tasks tab) and
    presses its button in the Daily Tasks tab, which lists every task that
    is not completed: the recurring task ends up completed. *)
Theorem recurring_task_marked_completed :
  let w0 := mkworld initialize_db true [] in
  let sha256 := fun s : string => s in
  map (fun r => (t_frequency r, t_completed r))
    (rows (tasks (store
       (run sha256
          [AddRecurringTask 1 radio_weekly "Calibrate pH meter" ""
             (Datetime.mkdate 2024 1 1);
           CompleteClick 1 0] w0))))
  = [("weekly", 1)]
  /\ map (fun r => (t_frequency r, t_completed r))
       (rows (tasks (store
          (run sha256
             [AddTask 1 "Check freezer" "" (Datetime.mkdate 2024 1 1) daily;
              CompleteClick 1 0] w0))))
     = [("daily", 1)].
Proof. cbv zeta. split; reflexivity. Qed.

(** ** Ownership in the statements that change reagents *)

(** The statements by themselves. Reagent 1 belongs to user 2. The
    [try] blocks of the buttons Update and Delete select by the id alone:
    run with id 1 they would rewrite and remove the row; the statement of
    the inventory editor, run for user 1 with the same id, leaves the row
    as it is. The page never runs the two blocks with such an id: the id
    comes from a label of the list of the session's user and is looked up
    in that list by [next] before the form is drawn ([with_selected]). *)
Remark update_and_delete_select_by_id :
  let theirs := mkreagent 1 2 "Ethanol" 5 "L" (Some "Room 2") (Some "")
                  (Some "") "2024-01-01" None (Some "") in
  let w := mkworld (set_reagents initialize_db (mktable [theirs] 1)) true [] in
  let f := mkupdate "Water" 0 "mL" (Some "") (Some "") (Some "") None
             (Some "") in
  rows (reagents (store (exec (update_reagent 1 f) w)))
  = [mkreagent 1 2 "Water" 0 "mL" (Some "") (Some "") (Some "")
       "2024-01-01" None (Some "")]
  /\ rows (reagents (store (exec (delete_reagent 1) w))) = []
  /\ UPDATE_reagent_of_user (store w) (Some "Water") (Some 0%float)
       (Some "mL") (Some "") (Some "") (Some "") None (Some "") 1 1
     = inr (store w).
Proof. cbv zeta. repeat split; reflexivity. Qed.

(** ** The sign of quantities *)

(** C8 at its failing input. From the empty store, user 1 adds a reagent
    with quantity 1.0 and then, in the Update Inventory tab, submits the
    form with quantity -1.0 (its number input has no minimum): the row
    holds -1.0, which is below 0. *)
Theorem form_update_stores_negative_quantity :
  let w0 := mkworld initialize_db true [] in
  let sha256 := fun s : string => s in
  let added := mkadd "Ethanol" 1 "L" "Room 123, Shelf A" "" "" None "" in
  let edited := mkupdate "Ethanol" (-1) "L" (Some "Room 123, Shelf A")
                  (Some "") (Some "") None (Some "") in
  let after :=
    rows (reagents (store
      (run sha256 [AddReagent 1 added "2024-01-01"; UpdateSubmit 1 1 edited]
         w0))) in
  map r_quantity after = [(-1)%float]
  /\ forallb (fun r => PrimFloat.leb 0 (r_quantity r)) after = false.
Proof. cbv zeta. split; reflexivity. Qed.

(** ** The dilution calculator *)

(** C9. With a stock concentration that Python does not compare equal to
    zero, the button Calculate shows v1 = c2*v2/c1 (and records it); with
    one that is zero, it shows the error "Stock concentration cannot be
    zero!" and neither a value nor an uncaught exception. The two examples
    of the specification evaluate as it says. *)
Theorem dilution_contract (c1 c2 v2 : float) (history : list dilution_entry) :
  (PrimFloat.eqb c1 0 = false ->
   dilution_calculator c1 c2 v2 history
   = (dilution_value (c2 * v2 / c1),
      history ++ [mkentry c1 c2 v2 (c2 * v2 / c1)]))
  /\ (PrimFloat.eqb c1 0 = true ->
      dilution_calculator c1 c2 v2 history
      = (dilution_error "Stock concentration cannot be zero!", history))
  /\ fst (dilution_calculator 2 0.5 100 []) = dilution_value 25
  /\ fst (dilution_calculator 0 1 10 [])
     = dilution_error "Stock concentration cannot be zero!".
Proof.
  unfold dilution_calculator, truediv. repeat split.
  - intros ->. reflexivity.
  - intros ->. reflexivity.
Qed.

(** ** Isolation of the users' rows *)

Section TableFacts.

Context {R : Type} (key owner : R -> Z).

Lemma appended_refl (u : Z) (t : table R) : appended key owner u t t.
Proof. now left. Qed.

Lemma insert_appended (u : Z) (mk : Z -> R) (t : table R) :
  (forall i, key (mk i) = i) -> (forall i, owner (mk i) = u) ->
  match insert mk t with
  | inl _ => True
  | inr (_, t') => appended key owner u t t'
  end.
Proof.
  intros Hkey Hown. unfold insert. destruct (seq t <? MAX_ROWID); [ | exact I ].
  right. exists (mk (seq t + 1)). cbn. auto.
Qed.

Lemma appended_keys_bounded (u : Z) (t t' : table R) :
  appended key owner u t t' -> keys_bounded key t -> keys_bounded key t'.
Proof.
  intros [-> | (r & Hrows & Hkey & Hseq & _)] Hb; [ exact Hb | ].
  unfold keys_bounded in *. rewrite Hrows, Hseq. apply Forall_app. split.
  - eapply Forall_impl; [ | exact Hb ]. cbn. intros; lia.
  - constructor; [ lia | constructor ].
Qed.

Lemma extends_refl (t : table R) : extends key t t.
Proof. split; [ lia | ]. exists []. now rewrite app_nil_r. Qed.

Lemma extends_appended (u : Z) (t t' t'' : table R) :
  extends key t t' -> appended key owner u t' t'' -> extends key t t''.
Proof.
  intros [Hle (extra & Hrows & Hlater)] [-> | (r & Hrows' & Hkey & Hseq & _)].
  - split; eauto.
  - split; [ lia | ]. exists (extra ++ [r]). split.
    + now rewrite Hrows', Hrows, app_assoc.
    + apply Forall_app. split; [ exact Hlater | ].
      constructor; [ lia | constructor ].
Qed.

(** The heart of the isolation: a row of another owner in a later table
    never has the key of the row that [B] appended. *)
Lemma appended_then_extended (A B : Z) (t1 t2 t : table R) (selected : list R) :
  A <> B -> keys_bounded key t1 -> appended key owner B t1 t2 ->
  extends key t2 t ->
  (forall r, In r selected -> In r (rows t) /\ owner r = A) ->
  isolated key owner A t1 t2 t selected.
Proof.
  intros HAB Hb Happ [_ (extra & Hrows & Hlater)] Hsel r Hr.
  destruct (Hsel r Hr) as [Hin Hown]. repeat split; try assumption.
  intros r0 [Hin0 Hnew].
  destruct Happ as [-> | (rn & Hrows2 & Hkey & Hseq & HownB)];
    [ contradiction | ].
  rewrite Hrows2 in Hin0. apply in_app_iff in Hin0.
  destruct Hin0 as [Hold | [<- | []]]; [ contradiction | ].
  rewrite Hrows, Hrows2 in Hin. rewrite !in_app_iff in Hin.
  unfold keys_bounded in Hb. rewrite Forall_forall in Hb, Hlater.
  destruct Hin as [[Hin | [<- | []]] | Hin].
  - specialize (Hb r Hin). cbn in Hb. lia.
  - congruence.
  - specialize (Hlater r Hin). cbn in Hlater. lia.
Qed.

End TableFacts.

(** What one action of user [u] that creates a row does to each table. *)
Lemma create_step (sha256 : string -> string) (a : action) (u : Z)
    (w : world) :
  is_create a = true -> actor a = Some u ->
  let w' := exec (step sha256 a) w in
  appended t_id t_user_id u (tasks (store w)) (tasks (store w'))
  /\ appended r_id r_user_id u (reagents (store w)) (reagents (store w'))
  /\ appended e_id e_user_id u (experiments (store w))
       (experiments (store w'))
  /\ appended b_id b_user_id u (buffers (store w)) (buffers (store w')).
Proof.
  intros Hc Ha. cbv zeta.
  destruct a; try discriminate Hc; injection Ha as <-; cbn [step];
    unfold add_task, add_recurring_task, quick_add_task, insert_task,
      save_protocol, save_buffer, add_reagent;
    repeat match goal with
           | |- context [if ?b then _ else _] =>
               lazymatch b with
               | storage_ok _ => fail
               | _ => destruct b
               end
           end;
    run_app; try (repeat split; apply appended_refl);
    destruct (storage_ok w); cbn [fst snd store];
    try (repeat split; apply appended_refl).
  all: unfold INSERT_task, INSERT_reagent, INSERT_experiment, INSERT_buffer;
    match goal with
    | |- context [insert ?mk ?t] =>
        first
          [ pose proof (insert_appended t_id t_user_id user_id mk t
                          (fun _ => eq_refl) (fun _ => eq_refl)) as Hins
          | pose proof (insert_appended r_id r_user_id user_id mk t
                          (fun _ => eq_refl) (fun _ => eq_refl)) as Hins
          | pose proof (insert_appended e_id e_user_id user_id mk t
                          (fun _ => eq_refl) (fun _ => eq_refl)) as Hins
          | pose proof (insert_appended b_id b_user_id user_id mk t
                          (fun _ => eq_refl) (fun _ => eq_refl)) as Hins ];
        destruct (insert mk t) as [e | [i t']]; cbn;
        repeat split; try apply appended_refl; exact Hins
    end.
Qed.

Lemma create_has_actor (a : action) :
  is_create a = true -> exists u, actor a = Some u.
Proof. destruct a; try discriminate; cbn; eauto. Qed.

Lemma create_step_keys_ok (sha256 : string -> string) (a : action) (w : world) :
  is_create a = true -> keys_ok (store w) ->
  keys_ok (store (exec (step sha256 a) w)).
Proof.
  intros Hc (Ht & Hr & He & Hb).
  destruct (create_has_actor a Hc) as [u Hu].
  destruct (create_step sha256 a u w Hc Hu) as (At & Ar & Ae & Ab).
  repeat split; eapply appended_keys_bounded; eassumption.
Qed.

Lemma run_creates_extends (sha256 : string -> string) (l : list action) :
  Forall (fun a => is_create a = true) l ->
  forall w0 w : world,
    extends t_id (tasks (store w0)) (tasks (store w)) ->
    extends r_id (reagents (store w0)) (reagents (store w)) ->
    extends e_id (experiments (store w0)) (experiments (store w)) ->
    let w' := run sha256 l w in
    extends t_id (tasks (store w0)) (tasks (store w'))
    /\ extends r_id (reagents (store w0)) (reagents (store w'))
    /\ extends e_id (experiments (store w0)) (experiments (store w')).
Proof.
  induction 1 as [| a l Hc _ IH]; intros w0 w Ht Hr He; cbn; [ auto | ].
  destruct (create_has_actor a Hc) as [u Hu].
  destruct (create_step sha256 a u w Hc Hu) as (At & Ar & Ae & _).
  apply IH; eapply extends_appended; eassumption.
Qed.

Lemma run_creates_keys_ok (sha256 : string -> string) (l : list action) :
  Forall (fun a => is_create a = true) l ->
  forall w : world, keys_ok (store w) -> keys_ok (store (run sha256 l w)).
Proof.
  induction 1 as [| a l Hc _ IH]; intros w Hk; cbn; [ exact Hk | ].
  apply IH. now apply create_step_keys_ok.
Qed.

Lemma run_app_actions (sha256 : string -> string) (l1 l2 : list action)
    (w : world) :
  run sha256 (l1 ++ l2) w = run sha256 l2 (run sha256 l1 w).
Proof. unfold run. apply fold_left_app. Qed.

(** Each query for user [A] selects rows of its table that belong to
    [A]. *)
Lemma queries_scoped (db : database) (A : Z) :
  (forall f c r, In r (get_tasks_rows db A f c) ->
                 In r (rows (tasks db)) /\ t_user_id r = A)
  /\ (forall today r, In r (upcoming_tasks_rows db A today) ->
                      In r (rows (tasks db)) /\ t_user_id r = A)
  /\ (forall date_str r, In r (tasks_on_rows db A date_str) ->
                         In r (rows (tasks db)) /\ t_user_id r = A)
  /\ (forall r, In r (get_reagents_rows db A) ->
                In r (rows (reagents db)) /\ r_user_id r = A)
  /\ (forall r, In r (low_reagents_rows db A) ->
                In r (rows (reagents db)) /\ r_user_id r = A)
  /\ (forall r, In r (recent_experiments_rows db A) ->
                In r (rows (experiments db)) /\ e_user_id r = A).
Proof.
  unfold get_tasks_rows, upcoming_tasks_rows, tasks_on_rows,
    get_reagents_rows, low_reagents_rows, recent_experiments_rows,
    get_tasks_where.
  repeat split;
    repeat match goal with
           | H : In _ (limit _ _) |- _ => apply in_limit in H
           | H : In _ (order_by _ _) |- _ => apply in_order_by in H
           | H : In _ (select_where _ _) |- _ =>
               apply in_select_where in H; destruct H as [? H]
           | H : (_ && _) = true |- _ => apply andb_prop in H; destruct H as [H ?]
           | H : (_ =? _) = true |- _ => apply Z.eqb_eq in H
           end; assumption.
Qed.

(** C2. Let users [A] and [B] differ, and let any actions that create
    rows (tasks, reagents, experiments, buffers; by any users, in any
    order) run from a store whose keys are bounded by the counters. Take
    any one of them that [B] does. Every row that a query for [A] then
    selects (get_tasks with any arguments, the calendar, get_reagents, and
    the three lists of the dashboard) is a row of its table whose [user_id]
    is [A], and its key is not the key of a row that [B]'s action created.
    The answers of the queries are the named columns of these rows. *)
Theorem cross_user_isolation (sha256 : string -> string) (A B : Z)
    (w0 : world) (before : list action) (a : action) (after : list action) :
  A <> B ->
  keys_ok (store w0) ->
  Forall (fun x => is_create x = true) (before ++ a :: after) ->
  actor a = Some B ->
  let w1 := run sha256 before w0 in
  let w2 := exec (step sha256 a) w1 in
  let db := store (run sha256 (before ++ a :: after) w0) in
  (forall f c,
      isolated t_id t_user_id A (tasks (store w1)) (tasks (store w2))
        (tasks db) (get_tasks_rows db A f c))
  /\ (forall today,
         isolated t_id t_user_id A (tasks (store w1)) (tasks (store w2))
           (tasks db) (upcoming_tasks_rows db A today))
  /\ (forall date_str,
         isolated t_id t_user_id A (tasks (store w1)) (tasks (store w2))
           (tasks db) (tasks_on_rows db A date_str))
  /\ isolated r_id r_user_id A (reagents (store w1)) (reagents (store w2))
       (reagents db) (get_reagents_rows db A)
  /\ isolated r_id r_user_id A (reagents (store w1)) (reagents (store w2))
       (reagents db) (low_reagents_rows db A)
  /\ isolated e_id e_user_id A (experiments (store w1))
       (experiments (store w2)) (experiments db)
       (recent_experiments_rows db A).
Proof.
  intros HAB Hkeys Hall HB. cbv zeta.
  apply Forall_app in Hall. destruct Hall as [Hbefore Hrest].
  inversion Hrest as [| ? ? Ha Hafter]; subst.
  rewrite run_app_actions.
  change (run sha256 (a :: after) (run sha256 before w0))
    with (run sha256 after (exec (step sha256 a) (run sha256 before w0))).
  set (w1 := run sha256 before w0).
  set (w2 := exec (step sha256 a) w1).
  pose proof (run_creates_keys_ok sha256 before Hbefore w0 Hkeys)
    as (Kt & Kr & Ke & _). fold w1 in Kt, Kr, Ke.
  destruct (create_step sha256 a B w1 Ha HB) as (At & Ar & Ae & _).
  fold w2 in At, Ar, Ae.
  destruct (run_creates_extends sha256 after Hafter w2 w2
              (extends_refl _ _) (extends_refl _ _) (extends_refl _ _))
    as (Et & Er & Ee).
  destruct (queries_scoped (store (run sha256 after w2)) A)
    as (Q1 & Q2 & Q3 & Q4 & Q5 & Q6).
  refine (conj _ (conj _ (conj _ (conj _ (conj _ _))))); intros;
    eapply appended_then_extended; eauto.
Qed.

(** The answers of the handlers are the columns of the rows above, or
    empty without a connection. *)
Lemma list_handlers_project (w : world) (A : Z) :
  (forall f c,
      eval (get_tasks A f c) w
      = if storage_ok w
        then map (fun r => (t_id r, t_title r, t_description r, t_due_date r,
                            t_frequency r, t_completed r))
               (get_tasks_rows (store w) A f c)
        else [])
  /\ eval (get_reagents A) w
     = (if storage_ok w
        then map (fun r => (r_id r, r_name r, r_quantity r, r_unit r,
                            r_location r, r_supplier r, r_catalog_number r,
                            r_expiry_date r, r_notes r))
               (get_reagents_rows (store w) A)
        else [])
  /\ (forall today,
         eval (dashboard_page A today) w
         = if storage_ok w
           then Some
                  (map (fun r => (t_title r, t_description r, t_due_date r))
                     (upcoming_tasks_rows (store w) A today),
                   map (fun r => (e_title r, e_date r))
                     (recent_experiments_rows (store w) A),
                   map (fun r => (r_name r, r_quantity r, r_unit r))
                     (low_reagents_rows (store w) A))
           else None).
Proof.
  unfold get_tasks, get_reagents, dashboard_page. run_app.
  destruct (storage_ok w); repeat split.
Qed.

(** ** Deleting reagents *)

Section KeyFacts.

Context {R : Type} (key : R -> Z).








Lemma delete_where_absent (id : Z) (t : table R) :
  (forall r, In r (rows t) -> key r <> id) ->
  delete_where (fun r => key r =? id) t = t.
Proof.
  intros Habs. destruct t as [l s]. unfold delete_where. cbn in *. f_equal.
  induction l as [| r l IH]; [ reflexivity | ]. cbn.
  destruct (Z.eqb_spec (key r) id) as [E | E].
  - exfalso. apply (Habs r); [ now left | exact E ].
  - cbn. f_equal. apply IH. intros r' Hr'. apply Habs. now right.
Qed.

End KeyFacts.




Lemma set_reagents_same (db : database) : set_reagents db (reagents db) = db.
Proof. now destruct db. Qed.


(** ** The theorems at concrete inputs *)

(** C3 on the empty store: alice registers and logs in. *)
Lemma register_then_authenticate_witness :
  let sha256 := fun s : string => String "#" s in
  let w := mkworld initialize_db true [] in
  let w1 := exec (create_user sha256 "alice" "s3cret" "" "" "2024-01-01 09:00:00") w in
  eval (verify_user sha256 "alice" "s3cret") w1 = Some (1, "alice")
  /\ eval (verify_user sha256 "alice" "secret") w1 = None.
Proof.
  cbv zeta.
  pose proof (register_then_authenticate (fun s : string => String "#" s)
                (mkworld initialize_db true []) "alice" "s3cret" "" ""
                "2024-01-01 09:00:00" eq_refl eq_refl (fun H => H))
    as (_ & _ & Hsame & Hother).
  split; [ exact Hsame | ].
  apply Hother. discriminate.
Defined.

(** C4 on a store that has alice: a second alice is refused. *)
Lemma duplicate_username_rejected_witness :
  let sha256 := fun s : string => String "#" s in
  let alice := mkuser 1 "alice" "#s3cret" "" "" "2024-01-01 09:00:00" in
  let w := mkworld (set_users initialize_db (mktable [alice] 1)) true [] in
  let f := mkregister "alice" "another" "another" "" "" in
  rows (users (store (exec (login_page_register sha256 f "2024-01-02 09:00:00") w)))
  = [alice].
Proof.
  cbv zeta.
  pose proof (duplicate_username_rejected (fun s : string => String "#" s)
                (mkworld
                   (set_users initialize_db
                      (mktable [mkuser 1 "alice" "#s3cret" "" ""
                                  "2024-01-01 09:00:00"] 1)) true [])
                (mkregister "alice" "another" "another" "" "")
                "2024-01-02 09:00:00"
                ltac:(repeat constructor; intros [])
                (or_introl eq_refl) eq_refl
                ltac:(cbn; repeat constructor))
    as (_ & Hstore & _).
  now rewrite Hstore.
Defined.

(** C2 on the empty store: users 1 and 2 add tasks and reagents in turn;
    the action looked at is the task of user 2. *)
Lemma cross_user_isolation_witness :
  let sha256 := fun s : string => String "#" s in
  let w0 := mkworld initialize_db true [] in
  let day := Datetime.mkdate 2024 1 1 in
  let before := [AddTask 1 "Autoclave" "" day once] in
  let a := AddTask 2 "Order tips" "" day weekly in
  let after :=
    [AddReagent 1 (mkadd "Ethanol" 1 "L" "Room 1" "" "" None "") "2024-01-01";
     AddReagent 2 (mkadd "Tris" 5 "g" "Room 2" "" "" None "") "2024-01-01"] in
  let db := store (run sha256 (before ++ a :: after) w0) in
  map t_id (get_tasks_rows db 1 None true) = [1]
  /\ isolated t_id t_user_id 1
       (tasks (store (run sha256 before w0)))
       (tasks (store (exec (step sha256 a) (run sha256 before w0))))
       (tasks db) (get_tasks_rows db 1 None true).
Proof.
  cbv zeta. split; [ reflexivity | ].
  exact (proj1 (cross_user_isolation (fun s : string => String "#" s) 1 2
                  (mkworld initialize_db true [])
                  [AddTask 1 "Autoclave" "" (Datetime.mkdate 2024 1 1) once]
                  (AddTask 2 "Order tips" "" (Datetime.mkdate 2024 1 1) weekly)
                  [AddReagent 1 (mkadd "Ethanol" 1 "L" "Room 1" "" "" None "")
                     "2024-01-01";
                   AddReagent 2 (mkadd "Tris" 5 "g" "Room 2" "" "" None "")
                     "2024-01-01"]
                  ltac:(discriminate)
                  ltac:(repeat split; constructor)
                  ltac:(repeat constructor)
                  eq_refl) None true).
Defined.

(** ** Whose rows an action can change *)

Section OwnerFacts.

Context {R : Type} (key owner : R -> Z).

Lemma others_update_where (A : Z) (p : R -> bool) (f : R -> R) (t : table R) :
  (forall r, In r (rows t) -> p r = true -> owner r = A) ->
  (forall r, owner (f r) = owner r) ->
  others owner A (update_where p f t) = others owner A t.
Proof.
  intros Hp Hf. unfold others, update_where. cbn.
  induction (rows t) as [| r l IH]; [ reflexivity | ]. cbn.
  destruct (p r) eqn:Hpr.
  - rewrite Hf, (Hp r (or_introl eq_refl) Hpr), Z.eqb_refl. cbn.
    apply IH. intros r' Hr'. apply Hp. now right.
  - destruct (negb (owner r =? A)); [ f_equal | ];
      apply IH; intros r' Hr'; apply Hp; now right.
Qed.

Lemma others_delete_where (A : Z) (p : R -> bool) (t : table R) :
  (forall r, In r (rows t) -> p r = true -> owner r = A) ->
  others owner A (delete_where p t) = others owner A t.
Proof.
  intros Hp. unfold others, delete_where. cbn.
  induction (rows t) as [| r l IH]; [ reflexivity | ]. cbn.
  destruct (p r) eqn:Hpr; cbn.
  - rewrite (Hp r (or_introl eq_refl) Hpr), Z.eqb_refl. cbn.
    apply IH. intros r' Hr'. apply Hp. now right.
  - destruct (negb (owner r =? A)); [ f_equal | ];
      apply IH; intros r' Hr'; apply Hp; now right.
Qed.

Lemma others_appended (A : Z) (t t' : table R) :
  appended key owner A t t' -> others owner A t' = others owner A t.
Proof.
  intros [-> | (r & Hrows & _ & _ & Hown)]; [ reflexivity | ].
  unfold others. rewrite Hrows, filter_app. cbn.
  rewrite Hown, Z.eqb_refl. cbn. apply app_nil_r.
Qed.

Lemma key_wf_update_where (p : R -> bool) (f : R -> R) (t : table R) :
  (forall r, key (f r) = key r) -> key_wf key t ->
  key_wf key (update_where p f t).
Proof.
  intros Hf [Hb Hn].
  assert (Hkeys : map key (rows (update_where p f t)) = map key (rows t)).
  { cbn. rewrite map_map. apply map_ext. intros r.
    destruct (p r); [ apply Hf | reflexivity ]. }
  split; [ | now rewrite Hkeys ].
  unfold keys_bounded in *. cbn. rewrite Forall_forall in *.
  intros r' Hr'. apply in_map_iff in Hr'. destruct Hr' as (r & <- & Hr).
  specialize (Hb r Hr). cbn in Hb. destruct (p r); [ rewrite Hf | ]; exact Hb.
Qed.

Lemma key_wf_delete_where (p : R -> bool) (t : table R) :
  key_wf key t -> key_wf key (delete_where p t).
Proof.
  intros [Hb Hn]. split.
  - unfold keys_bounded in *. cbn. rewrite Forall_forall in *.
    intros r Hr. apply filter_In in Hr. now apply Hb.
  - cbn. clear Hb. induction (rows t) as [| r l IH]; [ constructor | ].
    cbn in *. inversion Hn as [| ? ? Hnotin Hn']; subst.
    destruct (negb (p r)); cbn; [ constructor | ]; auto.
    intros Hin. apply Hnotin. apply in_map_iff in Hin.
    destruct Hin as (r' & Heq & Hr'). apply filter_In in Hr'.
    rewrite <- Heq. apply in_map. tauto.
Qed.

Lemma key_wf_appended (u : Z) (t t' : table R) :
  appended key owner u t t' -> key_wf key t -> key_wf key t'.
Proof.
  intros Happ [Hb Hn]. split; [ eapply appended_keys_bounded; eassumption | ].
  destruct Happ as [-> | (r & Hrows & Hkey & _ & _)]; [ exact Hn | ].
  rewrite Hrows, map_app. cbn. apply NoDup_app; [ exact Hn | | ].
  - repeat constructor. intros [].
  - intros k Hk [<- | []]. apply in_map_iff in Hk.
    destruct Hk as (r' & Heq & Hr').
    unfold keys_bounded in Hb. rewrite Forall_forall in Hb.
    specialize (Hb r' Hr'). cbn in Hb. lia.
Qed.

(** Two rows of a table with the same key are the same row. *)
Lemma key_wf_unique (t : table R) (r r' : R) :
  key_wf key t -> In r (rows t) -> In r' (rows t) -> key r = key r' ->
  r = r'.
Proof.
  intros [_ Hn]. induction (rows t) as [| x l IH]; [ intros [] | ].
  cbn in Hn. inversion Hn as [| ? ? Hnotin Hn']; subst.
  intros [-> | Hr] [-> | Hr'] Heq; auto.
  - exfalso. apply Hnotin. rewrite Heq. now apply in_map.
  - exfalso. apply Hnotin. rewrite <- Heq. now apply in_map.
Qed.

End OwnerFacts.

(** What the buttons do to the store. *)
Lemma complete_click_effect (w : world) (u : Z) (k : nat) :
  let db' := store (exec (complete_click u k) w) in
  db' = store w
  \/ exists t, In t (get_tasks_rows (store w) u None false)
               /\ db' = UPDATE_task_completed (store w) (t_id t).
Proof.
  cbv zeta. unfold complete_click, get_tasks. run_app.
  destruct (storage_ok w); cbn; [ | destruct k; now left ].
  rewrite nth_SELECT_tasks.
  destruct (nth_error _ k) as [t |] eqn:Hnth; cbn; [ | now left ].
  right. exists t. split; [ eapply nth_error_In; eassumption | reflexivity ].
Qed.

Lemma advance_click_effect (w : world) (u : Z) (f : recurring_option)
    (k : nat) :
  let db' := store (exec (advance_click u f k) w) in
  db' = store w
  \/ exists t new_date,
       In t (get_tasks_rows (store w) u (Some (recurring_text f)) false)
       /\ db' = UPDATE_task_due_date (store w) new_date (t_id t).
Proof.
  cbv zeta. unfold advance_click, get_tasks. run_app.
  destruct (storage_ok w); cbn; [ | destruct k; now left ].
  rewrite nth_SELECT_tasks.
  destruct (nth_error _ k) as [t |] eqn:Hnth; cbn; [ | now left ].
  destruct (Datetime.strptime _); cbn; [ | now left ].
  destruct (Datetime.add_days _ _); cbn; [ | now left ].
  right. eexists t, _. split; [ eapply nth_error_In; eassumption | reflexivity ].
Qed.

Lemma with_selected_effect (w : world) (u reagent_id : Z)
    (k : reagent_tuple -> App unit) :
  let db' := store (exec (with_selected u reagent_id k) w) in
  db' = store w
  \/ exists r tuple,
       In r (get_reagents_rows (store w) u) /\ r_id r = reagent_id
       /\ storage_ok w = true
       /\ db' = store (exec (k tuple)
                         (mkworld (store w) true (log w ++ [ev_connect]))).
Proof.
  cbv zeta. unfold with_selected, get_reagents. run_app.
  destruct (storage_ok w) eqn:Hok; run_app; [ | now left ].
  remember (SELECT_reagents (store w) u) as listed eqn:Hsel.
  destruct listed as [| x l]; run_app; [ now left | ].
  destruct (find _ (x :: l)) as [tuple |] eqn:Hfind; run_app; [ | now left ].
  destruct (existsb _ unit_options); run_app; [ | now left ].
  right. apply find_some in Hfind. destruct Hfind as [Hin Hid].
  rewrite Hsel in Hin. unfold SELECT_reagents in Hin.
  apply in_map_iff in Hin. destruct Hin as (r & Htuple & Hr).
  exists r, tuple. repeat split; try assumption.
  apply Z.eqb_eq in Hid. now rewrite <- Htuple in Hid.
Qed.

Lemma update_submit_effect (w : world) (u reagent_id : Z) (f : update_form) :
  let db' := store (exec (update_submit u reagent_id f) w) in
  db' = store w
  \/ exists r,
       In r (get_reagents_rows (store w) u) /\ r_id r = reagent_id
       /\ db' = UPDATE_reagent (store w) (upd_name f) (upd_quantity f)
                  (upd_unit f) (upd_location f) (upd_supplier f)
                  (upd_catalog_num f)
                  (option_map Datetime.strftime (upd_expiry f))
                  (upd_notes f) reagent_id.
Proof.
  cbv zeta. unfold update_submit.
  destruct (with_selected_effect w u reagent_id
              (fun _ => if update_form_ok f then update_reagent reagent_id f
                        else ret tt))
    as [H | (r & tuple & Hr & Hid & Hok & H)]; [ now left | ].
  cbv zeta in H. rewrite H. unfold update_reagent.
  destruct (update_form_ok f); run_app; cbn; [ | now left ].
  right. exists r. auto.
Qed.

Lemma delete_submit_effect (w : world) (u reagent_id : Z) :
  let db' := store (exec (delete_submit u reagent_id) w) in
  db' = store w
  \/ exists r,
       In r (get_reagents_rows (store w) u) /\ r_id r = reagent_id
       /\ db' = DELETE_reagent (store w) reagent_id.
Proof.
  cbv zeta. unfold delete_submit.
  destruct (with_selected_effect w u reagent_id
              (fun _ => delete_reagent reagent_id))
    as [H | (r & tuple & Hr & Hid & Hok & H)]; [ now left | ].
  cbv zeta in H. rewrite H. unfold delete_reagent. run_app. cbn.
  right. exists r. auto.
Qed.

Lemma inventory_edit_effect (w : world) (u : Z) (today : Datetime.date)
    (edits : list (nat * cell)) :
  let db' := store (exec (inventory_edit u today edits) w) in
  db' = store w
  \/ update_rows (store w) u
       (data_editor today (map df_of (SELECT_reagents (store w) u)) edits)
     = inr db'.
Proof.
  cbv zeta. unfold inventory_edit, get_reagents. run_app.
  destruct (storage_ok w); cbn; [ | now left ].
  destruct (SELECT_reagents (store w) u) as [| x l] eqn:Hsel; cbn; [ now left | ].
  destruct (df_equals _ _); cbn; [ now left | ].
  destruct (update_rows _ _ _) eqn:Hrows; cbn; [ now left | now right ].
Qed.

Lemma login_page_register_effect (sha256 : string -> string) (f : register_form)
    (now : string) (w : world) :
  let db' := store (exec (login_page_register sha256 f now) w) in
  exists t, db' = set_users (store w) t.
Proof.
  cbv zeta.
  assert (Hsame : store w = set_users (store w) (users (store w)))
    by now destruct (store w).
  unfold login_page_register, create_user, INSERT_user, insert.
  step_through; eauto.
Qed.

Lemma others_rows_set_tasks (A : Z) (db : database) (t : table task_row) :
  others t_user_id A t = others t_user_id A (tasks db) ->
  others_rows A (set_tasks db t) = others_rows A db.
Proof. intros H. unfold others_rows. cbn. now rewrite H. Qed.

Lemma others_rows_set_reagents (A : Z) (db : database)
    (t : table reagent_row) :
  others r_user_id A t = others r_user_id A (reagents db) ->
  others_rows A (set_reagents db t) = others_rows A db.
Proof. intros H. unfold others_rows. cbn. now rewrite H. Qed.

Lemma update_rows_owner (u : Z) (df : list df_row) :
  forall db db',
    update_rows db u df = inr db' ->
    others_rows u db' = others_rows u db /\ (store_wf db -> store_wf db').
Proof.
  induction df as [| row df IH]; intros db db'; cbn.
  - intros [= <-]. auto.
  - unfold UPDATE_reagent_of_user.
    destruct (existsb _ _); [ | apply IH ].
    destruct (Name row), (Quantity row), (Unit row); try discriminate.
    intros H. apply IH in H. destruct H as [Hothers Hwf].
    rewrite Hothers. split.
    + apply others_rows_set_reagents.
      apply others_update_where; [ | reflexivity ].
      intros r _ Hp. apply andb_prop in Hp. destruct Hp as [_ Hp].
      now apply Z.eqb_eq.
    + intros (Wt & Wr & We & Wb). apply Hwf.
      refine (conj Wt (conj _ (conj We Wb))).
      now apply key_wf_update_where.
Qed.

(** One action. An action in the session of user [A], on a store
    whose keys are primary keys, leaves every row of the four repositories
    that does not belong to [A] as it is (none changed, none removed, in
    the same order), and keeps the keys primary. *)
Lemma own_rows_only (sha256 : string -> string) (a : action) (A : Z)
    (w : world) :
  actor a = Some A -> store_wf (store w) ->
  let db' := store (exec (step sha256 a) w) in
  others_rows A db' = others_rows A (store w) /\ store_wf db'.
Proof.
  intros Ha Hwf. cbv zeta. pose proof Hwf as (Wt & Wr & We & Wb).
  destruct (is_create a) eqn:Hc.
  - destruct (create_step sha256 a A w Hc Ha) as (At & Ar & Ae & Ab).
    split.
    + unfold others_rows.
      now rewrite (others_appended t_id t_user_id A _ _ At),
        (others_appended r_id r_user_id A _ _ Ar),
        (others_appended e_id e_user_id A _ _ Ae),
        (others_appended b_id b_user_id A _ _ Ab).
    + refine (conj _ (conj _ (conj _ _))); eapply key_wf_appended;
        eassumption.
  - destruct a; try discriminate Hc; try discriminate Ha;
      injection Ha as ->; cbn [step].
    + destruct (complete_click_effect w A k) as [-> | (t & Ht & ->)];
        [ auto | ].
      apply get_tasks_rows_sound in Ht. destruct Ht as [Hin Hwhere].
      unfold get_tasks_where in Hwhere.
      apply andb_prop in Hwhere. destruct Hwhere as [Hwhere _].
      apply andb_prop in Hwhere. destruct Hwhere as [Hown _].
      apply Z.eqb_eq in Hown. split.
      * apply others_rows_set_tasks.
        apply others_update_where; [ | reflexivity ].
        intros r Hr Hp. apply Z.eqb_eq in Hp.
        now rewrite (key_wf_unique t_id _ r t Wt Hr Hin Hp).
      * refine (conj _ (conj Wr (conj We Wb))).
        now apply key_wf_update_where.
    + destruct (advance_click_effect w A frequency k)
        as [-> | (t & nd & Ht & ->)]; [ auto | ].
      apply get_tasks_rows_sound in Ht. destruct Ht as [Hin Hwhere].
      unfold get_tasks_where in Hwhere.
      apply andb_prop in Hwhere. destruct Hwhere as [Hwhere _].
      apply andb_prop in Hwhere. destruct Hwhere as [Hown _].
      apply Z.eqb_eq in Hown. split.
      * apply others_rows_set_tasks.
        apply others_update_where; [ | reflexivity ].
        intros r Hr Hp. apply Z.eqb_eq in Hp.
        now rewrite (key_wf_unique t_id _ r t Wt Hr Hin Hp).
      * refine (conj _ (conj Wr (conj We Wb))).
        now apply key_wf_update_where.
    + destruct (inventory_edit_effect w A today edits) as [-> | H]; [ auto | ].
      apply update_rows_owner in H. destruct H as [Ho Hw]. auto.
    + destruct (update_submit_effect w A reagent_id f)
        as [-> | (r0 & Hr0 & Hid & ->)]; [ auto | ].
      apply (queries_scoped (store w) A) in Hr0. destruct Hr0 as [Hin Hown].
      split.
      * apply others_rows_set_reagents.
        apply others_update_where; [ | reflexivity ].
        intros r Hr Hp. apply Z.eqb_eq in Hp.
        assert (r = r0) as -> by
          (apply (key_wf_unique r_id _ r r0 Wr Hr Hin); congruence).
        exact Hown.
      * refine (conj Wt (conj _ (conj We Wb))).
        now apply key_wf_update_where.
    + destruct (delete_submit_effect w A reagent_id)
        as [-> | (r0 & Hr0 & Hid & ->)]; [ auto | ].
      apply (queries_scoped (store w) A) in Hr0. destruct Hr0 as [Hin Hown].
      split.
      * apply others_rows_set_reagents.
        apply others_delete_where.
        intros r Hr Hp. apply Z.eqb_eq in Hp.
        assert (r = r0) as -> by
          (apply (key_wf_unique r_id _ r r0 Wr Hr Hin); congruence).
        exact Hown.
      * refine (conj Wt (conj _ (conj We Wb))).
        now apply key_wf_delete_where.
Qed.

Lemma run_cons (sha256 : string -> string) (a : action) (l : list action)
    (w : world) :
  run sha256 (a :: l) w = run sha256 l (exec (step sha256 a) w).
Proof. reflexivity. Qed.

(** X1. No sequence of actions in the session of one user changes or
    removes a row of another user, in any of the four repositories: the
    rows that do not belong to [A] are the same before and after, in the
    same order. The ids that Update and Delete act on are looked up in
    the user's own list first, which is what keeps the statements without
    a [user_id] predicate inside the user's rows. *)
Theorem no_cross_user_mutation (sha256 : string -> string) (A : Z)
    (l : list action) (w : world) :
  Forall (fun a => actor a = Some A) l ->
  store_wf (store w) ->
  others_rows A (store (run sha256 l w)) = others_rows A (store w)
  /\ store_wf (store (run sha256 l w)).
Proof.
  intros Hl. revert w. induction Hl as [| a l Ha _ IH]; intros w Hwf.
  - auto.
  - rewrite run_cons.
    destruct (own_rows_only sha256 a A w Ha Hwf) as [Ho Hw].
    cbv zeta in Ho, Hw. destruct (IH _ Hw) as [Ho' Hw'].
    split; [ congruence | exact Hw' ].
Qed.

(** ** Where quantities stay non-negative *)

Lemma apply_cell_quantity_ok (today : Datetime.date) (c : cell) (row : df_row) :
  quantity_ok row -> quantity_ok (apply_cell today c row).
Proof.
  unfold quantity_ok. intros H q.
  destruct c as [v | [q' |] | v | v | v | v | [d |] | v]; cbn; auto.
  - destruct (PrimFloat.leb 0 q') eqn:Hq; cbn; auto. now intros [= <-].
  - discriminate.
  - destruct (_ <=? _); cbn; auto.
Qed.

Lemma edit_row_quantity_ok (i : nat) (f : df_row -> df_row) (df : list df_row) :
  (forall row, quantity_ok row -> quantity_ok (f row)) ->
  Forall quantity_ok df -> Forall quantity_ok (edit_row i f df).
Proof.
  intros Hf. revert i. induction df as [| row df IH]; intros i H; cbn.
  - destruct i; constructor.
  - inversion H; subst. destruct i; constructor; auto.
Qed.

Lemma data_editor_quantity_ok (today : Datetime.date)
    (edits : list (nat * cell)) :
  forall df, Forall quantity_ok df ->
             Forall quantity_ok (data_editor today df edits).
Proof.
  unfold data_editor. induction edits as [| e edits IH]; intros df H; cbn.
  - exact H.
  - apply IH. apply edit_row_quantity_ok; [ | exact H ].
    intros row. apply apply_cell_quantity_ok.
Qed.

Lemma update_rows_quantities (u : Z) (df : list df_row) :
  Forall quantity_ok df ->
  forall db db',
    update_rows db u df = inr db' ->
    quantities_nonneg db -> quantities_nonneg db'.
Proof.
  induction 1 as [| row df Hrow _ IH]; intros db db'; cbn.
  - now intros [= <-].
  - unfold UPDATE_reagent_of_user.
    destruct (existsb _ _); [ | apply IH ].
    destruct (Name row), (Quantity row) as [q |] eqn:Hq, (Unit row);
      try discriminate.
    intros H Hnn. apply IH in H; [ exact H | ].
    unfold quantities_nonneg in *. cbn. apply Forall_forall.
    intros r' Hr'. apply in_map_iff in Hr'. destruct Hr' as (r & <- & Hr).
    rewrite Forall_forall in Hnn.
    destruct (_ && _); cbn; [ now apply Hrow | now apply Hnn ].
Qed.

Lemma listed_quantity_ok (db : database) (u : Z) :
  quantities_nonneg db ->
  Forall quantity_ok (map df_of (SELECT_reagents db u)).
Proof.
  intros Hnn. unfold SELECT_reagents. rewrite map_map. apply Forall_forall.
  intros row Hrow. apply in_map_iff in Hrow. destruct Hrow as (r & <- & Hr).
  apply (queries_scoped db u) in Hr. destruct Hr as [Hin _].
  unfold quantities_nonneg in Hnn. rewrite Forall_forall in Hnn.
  unfold quantity_ok. cbn. intros q [= <-]. now apply Hnn.
Qed.

(** X2. Every action other than the button Update of the Update
    Inventory tab keeps all quantities at or above zero: the add form and
    the inventory editor bound the value they accept, and nothing else
    writes the column. *)
Theorem quantity_stays_nonneg (sha256 : string -> string) (a : action)
    (w : world) :
  is_update_submit a = false ->
  quantities_nonneg (store w) ->
  quantities_nonneg (store (exec (step sha256 a) w)).
Proof.
  intros Ha Hnn. destruct a; try discriminate Ha; cbn [step].
  - destruct (login_page_register_effect sha256 f now w) as [t ->]. exact Hnn.
  - unfold add_task, insert_task, INSERT_task, insert. step_through; exact Hnn.
  - unfold add_recurring_task, insert_task, INSERT_task, insert.
    step_through; exact Hnn.
  - unfold quick_add_task, insert_task, INSERT_task, insert.
    step_through; exact Hnn.
  - destruct (complete_click_effect w user_id k) as [-> | (t & _ & ->)];
      exact Hnn.
  - destruct (advance_click_effect w user_id frequency k)
      as [-> | (t & nd & _ & ->)]; exact Hnn.
  - unfold save_protocol, INSERT_experiment, insert. step_through; exact Hnn.
  - unfold save_buffer, INSERT_buffer, insert. step_through; exact Hnn.
  - destruct (inventory_edit_effect w user_id today edits) as [-> | H];
      [ exact Hnn | ].
    eapply update_rows_quantities; [ | exact H | exact Hnn ].
    apply data_editor_quantity_ok. now apply listed_quantity_ok.
  - unfold add_reagent, add_form_ok, number_input_ok, INSERT_reagent, insert.
    destruct (PrimFloat.leb 0 (add_quantity f)) eqn:Hq; cbn [andb negb orb];
      step_through; try exact Hnn.
    unfold quantities_nonneg in *. cbn. apply Forall_app. split; [ exact Hnn | ].
    constructor; [ exact Hq | constructor ].
  - destruct (delete_submit_effect w user_id reagent_id)
      as [-> | (r0 & _ & _ & ->)]; [ exact Hnn | ].
    unfold quantities_nonneg in *. cbn. rewrite Forall_forall in *.
    intros r Hr. apply filter_In in Hr. now apply Hnn.
Qed.

(** X1 on a store with a reagent of user 1 (id 1) and one of user 2
    (id 2): user 1 adds a task, asks the Update Inventory tab to delete
    id 2 and to rewrite id 2, and deletes id 1. The reagent of user 2 is
    as before. *)
Lemma no_cross_user_mutation_witness :
  let sha256 := fun s : string => String "#" s in
  let mine := mkreagent 1 1 "Ethanol" 5 "L" (Some "") (Some "") (Some "")
                "2024-01-01" None (Some "") in
  let theirs := mkreagent 2 2 "Tris" 5 "g" (Some "") (Some "") (Some "")
                  "2024-01-01" None (Some "") in
  let w := mkworld (set_reagents initialize_db (mktable [mine; theirs] 2))
             true [] in
  let l := [AddTask 1 "Autoclave" "" (Datetime.mkdate 2024 1 1) once;
            DeleteSubmit 1 2;
            UpdateSubmit 1 2
              (mkupdate "Water" 0 "mL" None None None None None);
            DeleteSubmit 1 1] in
  rows (reagents (store (run sha256 l w))) = [theirs]
  /\ others_rows 1 (store (run sha256 l w)) = ([], [theirs], [], []).
Proof.
  cbv zeta. split; [ reflexivity | ].
  refine (proj1 (no_cross_user_mutation (fun s : string => String "#" s) 1
                   [AddTask 1 "Autoclave" "" (Datetime.mkdate 2024 1 1) once;
                    DeleteSubmit 1 2;
                    UpdateSubmit 1 2
                      (mkupdate "Water" 0 "mL" None None None None None);
                    DeleteSubmit 1 1]
                   (mkworld
                      (set_reagents initialize_db
                         (mktable
                            [mkreagent 1 1 "Ethanol" 5 "L" (Some "") (Some "")
                               (Some "") "2024-01-01" None (Some "");
                             mkreagent 2 2 "Tris" 5 "g" (Some "") (Some "")
                               (Some "") "2024-01-01" None (Some "")] 2))
                      true [])
                   _ _)).
  - repeat constructor.
  - unfold store_wf, key_wf, keys_bounded. cbn.
    repeat split; repeat constructor; cbn; try discriminate; intuition discriminate.
Defined.

(** X2 on the empty store: a reagent added with quantity 1.0. *)
Lemma quantity_stays_nonneg_witness :
  let sha256 := fun s : string => String "#" s in
  let w := mkworld initialize_db true [] in
  let a := AddReagent 1 (mkadd "Ethanol" 1 "L" "Room 1" "" "" None "")
             "2024-01-01" in
  map r_quantity (rows (reagents (store (exec (step sha256 a) w)))) = [1%float]
  /\ quantities_nonneg (store (exec (step sha256 a) w)).
Proof.
  cbv zeta. split; [ reflexivity | ].
  apply (quantity_stays_nonneg (fun s : string => String "#" s)
           (AddReagent 1 (mkadd "Ethanol" 1 "L" "Room 1" "" "" None "")
              "2024-01-01")
           (mkworld initialize_db true []) eq_refl).
  constructor.
Defined.

(** ** The states that the application reaches *)

Lemma update_rows_users (u : Z) (df : list df_row) :
  forall db db', update_rows db u df = inr db' -> users db' = users db.
Proof.
  induction df as [| row df IH]; intros db db'; cbn.
  - now intros [= <-].
  - unfold UPDATE_reagent_of_user.
    destruct (existsb _ _); [ | apply IH ].
    destruct (Name row), (Quantity row), (Unit row); try discriminate.
    intros H. apply IH in H. exact H.
Qed.

(** Only registration writes the table [users]. *)
Lemma step_users_frame (sha256 : string -> string) (a : action) (A : Z)
    (w : world) :
  actor a = Some A ->
  users (store (exec (step sha256 a) w)) = users (store w).
Proof.
  intros Ha. destruct a; try discriminate Ha; cbn [step].
  - unfold add_task, insert_task, INSERT_task, insert. step_through; reflexivity.
  - unfold add_recurring_task, insert_task, INSERT_task, insert.
    step_through; reflexivity.
  - unfold quick_add_task, insert_task, INSERT_task, insert.
    step_through; reflexivity.
  - destruct (complete_click_effect w user_id k) as [-> | (t & _ & ->)];
      reflexivity.
  - destruct (advance_click_effect w user_id frequency k)
      as [-> | (t & nd & _ & ->)]; reflexivity.
  - unfold save_protocol, INSERT_experiment, insert. step_through; reflexivity.
  - unfold save_buffer, INSERT_buffer, insert. step_through; reflexivity.
  - destruct (inventory_edit_effect w user_id today edits) as [-> | H];
      [ reflexivity | ].
    eapply update_rows_users. exact H.
  - unfold add_reagent, INSERT_reagent, insert. step_through; reflexivity.
  - destruct (update_submit_effect w user_id reagent_id f)
      as [-> | (r0 & _ & _ & ->)]; reflexivity.
  - destruct (delete_submit_effect w user_id reagent_id)
      as [-> | (r0 & _ & _ & ->)]; reflexivity.
Qed.

Lemma login_page_register_keeps_unique (sha256 : string -> string)
    (f : register_form) (now : string) (w : world) :
  users_unique (store w) ->
  users_unique (store (exec (login_page_register sha256 f now) w)).
Proof.
  intros Hu. unfold login_page_register.
  destruct (negb _); [ exact Hu | ].
  destruct (_ <? _)%nat; [ exact Hu | ].
  pose proof (create_user_keeps_unique sha256 (new_username f)
                (new_password f) (email f) (full_name f) now w Hu) as H.
  unfold exec, bind in *.
  destruct (create_user sha256 _ _ _ _ now w) as [[|] w']; exact H.
Qed.

(** The primary keys and the unique user names hold in the store that
    [initialize_db] creates and after every action: they hold in every
    state that the application reaches. *)
Lemma step_keeps_invariants (sha256 : string -> string) (a : action)
    (w : world) :
  store_wf (store w) /\ users_unique (store w) ->
  store_wf (store (exec (step sha256 a) w))
  /\ users_unique (store (exec (step sha256 a) w)).
Proof.
  intros [Hwf Hu]. destruct (actor a) as [A |] eqn:Ha.
  - split; [ now apply (own_rows_only sha256 a A w Ha Hwf) | ].
    unfold users_unique. now rewrite (step_users_frame sha256 a A w Ha).
  - destruct a; try discriminate Ha. cbn [step]. split.
    + destruct (login_page_register_effect sha256 f now w) as [t ->]. exact Hwf.
    + now apply login_page_register_keeps_unique.
Qed.

Lemma reachable_invariants (sha256 : string -> string) (l : list action)
    (storage : bool) :
  let w := run sha256 l (mkworld initialize_db storage []) in
  store_wf (store w) /\ users_unique (store w) /\ keys_ok (store w).
Proof.
  cbv zeta.
  assert (H : forall w, store_wf (store w) /\ users_unique (store w) ->
                        store_wf (store (run sha256 l w))
                        /\ users_unique (store (run sha256 l w))).
  { induction l as [| a l IH]; intros w Hw; [ exact Hw | ].
    rewrite run_cons. apply IH. now apply step_keeps_invariants. }
  destruct (H (mkworld initialize_db storage [])) as [Hwf Hu].
  - split; [ | constructor ].
    unfold store_wf, key_wf, keys_bounded. cbn.
    repeat split; constructor.
  - repeat split; try assumption; apply Hwf.
Qed.

(** ** The button Update on a reagent of one's own *)




(** ** The lists of the dashboard *)

Section SortFacts.

Context {R : Type} (le : R -> R -> bool).

Hypothesis le_total : forall a b, le a b = true \/ le b a = true.

Lemma insert_sorted_HdRel (a x : R) (l : list R) :
  le a x = true -> HdRel (fun a b => le a b = true) a l ->
  HdRel (fun a b => le a b = true) a (insert_sorted le x l).
Proof.
  intros Hax Hl. destruct l as [| y l]; cbn; [ now constructor | ].
  destruct (le x y); constructor; [ exact Hax | now inversion Hl ].
Qed.

Lemma insert_sorted_Sorted (x : R) (l : list R) :
  Sorted (fun a b => le a b = true) l ->
  Sorted (fun a b => le a b = true) (insert_sorted le x l).
Proof.
  induction 1 as [| y l Hs IH Hhd]; cbn; [ repeat constructor | ].
  destruct (le x y) eqn:Hxy.
  - repeat constructor; assumption.
  - constructor; [ exact IH | ].
    apply insert_sorted_HdRel; [ | exact Hhd ].
    destruct (le_total x y); congruence.
Qed.

Lemma order_by_Sorted (l : list R) :
  Sorted (fun a b => le a b = true) (order_by le l).
Proof.
  unfold order_by. induction l as [| x l IH]; cbn; [ constructor | ].
  now apply insert_sorted_Sorted.
Qed.

Lemma limit_Sorted (n : nat) (l : list R) :
  Sorted (fun a b => le a b = true) l ->
  Sorted (fun a b => le a b = true) (limit n l).
Proof.
  unfold limit. intros H. revert n.
  induction H as [| y l Hs IH Hhd]; intros [| n]; cbn; try constructor.
  - apply IH.
  - destruct Hhd; destruct n; cbn; constructor; assumption.
Qed.

End SortFacts.

(** X4. The "upcoming tasks" of the dashboard for user [A]: at most five
    rows of [tasks], each of [A], not completed, and due today or later or
    else not of frequency once, in ascending order of the due date (as
    text). The "low reagents": at most three rows of [reagents], each of
    [A] with a quantity below 10. *)
Theorem dashboard_views (db : database) (A : Z) (today : string) :
  let upcoming := upcoming_tasks_rows db A today in
  let low := low_reagents_rows db A in
  (List.length upcoming <= 5)%nat
  /\ Sorted (fun a b => String.leb (t_due_date a) (t_due_date b) = true)
       upcoming
  /\ (forall r, In r upcoming ->
        In r (rows (tasks db)) /\ t_user_id r = A /\ t_completed r = 0
        /\ (String.leb today (t_due_date r) = true
            \/ t_frequency r <> "once"))
  /\ (List.length low <= 3)%nat
  /\ (forall r, In r low ->
        In r (rows (reagents db)) /\ r_user_id r = A
        /\ PrimFloat.ltb (r_quantity r) 10 = true).
Proof.
  cbv zeta. unfold upcoming_tasks_rows, low_reagents_rows.
  refine (conj _ (conj _ (conj _ (conj _ _)))).
  - unfold limit. apply firstn_le_length.
  - apply limit_Sorted, order_by_Sorted.
    intros a b. apply String.leb_total.
  - intros r Hr. apply in_limit, in_order_by, in_select_where in Hr.
    destruct Hr as [Hin Hp].
    apply andb_prop in Hp. destruct Hp as [Hp Hdue].
    apply andb_prop in Hp. destruct Hp as [Hown Hdone].
    apply Z.eqb_eq in Hown, Hdone. repeat split; try assumption.
    apply orb_prop in Hdue. destruct Hdue as [Hdue | Hfreq]; [ now left | ].
    right. apply negb_true_iff, String.eqb_neq in Hfreq. exact Hfreq.
  - unfold limit. apply firstn_le_length.
  - intros r Hr. apply in_limit, in_order_by, in_select_where in Hr.
    destruct Hr as [Hin Hp].
    apply andb_prop in Hp. destruct Hp as [Hown Hlow].
    apply Z.eqb_eq in Hown. auto.
Qed.

(** ** What a form adds is listed *)

(** The body of the three task forms on a store that opens, with a title
    and a key to give: one row more, and four events. *)
Lemma insert_task_stored (w : world) (u : Z)
    (title description due_date frequency success : string) :
  storage_ok w = true -> title <> "" ->
  seq (tasks (store w)) < MAX_ROWID ->
  exec (insert_task u title description due_date frequency success) w
  = mkworld
      (set_tasks (store w)
         (mktable
            (rows (tasks (store w))
             ++ [mktask (seq (tasks (store w)) + 1) u title description
                   due_date frequency 0])
            (seq (tasks (store w)) + 1)))
      true
      (log w ++ [ev_connect; ev_commit; ev_success success; ev_rerun]).
Proof.
  intros Hok Htitle Hseq. unfold insert_task.
  apply String.eqb_neq in Htitle. rewrite Htitle.
  unfold INSERT_task, insert. apply Z.ltb_lt in Hseq.
  run_app. rewrite Hok. cbn [fst snd store storage_ok log].
  rewrite Hseq. cbn [fst snd store storage_ok log].
  repeat rewrite <- app_assoc. reflexivity.
Qed.

(** X5. A task added with a title, on a store that opens and has a key
    to give, gets the next key and is listed at once, not completed,
    under the date of the form: the form of the Daily Tasks tab in
    [get_tasks()], the form of the Weekly/Monthly tab in [get_tasks] of
    the frequency of its radio, and the quick form of the Calendar View in
    the tasks of the selected date. *)
Theorem added_task_listed (w : world) (u : Z) (title description : string)
    (d : Datetime.date) :
  storage_ok w = true -> title <> "" ->
  seq (tasks (store w)) < MAX_ROWID ->
  let id := seq (tasks (store w)) + 1 in
  (forall f : frequency_option,
      In (id, title, description, Datetime.strftime d, frequency_text f, 0)
         (eval (get_tasks u None false)
            (exec (add_task u title description d f) w)))
  /\ (forall f : recurring_option,
         In (id, title, description, Datetime.strftime d, recurring_text f, 0)
            (eval (get_tasks u (Some (recurring_text f)) false)
               (exec (add_recurring_task u f title description d) w)))
  /\ In (title, description)
        (eval (calendar_tasks u d)
           (exec (quick_add_task u d title description) w)).
Proof.
  intros Hok Htitle Hseq. cbv zeta.
  unfold add_task, add_recurring_task, quick_add_task.
  refine (conj _ (conj _ _)).
  - intros f. rewrite insert_task_stored by assumption.
    unfold get_tasks. run_app. unfold SELECT_tasks.
    apply (in_map (fun r => (t_id r, t_title r, t_description r,
                             t_due_date r, t_frequency r, t_completed r))
             _ (mktask (seq (tasks (store w)) + 1) u title description
                  (Datetime.strftime d) (frequency_text f) 0)).
    apply in_order_by, in_select_where. split.
    + cbn. apply in_or_app. right. now left.
    + unfold get_tasks_where. cbn. now rewrite Z.eqb_refl.
  - intros f. rewrite insert_task_stored by assumption.
    unfold get_tasks. run_app. unfold SELECT_tasks.
    apply (in_map (fun r => (t_id r, t_title r, t_description r,
                             t_due_date r, t_frequency r, t_completed r))
             _ (mktask (seq (tasks (store w)) + 1) u title description
                  (Datetime.strftime d) (recurring_text f) 0)).
    apply in_order_by, in_select_where. split.
    + cbn. apply in_or_app. right. now left.
    + unfold get_tasks_where. cbn [t_user_id t_frequency t_completed].
      rewrite Z.eqb_refl, String.eqb_refl. now destruct f.
  - rewrite insert_task_stored by assumption.
    unfold calendar_tasks. run_app. unfold SELECT_tasks_on.
    apply (in_map (fun r => (t_title r, t_description r))
             _ (mktask (seq (tasks (store w)) + 1) u title description
                  (Datetime.strftime d) "once" 0)).
    apply in_select_where. split.
    + cbn. apply in_or_app. right. now left.
    + cbn [t_user_id t_due_date t_completed].
      now rewrite Z.eqb_refl, String.eqb_refl.
Qed.

Lemma added_task_listed_witness :
  let w := mkworld initialize_db true [] in
  let d := Datetime.mkdate 2024 1 1 in
  In (1, "Autoclave", "", "2024-01-01", "weekly", 0)
     (eval (get_tasks 1 (Some "weekly") false)
        (exec (add_recurring_task 1 radio_weekly "Autoclave" "" d) w)).
Proof.
  exact (proj1 (proj2
    (added_task_listed (mkworld initialize_db true []) 1 "Autoclave" ""
       (Datetime.mkdate 2024 1 1) eq_refl ltac:(discriminate)
       ltac:(reflexivity))) radio_weekly).
Defined.




(** ** Histories: what no action takes back *)

Lemma task_evolves_refl (r : task_row) : task_evolves r r.
Proof. unfold task_evolves. auto 10. Qed.

Lemma task_evolves_trans (r r' r'' : task_row) :
  task_evolves r r' -> task_evolves r' r'' -> task_evolves r r''.
Proof.
  unfold task_evolves.
  intros (A1 & A2 & A3 & A4 & A5 & A6) (B1 & B2 & B3 & B4 & B5 & B6).
  repeat split; try congruence.
  destruct B6 as [B6 | B6]; [ | now right ].
  destruct A6 as [A6 | A6]; [ left | right ]; congruence.
Qed.

Lemma Forall2_task_evolves_refl (l : list task_row) :
  Forall2 task_evolves l l.
Proof. induction l; constructor; auto using task_evolves_refl. Qed.

Lemma Forall2_task_evolves_trans (l l' l'' : list task_row) :
  Forall2 task_evolves l l' -> Forall2 task_evolves l' l'' ->
  Forall2 task_evolves l l''.
Proof.
  intros H. revert l''. induction H as [| r r' l l' Hr _ IH]; intros l'' H'.
  - inversion H'. constructor.
  - inversion H' as [| ? r'' ? k'' Hr' Hl']; subst. constructor.
    + eapply task_evolves_trans; eassumption.
    + now apply IH.
Qed.

Lemma tasks_evolve_refl (t : table task_row) : tasks_evolve t t.
Proof.
  exists (rows t), []. rewrite app_nil_r.
  auto using Forall2_task_evolves_refl.
Qed.

Lemma tasks_evolve_trans (t t' t'' : table task_row) :
  tasks_evolve t t' -> tasks_evolve t' t'' -> tasks_evolve t t''.
Proof.
  intros (kept & extra & E & F) (kept' & extra' & E' & F').
  rewrite E in F'. apply Forall2_app_inv_l in F'.
  destruct F' as (k1 & k2 & F1 & F2 & ->).
  exists k1, (k2 ++ extra'). split.
  - rewrite E'. now rewrite app_assoc.
  - eapply Forall2_task_evolves_trans; eassumption.
Qed.

Lemma tasks_evolve_appended (u : Z) (t t' : table task_row) :
  appended t_id t_user_id u t t' -> tasks_evolve t t'.
Proof.
  intros [-> | (r & E & _)]; [ apply tasks_evolve_refl | ].
  exists (rows t), [r]. auto using Forall2_task_evolves_refl.
Qed.

Lemma tasks_evolve_update_where (p : task_row -> bool)
    (f : task_row -> task_row) (t : table task_row) :
  (forall r, task_evolves r (f r)) -> tasks_evolve t (update_where p f t).
Proof.
  intros Hf. exists (rows (update_where p f t)), []. rewrite app_nil_r.
  split; [ reflexivity | ]. cbn.
  induction (rows t) as [| r l IH]; cbn; constructor; [ | exact IH ].
  destruct (p r); auto using task_evolves_refl.
Qed.

Lemma append_only_refl {R : Type} (t : table R) : append_only t t.
Proof. exists []. now rewrite app_nil_r. Qed.

Lemma append_only_trans {R : Type} (t t' t'' : table R) :
  append_only t t' -> append_only t' t'' -> append_only t t''.
Proof.
  intros [x E] [y E']. exists (x ++ y). now rewrite E', E, app_assoc.
Qed.

Lemma append_only_appended {R : Type} (key owner : R -> Z) (u : Z)
    (t t' : table R) :
  appended key owner u t t' -> append_only t t'.
Proof.
  intros [-> | (r & E & _)]; [ apply append_only_refl | ]. now exists [r].
Qed.

(** The loop of the inventory editor writes the table [reagents] only. *)
Lemma update_rows_frame (u : Z) (df : list df_row) :
  forall db db', update_rows db u df = inr db' ->
                 db' = set_reagents db (reagents db').
Proof.
  induction df as [| row df IH]; intros db db'; cbn.
  - intros [= <-]. now destruct db.
  - unfold UPDATE_reagent_of_user.
    destruct (existsb _ _); [ | apply IH ].
    destruct (Name row), (Quantity row), (Unit row); try discriminate.
    intros H. apply IH in H. rewrite H. reflexivity.
Qed.

(** Registration adds at most one row to [users] and leaves the rows that
    are there. *)
Lemma login_page_register_appends (sha256 : string -> string)
    (f : register_form) (now : string) (w : world) :
  append_only (users (store w))
    (users (store (exec (login_page_register sha256 f now) w))).
Proof.
  unfold login_page_register.
  destruct (negb _); [ apply append_only_refl | ].
  destruct (_ <? _)%nat; [ apply append_only_refl | ].
  unfold create_user, INSERT_user, insert. step_through;
    try apply append_only_refl.
  all: cbn; eexists; reflexivity.
Qed.

(** One action: the rows of [users], [experiments] and [buffers] stay as
    they are, and every task stays, with its key, owner, title,
    description and frequency. *)
Lemma step_histories (sha256 : string -> string) (a : action) (w : world) :
  let db := store w in
  let db' := store (exec (step sha256 a) w) in
  append_only (users db) (users db')
  /\ tasks_evolve (tasks db) (tasks db')
  /\ append_only (experiments db) (experiments db')
  /\ append_only (buffers db) (buffers db').
Proof.
  cbv zeta. destruct (actor a) as [A |] eqn:Ha.
  - rewrite (step_users_frame sha256 a A w Ha).
    split; [ apply append_only_refl | ].
    destruct (is_create a) eqn:Hc.
    + destruct (create_step sha256 a A w Hc Ha) as (At & _ & Ae & Ab).
      refine (conj _ (conj _ _));
        eauto using tasks_evolve_appended, append_only_appended.
    + destruct a; try discriminate Hc; try discriminate Ha; cbn [step].
      * destruct (complete_click_effect w user_id k) as [-> | (t & _ & ->)];
          cbn; auto using tasks_evolve_refl, append_only_refl.
        refine (conj _ (conj (append_only_refl _) (append_only_refl _))).
        apply tasks_evolve_update_where. intros r.
        unfold task_evolves. cbn. auto 10.
      * destruct (advance_click_effect w user_id frequency k)
          as [-> | (t & nd & _ & ->)];
          cbn; auto using tasks_evolve_refl, append_only_refl.
        refine (conj _ (conj (append_only_refl _) (append_only_refl _))).
        apply tasks_evolve_update_where. intros r.
        unfold task_evolves. cbn. auto 10.
      * destruct (inventory_edit_effect w user_id today edits) as [-> | H];
          auto using tasks_evolve_refl, append_only_refl.
        apply update_rows_frame in H. rewrite H. cbn.
        auto using tasks_evolve_refl, append_only_refl.
      * destruct (update_submit_effect w user_id reagent_id f)
          as [-> | (r0 & _ & _ & ->)];
          cbn; auto using tasks_evolve_refl, append_only_refl.
      * destruct (delete_submit_effect w user_id reagent_id)
          as [-> | (r0 & _ & _ & ->)];
          cbn; auto using tasks_evolve_refl, append_only_refl.
  - destruct a; try discriminate Ha. cbn [step].
    split; [ apply login_page_register_appends | ].
    destruct (login_page_register_effect sha256 f now w) as [t ->]. cbn.
    auto using tasks_evolve_refl, append_only_refl.
Qed.

Lemma run_histories (sha256 : string -> string) (l : list action) :
  forall w : world,
    let db := store w in
    let db' := store (run sha256 l w) in
    append_only (users db) (users db')
    /\ tasks_evolve (tasks db) (tasks db')
    /\ append_only (experiments db) (experiments db')
    /\ append_only (buffers db) (buffers db').
Proof.
  cbv zeta. induction l as [| a l IH]; intros w.
  - cbn. refine (conj _ (conj _ (conj _ _)));
      auto using tasks_evolve_refl, append_only_refl.
  - rewrite run_cons.
    destruct (step_histories sha256 a w) as (U & T & E & B).
    destruct (IH (exec (step sha256 a) w)) as (U' & T' & E' & B').
    refine (conj _ (conj _ (conj _ _)));
      eauto using tasks_evolve_trans, append_only_trans.
Qed.

(** X7. Whatever the users do, in any order: no task is ever removed,
    the tasks keep their order, and no task changes its key, owner, title,
    description or frequency; [completed] is never reset (a task that was
    checked off stays so). Only the due date of a task can change, and
    [completed] from not set to set. *)
Theorem tasks_are_never_lost (sha256 : string -> string) (l : list action)
    (w : world) :
  tasks_evolve (tasks (store w)) (tasks (store (run sha256 l w)))
  /\ (forall r, In r (rows (tasks (store w))) ->
        exists r', In r' (rows (tasks (store (run sha256 l w))))
                   /\ task_evolves r r').
Proof.
  pose proof (run_histories sha256 l w) as (_ & T & _).
  split; [ exact T | ].
  destruct T as (kept & extra & E & F). intros r Hr.
  rewrite E. clear E. induction F as [| x x' k k' Hx _ IH]; [ destruct Hr | ].
  destruct Hr as [<- | Hr].
  - exists x'. split; [ now left | exact Hx ].
  - destruct (IH Hr) as (r' & Hin & Hev). exists r'. split; [ | exact Hev ].
    now right.
Qed.

(** X8. Whatever the users do, in any order: the rows of [users],
    [experiments] and [buffers] that are there stay, unchanged and in
    their order (the application has no statement that updates or deletes
    an account, a saved protocol or a saved buffer); rows are only added
    after them. *)
Theorem accounts_protocols_buffers_append_only (sha256 : string -> string)
    (l : list action) (w : world) :
  let db := store w in
  let db' := store (run sha256 l w) in
  append_only (users db) (users db')
  /\ append_only (experiments db) (experiments db')
  /\ append_only (buffers db) (buffers db')
  /\ (forall r, In r (rows (users db)) -> In r (rows (users db')))
  /\ (forall r, In r (rows (experiments db)) -> In r (rows (experiments db')))
  /\ (forall r, In r (rows (buffers db)) -> In r (rows (buffers db'))).
Proof.
  cbv zeta. pose proof (run_histories sha256 l w) as (U & _ & E & B).
  refine (conj U (conj E (conj B (conj _ (conj _ _))))).
  - destruct U as [x ->]. intros r Hr. apply in_or_app. now left.
  - destruct E as [x ->]. intros r Hr. apply in_or_app. now left.
  - destruct B as [x ->]. intros r Hr. apply in_or_app. now left.
Qed.

(** ** Accounts keep their credentials *)

(** Whether the store opens is not a matter of the handlers. *)
Lemma step_storage_ok (sha256 : string -> string) (a : action) (w : world) :
  storage_ok (exec (step sha256 a) w) = storage_ok w.
Proof.
  destruct a; cbn [step];
    unfold login_page_register, create_user, add_task, add_recurring_task,
      quick_add_task, insert_task, complete_click, advance_click,
      save_protocol, save_buffer, inventory_edit, add_reagent, update_submit,
      delete_submit, with_selected, update_reagent, delete_reagent,
      get_tasks, get_reagents;
    step_through; reflexivity.
Qed.

Lemma run_storage_ok (sha256 : string -> string) (l : list action) :
  forall w : world, storage_ok (run sha256 l w) = storage_ok w.
Proof.
  induction l as [| a l IH]; intros w; [ reflexivity | ].
  rewrite run_cons, IH. apply step_storage_ok.
Qed.

Lemma run_users_unique (sha256 : string -> string) (l : list action) :
  forall w : world,
    users_unique (store w) -> users_unique (store (run sha256 l w)).
Proof.
  induction l as [| a l IH]; intros w Hu; [ exact Hu | ].
  rewrite run_cons. apply IH.
  destruct (actor a) as [A |] eqn:Ha.
  - unfold users_unique. now rewrite (step_users_frame sha256 a A w Ha).
  - destruct a; try discriminate Ha. cbn [step].
    now apply login_page_register_keeps_unique.
Qed.

Lemma NoDup_app_disjoint {A : Type} (l l' : list A) (x : A) :
  NoDup (l ++ l') -> In x l -> ~ In x l'.
Proof.
  induction l as [| a l IH]; cbn; [ tauto | ].
  intros H [-> | Hin] Hin'.
  - inversion H as [| ? ? Hn _]; subst. apply Hn, in_or_app. now right.
  - inversion H; subst. now apply IH.
Qed.

(** What [verify_user] returns, by whether the store opens. *)
Lemma verify_user_eval (sha256 : string -> string) (n p : string)
    (w : world) :
  eval (verify_user sha256 n p) w
  = if storage_ok w
    then fetchone (SELECT_user_by_credentials (store w) n (sha256 p))
    else None.
Proof. unfold verify_user. run_app. now destruct (storage_ok w). Qed.

(** X9. An account keeps its credentials, whatever the users do
    afterwards, in any order: a user name and password that [verify_user]
    accepts are accepted later, for the same id; and, the user names being
    unique, a password that is refused for a user name that has an account
    is refused later (no registration or other action changes the password
    of an account or adds a second account of that name). *)
Theorem credentials_are_stable (sha256 : string -> string) (l : list action)
    (w : world) (n p : string) :
  (forall x, eval (verify_user sha256 n p) w = Some x ->
             eval (verify_user sha256 n p) (run sha256 l w) = Some x)
  /\ (users_unique (store w) -> has_username (store w) n ->
      eval (verify_user sha256 n p) w = None ->
      eval (verify_user sha256 n p) (run sha256 l w) = None).
Proof.
  rewrite !verify_user_eval, run_storage_ok.
  pose proof (run_histories sha256 l w) as ([extra E] & _).
  unfold SELECT_user_by_credentials, user_by_credentials_rows, select_where,
    fetchone.
  rewrite E, filter_app, map_app.
  destruct (storage_ok w); [ | split; [ discriminate | reflexivity ] ].
  split.
  - intros x Hx.
    destruct (map _ (filter _ (rows (users (store w))))); [ discriminate | ].
    exact Hx.
  - intros Hu Hn Hx.
    pose proof (run_users_unique sha256 l w Hu) as Hu'.
    unfold users_unique in Hu'. rewrite E, map_app in Hu'.
    rewrite (select_none_without_username extra n (sha256 p)).
    + now rewrite app_nil_r.
    + exact (NoDup_app_disjoint _ _ n Hu' Hn).
Qed.

Lemma credentials_are_stable_witness :
  let sha256 := fun s : string => String "#" s in
  let alice := mkuser 1 "alice" "#s3cret" "" "" "2024-01-01 09:00:00" in
  let w := mkworld (set_users initialize_db (mktable [alice] 1)) true [] in
  let l := [Register (mkregister "alice" "another" "another" "" "")
              "2024-01-02 09:00:00";
            Register (mkregister "bob" "hunter22" "hunter22" "" "")
              "2024-01-03 09:00:00";
            AddTask 1 "Autoclave" "" (Datetime.mkdate 2024 1 1) once] in
  eval (verify_user sha256 "alice" "s3cret") (run sha256 l w)
  = Some (1, "alice")
  /\ eval (verify_user sha256 "alice" "another") (run sha256 l w) = None.
Proof.
  cbv zeta. split.
  - apply (proj1 (credentials_are_stable _ _ _ _ _)). reflexivity.
  - apply (proj2 (credentials_are_stable _ _ _ _ _)).
    + unfold users_unique. cbn. constructor; [ intros [] | constructor ].
    + unfold has_username. cbn. now left.
    + reflexivity.
Defined.

(** ** Due dates *)

Section DueDates.
Import Datetime.

(** The days of a year up to a date of it are at most the days of the
    year. *)
Lemma day_of_year_bound (d : date) :
  valid_date d = true ->
  1 <= days_before_month (year d) (month d) + day d
    <= 365 + (if is_leap (year d) then 1 else 0).
Proof.
  destruct d as [y m dd]. unfold valid_date, MINYEAR, MAXYEAR.
  cbn [year month day]. intros H.
  apply andb_prop in H. destruct H as [H H6].
  apply andb_prop in H. destruct H as [H H5].
  apply andb_prop in H. destruct H as [H H4].
  apply andb_prop in H. destruct H as [H H3].
  apply andb_prop in H. destruct H as [H1 H2].
  apply Z.leb_le in H1, H2, H3, H4, H5, H6.
  unfold days_before_month. unfold days_in_month in H6.
  assert (Hin : In m (map Z.of_nat (List.seq 1 12))) by (cbn; lia).
  cbn in Hin. revert H6.
  repeat (destruct Hin as [<- | Hin];
          [ cbn -[Z.add]; destruct (is_leap y); cbn -[Z.add]; lia | ]).
  destruct Hin.
Qed.

(** The first day of the year 1000 has the ordinal 364878. *)
Lemma ymd2ord_from_1000 (d : date) :
  valid_date d = true -> 1000 <= year d -> 364878 <= ymd2ord d.
Proof.
  intros Hv Hy. pose proof (day_of_year_bound d Hv) as Hd.
  unfold ymd2ord, days_before_year. cbv zeta.
  set (z := year d - 1) in *.
  pose proof (Z.mul_div_le z 4 ltac:(lia)).
  pose proof (Z.mul_succ_div_gt z 4 ltac:(lia)).
  pose proof (Z.mul_div_le z 100 ltac:(lia)).
  pose proof (Z.mul_succ_div_gt z 100 ltac:(lia)).
  pose proof (Z.mul_div_le z 400 ltac:(lia)).
  pose proof (Z.mul_succ_div_gt z 400 ltac:(lia)).
  assert (999 <= z) by (unfold z; lia). lia.
Qed.

Lemma ymd2ord_before_1000 (d : date) :
  valid_date d = true -> year d < 1000 -> ymd2ord d < 364878.
Proof.
  intros Hv Hy. pose proof (day_of_year_bound d Hv) as Hd.
  assert (Hy1 : 1 <= year d).
  { unfold valid_date, MINYEAR in Hv.
    repeat (apply andb_prop in Hv; destruct Hv as [Hv _]).
    now apply Z.leb_le in Hv. }
  assert (Hleap : year d = 999 -> is_leap (year d) = false)
    by (intros ->; reflexivity).
  unfold ymd2ord, days_before_year. cbv zeta.
  set (z := year d - 1) in *.
  pose proof (Z.mul_div_le z 4 ltac:(lia)).
  pose proof (Z.mul_div_le z 100 ltac:(lia)).
  pose proof (Z.mul_succ_div_gt z 100 ltac:(lia)).
  pose proof (Z.mul_div_le z 400 ltac:(lia)).
  destruct (Z.eq_dec (year d) 999) as [E | E].
  - rewrite (Hleap E) in Hd. assert (z = 998) by (unfold z; lia). lia.
  - assert (0 <= z <= 997) by (unfold z; lia).
    destruct (is_leap (year d)); lia.
Qed.

(** A date of [st.date_input] moved on by some days is such a date again,
    unless it leaves the calendar. *)
Lemma add_days_date_input (d d' : date) (n : Z) :
  date_input_ok d = true -> 0 <= n -> add_days d n = Some d' ->
  date_input_ok d' = true.
Proof.
  unfold date_input_ok. intros H Hn Hadd.
  apply andb_prop in H. destruct H as [Hv Hy]. apply Z.leb_le in Hy.
  pose proof (ymd2ord_from_1000 d Hv Hy) as Hord.
  unfold add_days in Hadd. cbv zeta in Hadd.
  destruct ((0 <? ymd2ord d + n) && (ymd2ord d + n <=? MAXORDINAL)) eqn:Hr;
    [ | discriminate ].
  injection Hadd as <-.
  apply andb_prop in Hr. destruct Hr as [Hlo Hhi].
  apply Z.ltb_lt in Hlo. apply Z.leb_le in Hhi.
  destruct (ord2ymd_spec (ymd2ord d + n) ltac:(lia)) as [Hord' Hv'].
  rewrite Hv'. cbn [andb]. apply Z.leb_le.
  destruct (Z.lt_ge_cases (year (ord2ymd (ymd2ord d + n))) 1000) as [Hlt | Hge];
    [ | exact Hge ].
  pose proof (ymd2ord_before_1000 _ Hv' Hlt). lia.
Qed.

End DueDates.

(** The body of the three task forms: nothing, or one row more with the
    values of the form. *)
Lemma insert_task_effect (w : world) (u : Z)
    (title description due_date frequency success : string) :
  let t := tasks (store w) in
  let db' :=
    store (exec (insert_task u title description due_date frequency success)
             w) in
  db' = store w
  \/ db' = set_tasks (store w)
             (mktable
                (rows t ++ [mktask (seq t + 1) u title description due_date
                              frequency 0])
                (seq t + 1)).
Proof.
  cbv zeta. unfold insert_task, INSERT_task, insert. step_through; auto.
Qed.

(** The button of the Weekly/Monthly tab: nothing, or the due date of a
    task, which parsed, moved by 7 or 30 days and printed. *)
Lemma advance_click_dated (w : world) (u : Z) (f : recurring_option)
    (k : nat) :
  let db' := store (exec (advance_click u f k) w) in
  db' = store w
  \/ exists t d d',
       In t (rows (tasks (store w)))
       /\ Datetime.strptime (t_due_date t) = Some d
       /\ Datetime.add_days d
            (if String.eqb (t_frequency t) "weekly" then 7 else 30) = Some d'
       /\ db' = UPDATE_task_due_date (store w) (Datetime.strftime d') (t_id t).
Proof.
  cbv zeta. unfold advance_click, get_tasks. run_app.
  destruct (storage_ok w); cbn; [ | destruct k; now left ].
  rewrite nth_SELECT_tasks.
  destruct (nth_error _ k) as [t |] eqn:Hnth; cbn; [ | now left ].
  destruct (Datetime.strptime _) as [d |] eqn:Hd; cbn; [ | now left ].
  destruct (Datetime.add_days _ _) as [d' |] eqn:Hd'; cbn; [ | now left ].
  right. exists t, d, d'. apply nth_error_In, get_tasks_rows_sound in Hnth.
  destruct Hnth as [Hin _]. auto.
Qed.

Lemma date_text_parses (s : string) :
  date_text s ->
  exists d, date_input_ok d = true /\ Datetime.strptime s = Some d.
Proof.
  intros (d & Hd & ->). exists d. split; [ exact Hd | ].
  apply strptime_strftime. unfold date_input_ok in Hd.
  now apply andb_prop in Hd.
Qed.

(** One action with dates of [st.date_input] keeps every due date the text
    of such a date. *)
Lemma step_due_dates (sha256 : string -> string) (a : action) (w : world) :
  action_dates_ok a = true -> due_dates_ok (store w) ->
  due_dates_ok (store (exec (step sha256 a) w)).
Proof.
  intros Ha Hw.
  assert (Hadd : forall u title description d frequency success,
             date_input_ok d = true ->
             due_dates_ok
               (store (exec (insert_task u title description
                               (Datetime.strftime d) frequency success) w))).
  { intros u title description d frequency success Hd.
    destruct (insert_task_effect w u title description (Datetime.strftime d)
                frequency success) as [-> | ->]; [ exact Hw | ].
    unfold due_dates_ok. cbn. apply Forall_app. split; [ exact Hw | ].
    constructor; [ | constructor ]. now exists d. }
  destruct a; cbn [step]; cbn [action_dates_ok] in Ha.
  - destruct (login_page_register_effect sha256 f now w) as [t ->]. exact Hw.
  - now apply Hadd.
  - now apply Hadd.
  - now apply Hadd.
  - destruct (complete_click_effect w user_id k) as [-> | (t & _ & ->)];
      [ exact Hw | ].
    unfold due_dates_ok in *. cbn. apply Forall_map.
    revert Hw. apply Forall_impl. intros r Hr.
    now destruct (t_id r =? t_id t).
  - destruct (advance_click_dated w user_id frequency k)
      as [-> | (t & d & d' & Hin & Hparse & Hmove & ->)]; [ exact Hw | ].
    assert (Hd' : date_input_ok d' = true).
    { unfold due_dates_ok in Hw. rewrite Forall_forall in Hw.
      destruct (date_text_parses _ (Hw t Hin)) as (d0 & Hd0 & Hparse0).
      assert (d0 = d) as -> by congruence.
      eapply add_days_date_input; [ exact Hd0 | | exact Hmove ].
      destruct (String.eqb _ _); lia. }
    unfold due_dates_ok in *. cbn. apply Forall_map.
    revert Hw. apply Forall_impl. intros r Hr.
    destruct (t_id r =? t_id t); [ | exact Hr ]. now exists d'.
  - unfold save_protocol, INSERT_experiment, insert.
    step_through; exact Hw.
  - unfold save_buffer, INSERT_buffer, insert. step_through; exact Hw.
  - destruct (inventory_edit_effect w user_id today edits) as [-> | H];
      [ exact Hw | ].
    apply update_rows_frame in H. rewrite H. exact Hw.
  - unfold add_reagent, INSERT_reagent, insert. step_through; exact Hw.
  - destruct (update_submit_effect w user_id reagent_id f)
      as [-> | (r0 & _ & _ & ->)]; exact Hw.
  - destruct (delete_submit_effect w user_id reagent_id)
      as [-> | (r0 & _ & _ & ->)]; exact Hw.
Qed.

(** X10. The due date of every task is a calendar date written as
    [%Y-%m-%d], in every store that the application reaches with dates of
    [st.date_input]: the three forms print such a date, and the button of
    the Weekly/Monthly tab parses, moves and prints it. So that button
    never fails to parse a due date: no [ValueError] is raised by
    [strptime], whichever task it is pressed for. *)
Theorem due_dates_stay_dates (sha256 : string -> string) (l : list action)
    (w0 : world) :
  due_dates_ok (store w0) ->
  Forall (fun a => action_dates_ok a = true) l ->
  let w := run sha256 l w0 in
  due_dates_ok (store w)
  /\ forall (u : Z) (f : recurring_option) (k : nat),
       exists evs, log (exec (advance_click u f k) w) = log w ++ evs
                   /\ ~ In (ev_raise "ValueError") evs.
Proof.
  intros H0 Hl. cbv zeta.
  assert (Hw : due_dates_ok (store (run sha256 l w0))).
  { revert w0 H0. induction Hl as [| a l Ha _ IH]; intros w0 H0;
      [ exact H0 | ].
    rewrite run_cons. apply IH. now apply step_due_dates. }
  split; [ exact Hw | ]. intros u f k.
  set (w := run sha256 l w0) in *.
  unfold advance_click, get_tasks. run_app.
  destruct (storage_ok w); cbn [fst snd store storage_ok log].
  - rewrite nth_SELECT_tasks.
    destruct (nth_error _ k) as [t |] eqn:Hnth; cbn.
    + apply nth_error_In, get_tasks_rows_sound in Hnth.
      destruct Hnth as [Hin _].
      unfold due_dates_ok in Hw. rewrite Forall_forall in Hw.
      destruct (date_text_parses _ (Hw t Hin)) as (d & _ & ->).
      destruct (Datetime.add_days _ _); cbn.
      * exists [ev_connect; ev_connect; ev_commit; ev_rerun].
        split; [ now repeat rewrite <- app_assoc | ].
        intros [H | [H | [H | [H | []]]]]; discriminate.
      * exists [ev_connect; ev_raise "OverflowError"].
        split; [ now repeat rewrite <- app_assoc | ].
        intros [H | [H | []]]; discriminate.
    + exists [ev_connect]. split; [ reflexivity | ].
      intros [H | []]; discriminate.
  - destruct k; cbn; eexists; (split; [ reflexivity | ]);
      intros [H | []]; discriminate.
Qed.

Lemma due_dates_stay_dates_witness :
  let sha256 := fun s : string => String "#" s in
  let w0 := mkworld initialize_db true [] in
  let l := [AddRecurringTask 1 radio_monthly "Calibrate pH meter" ""
              (Datetime.mkdate 2024 1 31);
            AdvanceClick 1 radio_monthly 0;
            AdvanceClick 1 radio_monthly 0] in
  map t_due_date (rows (tasks (store (run sha256 l w0)))) = ["2024-03-31"]
  /\ due_dates_ok (store (run sha256 l w0)).
Proof.
  cbv zeta. split; [ reflexivity | ].
  apply (due_dates_stay_dates (fun s : string => String "#" s)
           [AddRecurringTask 1 radio_monthly "Calibrate pH meter" ""
              (Datetime.mkdate 2024 1 31);
            AdvanceClick 1 radio_monthly 0;
            AdvanceClick 1 radio_monthly 0]
           (mkworld initialize_db true [])).
  - constructor.
  - repeat constructor.
Defined.

(** ** The inventory editor: a cleared cell *)

Lemma edit_row_ID (i : nat) (f : df_row -> df_row) (df : list df_row) :
  (forall r, ID (f r) = ID r) -> map ID (edit_row i f df) = map ID df.
Proof.
  intros Hf. revert i. induction df as [| r df IH]; intros [| i]; cbn;
    try reflexivity.
  - now rewrite Hf.
  - now rewrite IH.
Qed.

Lemma apply_cell_ID (today : Datetime.date) (c : cell) (r : df_row) :
  ID (apply_cell today c r) = ID r.
Proof.
  destruct c as [v | [q |] | v | v | v | v | [d |] | v]; cbn;
    try reflexivity.
  - now destruct (PrimFloat.leb 0 q).
  - now destruct (_ <=? _).
Qed.

(** The editor keeps the hidden column ID. *)
Lemma data_editor_ID (today : Datetime.date) (edits : list (nat * cell)) :
  forall df, map ID (data_editor today df edits) = map ID df.
Proof.
  unfold data_editor. induction edits as [| e edits IH]; intros df;
    [ reflexivity | ].
  cbn [fold_left]. rewrite IH. apply edit_row_ID.
  intros r. apply apply_cell_ID.
Qed.

Lemma opt_eqb_Some {A : Type} (eqb : A -> A -> bool) (a b : option A) :
  opt_eqb eqb a b = true -> b <> None -> a <> None.
Proof. destruct a, b; cbn; congruence. Qed.

(** Frames that are equal are complete together. *)
Lemma df_equals_complete (a b : list df_row) :
  df_equals a b = true -> Forall (fun r => df_complete r = true) b ->
  Forall (fun r => df_complete r = true) a.
Proof.
  revert b. induction a as [| x a IH]; intros [| y b] H Hb;
    try discriminate; constructor.
  - cbn in H. apply andb_prop in H. destruct H as [H _].
    inversion Hb as [| ? ? Hy _]; subst. unfold df_row_eqb in H.
    repeat (apply andb_prop in H; destruct H as [H ?]).
    unfold df_complete in *.
    destruct (Name y), (Quantity y), (Unit y); try discriminate.
    destruct (Name x), (Quantity x), (Unit x); cbn in *; congruence.
  - cbn in H. apply andb_prop in H. destruct H as [_ H].
    inversion Hb; subst. eapply IH; eassumption.
Qed.

Lemma df_of_complete (l : list reagent_tuple) :
  Forall (fun r => df_complete r = true) (map df_of l).
Proof.
  apply Forall_map, Forall_forall.
  intros [[[[[[[[id name] q] un] loc] sup] cat] ex] notes] _. reflexivity.
Qed.

Lemma existsb_map_same {A : Type} (p : A -> bool) (g : A -> A) (l : list A) :
  (forall r, p (g r) = p r) -> existsb p (map g l) = existsb p l.
Proof.
  intros Hg. induction l as [| r l IH]; cbn; [ reflexivity | ].
  now rewrite Hg, IH.
Qed.

(** The loop of the editor over rows that are all there: a row without a
    name, a quantity or a unit stops it with the message of the
    constraint. *)
Lemma update_rows_incomplete (u : Z) (edited_df : list df_row) :
  forall db,
    (forall row, In row edited_df ->
       existsb (fun r => (r_id r =? ID row) && (r_user_id r =? u))
         (rows (reagents db)) = true) ->
    (exists row, In row edited_df /\ df_complete row = false) ->
    exists e, In e not_null_messages /\ update_rows db u edited_df = inl e.
Proof.
  induction edited_df as [| row rest IH]; intros db Hex (bad & Hbad & Hinc);
    [ destruct Hbad | ].
  cbn [update_rows]. unfold UPDATE_reagent_of_user.
  rewrite (Hex row (or_introl eq_refl)).
  destruct (df_complete row) eqn:Hrow.
  - assert (Hrest : exists row, In row rest /\ df_complete row = false).
    { destruct Hbad as [-> | Hbad]; [ congruence | eauto ]. }
    unfold df_complete in Hrow.
    destruct (Name row), (Quantity row), (Unit row); try discriminate.
    apply IH; [ | exact Hrest ].
    intros row' Hin'. cbn. rewrite <- (Hex row' (or_intror Hin')).
    apply existsb_map_same. intros r.
    now destruct ((r_id r =? ID row) && (r_user_id r =? u)).
  - unfold df_complete in Hrow. unfold not_null_messages.
    destruct (Name row), (Quantity row), (Unit row); try discriminate;
      eexists; (split; [ | reflexivity ]); cbn; auto.
Qed.

(** X11. The inventory editor saves all rows or none. When the edited
    table has a row without a name, a quantity or a unit (a cell of a
    [NOT NULL] column was cleared), the loop of [UPDATE] statements stops
    at a constraint, nothing is committed (the rows that the loop had
    already written are not stored either), and the page shows the error
    of the constraint. *)
Theorem cleared_cell_saves_nothing (w : world) (u : Z)
    (today : Datetime.date) (edits : list (nat * cell)) (row : df_row) :
  storage_ok w = true ->
  In row (data_editor today (map df_of (SELECT_reagents (store w) u)) edits) ->
  df_complete row = false ->
  let w' := exec (inventory_edit u today edits) w in
  store w' = store w
  /\ exists e,
       In e not_null_messages
       /\ log w'
          = log w ++ [ev_connect; ev_connect;
                      ev_error ("Error updating inventory: " ++ e)].
Proof.
  intros Hok Hin Hinc. cbv zeta.
  remember (SELECT_reagents (store w) u) as l eqn:Hl.
  assert (Hne : l <> []).
  { intros ->. pose proof (data_editor_ID today edits (map df_of [])) as H.
    cbn [map] in H, Hin. apply map_eq_nil in H. rewrite H in Hin.
    destruct Hin. }
  assert (Heq : df_equals (data_editor today (map df_of l) edits)
                  (map df_of l) = false).
  { destruct (df_equals _ _) eqn:E; [ | reflexivity ].
    apply df_equals_complete in E; [ | apply df_of_complete ].
    rewrite Forall_forall in E. rewrite (E row Hin) in Hinc. discriminate. }
  assert (Hupd : exists e, In e not_null_messages
                   /\ update_rows (store w) u
                        (data_editor today (map df_of l) edits) = inl e).
  { apply update_rows_incomplete; [ | eauto ].
    intros row' Hin'. apply (in_map ID) in Hin'.
    rewrite data_editor_ID, map_map, Hl in Hin'.
    unfold SELECT_reagents in Hin'. rewrite map_map in Hin'. cbn in Hin'.
    apply in_map_iff in Hin'. destruct Hin' as (r & Hid & Hr).
    apply (queries_scoped (store w) u) in Hr. destruct Hr as [Hr Hown].
    apply existsb_exists. exists r. split; [ exact Hr | ].
    rewrite Hid, Hown, !Z.eqb_refl. reflexivity. }
  destruct Hupd as (e & He & Hupd).
  unfold inventory_edit, get_reagents. run_app. rewrite Hok.
  cbn [fst snd store storage_ok log]. rewrite <- Hl.
  destruct l as [| t l']; [ now destruct Hne | ].
  cbv zeta. rewrite Heq. cbn [fst snd store storage_ok log].
  rewrite Hupd. cbn [fst snd store storage_ok log].
  split; [ reflexivity | ]. exists e. split; [ exact He | ].
  now repeat rewrite <- app_assoc.
Qed.

Lemma cleared_cell_saves_nothing_witness :
  let first := mkreagent 1 1 "Ethanol" 5 "L" (Some "") (Some "") (Some "")
                 "2024-01-01" None (Some "") in
  let second := mkreagent 2 1 "Tris" 5 "g" (Some "") (Some "") (Some "")
                  "2024-01-01" None (Some "") in
  let w := mkworld (set_reagents initialize_db (mktable [first; second] 2))
             true [] in
  let edits := [(0%nat, cell_Quantity (Some 1%float));
                (1%nat, cell_Name None)] in
  store (exec (inventory_edit 1 (Datetime.mkdate 2024 1 1) edits) w) = store w.
Proof.
  cbv zeta.
  refine (proj1 (cleared_cell_saves_nothing
                   (mkworld
                      (set_reagents initialize_db
                         (mktable
                            [mkreagent 1 1 "Ethanol" 5 "L" (Some "") (Some "")
                               (Some "") "2024-01-01" None (Some "");
                             mkreagent 2 1 "Tris" 5 "g" (Some "") (Some "")
                               (Some "") "2024-01-01" None (Some "")] 2))
                      true [])
                   1 (Datetime.mkdate 2024 1 1)
                   [(0%nat, cell_Quantity (Some 1%float));
                    (1%nat, cell_Name None)]
                   (mkdf 2 None (Some 5%float) (Some "g") (Some "") (Some "")
                      (Some "") None (Some ""))
                   eq_refl _ eq_refl)).
  cbn. right. left. reflexivity.
Defined.

(** ** A task that was checked off *)

Lemma checked_off_appended (id u : Z) (t t' : table task_row) :
  appended t_id t_user_id u t t' -> checked_off id t -> checked_off id t'.
Proof.
  intros Ha (Hb & Hid & Hc). split; [ | split ].
  - eapply appended_keys_bounded; eassumption.
  - destruct Ha as [-> | (r & _ & _ & -> & _)]; lia.
  - destruct Ha as [-> | (r & -> & Hk & _ & _)]; [ exact Hc | ].
    apply Forall_app. split; [ exact Hc | ].
    constructor; [ lia | constructor ].
Qed.

Lemma checked_off_update_where (id : Z) (p : task_row -> bool)
    (f : task_row -> task_row) (t : table task_row) :
  (forall r, t_id (f r) = t_id r) ->
  (forall r, t_completed (f r) = t_completed r \/ t_completed (f r) = 1) ->
  checked_off id t -> checked_off id (update_where p f t).
Proof.
  intros Hk Hf (Hb & Hid & Hc). unfold checked_off, keys_bounded in *. cbn.
  refine (conj _ (conj Hid _)); apply Forall_map.
  - revert Hb. apply Forall_impl. intros r Hr.
    destruct (p r); [ rewrite Hk | ]; exact Hr.
  - revert Hc. apply Forall_impl. intros r Hr.
    destruct (p r); [ | exact Hr ]. rewrite Hk. intros E.
    destruct (Hf r) as [-> | ->]; auto.
Qed.

(** No action takes the mark back or gives the key to another task. *)
Lemma step_checked_off (sha256 : string -> string) (a : action) (id : Z)
    (w : world) :
  checked_off id (tasks (store w)) ->
  checked_off id (tasks (store (exec (step sha256 a) w))).
Proof.
  intros H. destruct (actor a) as [A |] eqn:Ha.
  - destruct (is_create a) eqn:Hc.
    + destruct (create_step sha256 a A w Hc Ha) as (At & _).
      eapply checked_off_appended; eassumption.
    + destruct a; try discriminate Hc; try discriminate Ha; cbn [step].
      * destruct (complete_click_effect w user_id k) as [-> | (t & _ & ->)];
          [ exact H | ].
        cbn. apply checked_off_update_where; cbn; auto.
      * destruct (advance_click_effect w user_id frequency k)
          as [-> | (t & nd & _ & ->)]; [ exact H | ].
        cbn. apply checked_off_update_where; cbn; auto.
      * destruct (inventory_edit_effect w user_id today edits) as [-> | E];
          [ exact H | ].
        apply update_rows_frame in E. rewrite E. exact H.
      * destruct (update_submit_effect w user_id reagent_id f)
          as [-> | (r0 & _ & _ & ->)]; exact H.
      * destruct (delete_submit_effect w user_id reagent_id)
          as [-> | (r0 & _ & _ & ->)]; exact H.
  - destruct a; try discriminate Ha. cbn [step].
    destruct (login_page_register_effect sha256 f now w) as [t ->]. exact H.
Qed.

(** The button of the Daily Tasks tab on a store that opens: the
    statement runs for the task listed at that place. *)
Lemma complete_click_listed (w : world) (u : Z) (k : nat) (t : task_row) :
  storage_ok w = true ->
  nth_error (get_tasks_rows (store w) u None false) k = Some t ->
  store (exec (complete_click u k) w)
  = UPDATE_task_completed (store w) (t_id t).
Proof.
  intros Hok Hnth. unfold complete_click.
  unfold exec, bind. rewrite (get_tasks_connected w u None false Hok).
  rewrite nth_SELECT_tasks, Hnth. cbn [option_map].
  run_app. reflexivity.
Qed.

(** X12. A task that was checked off in the Daily Tasks tab is never
    shown again: whatever the users do afterwards, in any order, no list
    of pending tasks of any user has a row with its id, be it the lists
    of the planner ([get_tasks], which no page calls with
    [completed=True]), the tasks of a date in the Calendar View or the
    upcoming tasks of the dashboard. The row itself stays in the table
    (no statement deletes a task), and no page resets the mark. *)
Theorem checked_off_task_never_shown (sha256 : string -> string) (w : world)
    (u : Z) (k : nat) (t : task_row) (later : list action) :
  storage_ok w = true ->
  keys_bounded t_id (tasks (store w)) ->
  nth_error (get_tasks_rows (store w) u None false) k = Some t ->
  let db := store (run sha256 later (exec (complete_click u k) w)) in
  (forall A f, ~ In (t_id t) (map t_id (get_tasks_rows db A f false)))
  /\ (forall A date_str,
         ~ In (t_id t) (map t_id (tasks_on_rows db A date_str)))
  /\ (forall A today,
         ~ In (t_id t) (map t_id (upcoming_tasks_rows db A today)))
  /\ In (t_id t) (map t_id (rows (tasks db))).
Proof.
  intros Hok Hb Hnth. cbv zeta.
  pose proof (nth_error_In _ _ Hnth) as Hin.
  apply get_tasks_rows_sound in Hin. destruct Hin as [Hin _].
  assert (H1 : checked_off (t_id t)
                 (tasks (store (exec (complete_click u k) w)))).
  { rewrite (complete_click_listed w u k t Hok Hnth). cbn.
    unfold checked_off, keys_bounded in *. cbn.
    refine (conj _ (conj _ _)).
    - apply Forall_map. revert Hb. apply Forall_impl. intros r Hr.
      now destruct (t_id r =? t_id t).
    - rewrite Forall_forall in Hb. exact (Hb t Hin).
    - apply Forall_map, Forall_forall. intros r _.
      destruct (Z.eqb_spec (t_id r) (t_id t)); cbn; congruence. }
  assert (H2 : In (t_id t)
                 (map t_id
                    (rows (tasks (store (exec (complete_click u k) w)))))).
  { rewrite (complete_click_listed w u k t Hok Hnth). cbn.
    rewrite map_map. apply in_map_iff. exists t. split; [ | exact Hin ].
    now destruct (t_id t =? t_id t). }
  set (w1 := exec (complete_click u k) w) in *. clearbody w1.
  assert (H : checked_off (t_id t) (tasks (store (run sha256 later w1)))
              /\ In (t_id t)
                   (map t_id (rows (tasks (store (run sha256 later w1)))))).
  { revert w1 H1 H2. induction later as [| a l IH]; intros w1 H1 H2;
      [ now split | ].
    rewrite run_cons. apply IH; [ now apply step_checked_off | ].
    destruct (step_histories sha256 a w1) as (_ & (kept & extra & E & F) & _).
    rewrite E, map_app. apply in_or_app. left.
    apply in_map_iff in H2. destruct H2 as (r & Hr & Hrin).
    clear E. induction F as [| x x' ? ? Hx _ IHF]; [ destruct Hrin | ].
    destruct Hrin as [<- | Hrin].
    - left. destruct Hx as (E & _). congruence.
    - right. now apply IHF. }
  destruct H as [(_ & _ & Hc) Hstays]. rewrite Forall_forall in Hc.
  assert (Hnot : forall r, In r (rows (tasks (store (run sha256 later w1)))) ->
                           t_completed r = 0 -> t_id r <> t_id t).
  { intros r Hr H0 E. specialize (Hc r Hr E). congruence. }
  refine (conj _ (conj _ (conj _ Hstays))).
  - intros A f Hl. apply in_map_iff in Hl. destruct Hl as (r & E & Hr).
    apply get_tasks_rows_sound in Hr. destruct Hr as [Hr Hw].
    unfold get_tasks_where in Hw. apply andb_prop in Hw.
    destruct Hw as [_ Hw]. cbn in Hw. apply Z.eqb_eq in Hw.
    exact (Hnot r Hr Hw E).
  - intros A date_str Hl. apply in_map_iff in Hl.
    destruct Hl as (r & E & Hr).
    apply in_select_where in Hr. destruct Hr as [Hr Hw].
    apply andb_prop in Hw. destruct Hw as [_ Hw]. apply Z.eqb_eq in Hw.
    exact (Hnot r Hr Hw E).
  - intros A today Hl. apply in_map_iff in Hl. destruct Hl as (r & E & Hr).
    apply in_limit, in_order_by, in_select_where in Hr.
    destruct Hr as [Hr Hw].
    apply andb_prop in Hw. destruct Hw as [Hw _].
    apply andb_prop in Hw. destruct Hw as [_ Hw]. apply Z.eqb_eq in Hw.
    exact (Hnot r Hr Hw E).
Qed.

Lemma checked_off_task_never_shown_witness :
  let sha256 := fun s : string => String "#" s in
  let task := mktask 1 1 "Order tips" "" "2024-01-01" "once" 0 in
  let w := mkworld (set_tasks initialize_db (mktable [task] 1)) true [] in
  let later := [AddTask 1 "Autoclave" "" (Datetime.mkdate 2024 1 2) once;
                AdvanceClick 1 radio_weekly 0] in
  let db := store (run sha256 later (exec (complete_click 1 0) w)) in
  map t_id (get_tasks_rows db 1 None false) = [2]
  /\ ~ In 1 (map t_id (get_tasks_rows db 1 None false)).
Proof.
  cbv zeta. split; [ reflexivity | ].
  refine (proj1 (checked_off_task_never_shown (fun s : string => String "#" s)
                   (mkworld
                      (set_tasks initialize_db
                         (mktable
                            [mktask 1 1 "Order tips" "" "2024-01-01" "once" 0]
                            1))
                      true [])
                   1 0%nat (mktask 1 1 "Order tips" "" "2024-01-01" "once" 0)
                   [AddTask 1 "Autoclave" "" (Datetime.mkdate 2024 1 2) once;
                    AdvanceClick 1 radio_weekly 0]
                   eq_refl _ eq_refl) 1 None).
  unfold keys_bounded. constructor; [ apply Z.le_refl | constructor ].
Defined.

(** ** Sessions *)

(** X13. The Login form, for a session that is not logged in, on a store
    that opens. It logs in exactly when a row of [users] has the user name
    and the digest of the password: the session then holds the id of such
    a row and the typed name, the page is "dashboard", and the page
    reruns. Otherwise the session stays as it is and the form shows
    "Invalid credentials", the same message for a user name without an
    account and for a wrong password. The store is never changed. *)
Theorem login_outcome (sha256 : string -> string)
    (s : Session.session_state) (n p : string) (w : world) :
  Session.logged_in s = false -> storage_ok w = true ->
  let s' := eval (Session.login_page_login sha256 s n p) w in
  let w' := exec (Session.login_page_login sha256 s n p) w in
  store w' = store w
  /\ ((exists r,
          In r (rows (users (store w)))
          /\ u_username r = n /\ u_password r = sha256 p
          /\ s' = Session.mksession true (Some n) (Some (u_id r)) "dashboard"
          /\ log w' = log w ++ [ev_connect; ev_success "Login successful!";
                                ev_rerun])
      \/ ((forall r, In r (rows (users (store w))) ->
                     u_username r = n -> u_password r <> sha256 p)
          /\ s' = s
          /\ log w' = log w ++ [ev_connect; ev_error "Invalid credentials"])).
Proof.
  intros Hs Hok. cbv zeta. unfold Session.login_page_login. rewrite Hs.
  unfold verify_user. run_app. rewrite Hok.
  cbn [fst snd store storage_ok log].
  unfold SELECT_user_by_credentials, user_by_credentials_rows, select_where,
    fetchone.
  destruct (filter _ (rows (users (store w)))) as [| x l] eqn:Hf;
    cbn [map hd_error fst snd store storage_ok log].
  - split; [ reflexivity | ]. right.
    refine (conj _ (conj eq_refl _)).
    + intros r Hr Hn Hp.
      assert (Hin : In r []).
      { rewrite <- Hf. apply filter_In. split; [ exact Hr | ].
        rewrite Hn, Hp, !String.eqb_refl. reflexivity. }
      destruct Hin.
    + now repeat rewrite <- app_assoc.
  - split; [ reflexivity | ]. left. exists x.
    assert (Hin : In x (x :: l)) by now left.
    rewrite <- Hf in Hin. apply filter_In in Hin. destruct Hin as [Hx Hp].
    apply andb_prop in Hp. destruct Hp as [Hn Hp].
    apply String.eqb_eq in Hn, Hp.
    refine (conj Hx (conj Hn (conj Hp (conj eq_refl _)))).
    now repeat rewrite <- app_assoc.
Qed.

Lemma login_outcome_witness :
  let sha256 := fun s : string => String "#" s in
  let alice := mkuser 1 "alice" "#s3cret" "" "" "2024-01-01 09:00:00" in
  let w := mkworld (set_users initialize_db (mktable [alice] 1)) true [] in
  store (exec (Session.login_page_login sha256 Session.initial_session
                 "alice" "s3cret") w)
  = store w
  /\ eval (Session.login_page_login sha256 Session.initial_session
             "alice" "s3cret") w
     = Session.mksession true (Some "alice") (Some 1) "dashboard"
  /\ eval (Session.login_page_login sha256 Session.initial_session
             "alice" "secret") w
     = Session.initial_session.
Proof.
  cbv zeta. split; [ | split; reflexivity ].
  exact (proj1 (login_outcome (fun s : string => String "#" s)
                  Session.initial_session "alice" "s3cret"
                  (mkworld
                     (set_users initialize_db
                        (mktable
                           [mkuser 1 "alice" "#s3cret" "" ""
                              "2024-01-01 09:00:00"] 1))
                     true [])
                  eq_refl eq_refl)).
Defined.

(** The page that main draws for a session that is logged in and did not
    press Logout is the page of the sidebar selection. *)
Lemma routing_of_selection (s : Session.session_state) (selected_page : string) :
  Session.logged_in s = true ->
  snd (Session.main s selected_page false)
  = Session.routing
      (Session.mksession true None None (Session.page_mapping selected_page)).
Proof.
  intros Hs. unfold Session.main, Session.sidebar, Session.routing.
  rewrite Hs. cbn. reflexivity.
Qed.

(** X14. The routing of main. A session that is not logged in gets
    login_page, whatever [current_page] holds. For a session that is
    logged in, the page is decided by the sidebar menu alone: each of the
    nine options leads to its page, any other value to the dashboard, some
    page is always drawn, and what [current_page] held before the run has
    no effect; in particular the value that a Quick Action button of the
    dashboard stores there is overwritten by the next run. Logout leads to
    login_page and clears the session. *)
Theorem main_routing (s : Session.session_state) (selected_page : string) :
  (Session.logged_in s = false ->
   forall logout_pressed,
     Session.main s selected_page logout_pressed = (s, Session.login_page))
  /\ (Session.logged_in s = true ->
      Session.main s selected_page true
      = (Session.mksession false None None "login", Session.login_page)
      /\ (forall target,
             Session.main (Session.quick_action s target) selected_page false
             = Session.main s selected_page false)
      /\ snd (Session.main s selected_page false) <> Session.no_page
      /\ snd (Session.main s selected_page false) <> Session.login_page
      /\ map (fun option => snd (Session.main s option false))
           Session.menu_options
         = [Session.dashboard_page; Session.dilution_calculator;
            Session.solution_helper; Session.buffer_helper;
            Session.lab_planner; Session.protocol_generator;
            Session.reagent_tracker; Session.data_visualizer;
            Session.help_section]
      /\ (~ In selected_page Session.menu_options ->
          snd (Session.main s selected_page false) = Session.dashboard_page)).
Proof.
  split.
  - intros Hs lo. unfold Session.main, Session.sidebar, Session.routing.
    rewrite Hs. cbv iota. now rewrite Hs.
  - intros Hs. refine (conj _ (conj _ (conj _ (conj _ (conj _ _))))).
    + unfold Session.main, Session.sidebar. now rewrite Hs.
    + intros target. unfold Session.main, Session.sidebar,
        Session.quick_action. cbn. now rewrite Hs.
    + rewrite (routing_of_selection s selected_page Hs).
      unfold Session.page_mapping.
      repeat (destruct (String.eqb selected_page _);
              [ cbn; discriminate | ]).
      cbn. discriminate.
    + rewrite (routing_of_selection s selected_page Hs).
      unfold Session.page_mapping.
      repeat (destruct (String.eqb selected_page _);
              [ cbn; discriminate | ]).
      cbn. discriminate.
    + unfold Session.menu_options. cbn [map].
      rewrite !(routing_of_selection s _ Hs). reflexivity.
    + intros Hn. rewrite (routing_of_selection s selected_page Hs).
      unfold Session.page_mapping, Session.menu_options in *.
      repeat match goal with
             | |- context [String.eqb selected_page ?o] =>
                 destruct (String.eqb_spec selected_page o) as [E | _];
                 [ exfalso; apply Hn; rewrite E; cbn; tauto | ]
             end.
      reflexivity.
Qed.

(** ** The accounts behind the sessions and the rows *)

Lemma with_user_actor (u : Z) (p : Session.page_action) :
  actor (Session.with_user u p) = Some u.
Proof. destruct p; reflexivity. Qed.

Lemma owners_appended {R : Type} (key owner : R -> Z) (P : Z -> Prop) (u : Z)
    (t t' : table R) :
  appended key owner u t t' -> P u ->
  Forall (fun r => P (owner r)) (rows t) ->
  Forall (fun r => P (owner r)) (rows t').
Proof.
  intros [-> | (r & -> & _ & _ & Ho)] Hu H; [ exact H | ].
  apply Forall_app. split; [ exact H | ].
  constructor; [ now rewrite Ho | constructor ].
Qed.

Lemma owners_update_where {R : Type} (owner : R -> Z) (P : Z -> Prop)
    (p : R -> bool) (f : R -> R) (t : table R) :
  (forall r, owner (f r) = owner r) ->
  Forall (fun r => P (owner r)) (rows t) ->
  Forall (fun r => P (owner r)) (rows (update_where p f t)).
Proof.
  intros Hf H. cbn. apply Forall_map. revert H. apply Forall_impl.
  intros r Hr. destruct (p r); [ now rewrite Hf | exact Hr ].
Qed.

Lemma owners_delete_where {R : Type} (owner : R -> Z) (P : Z -> Prop)
    (p : R -> bool) (t : table R) :
  Forall (fun r => P (owner r)) (rows t) ->
  Forall (fun r => P (owner r)) (rows (delete_where p t)).
Proof.
  intros H. cbn. rewrite Forall_forall in *. intros r Hr.
  apply filter_In in Hr. now apply H.
Qed.

Lemma update_rows_owners (P : Z -> Prop) (u : Z) (df : list df_row) :
  forall db db',
    update_rows db u df = inr db' ->
    Forall (fun r => P (r_user_id r)) (rows (reagents db)) ->
    Forall (fun r => P (r_user_id r)) (rows (reagents db')).
Proof.
  induction df as [| row df IH]; intros db db'; cbn.
  - now intros [= <-].
  - unfold UPDATE_reagent_of_user.
    destruct (existsb _ _); [ | apply IH ].
    destruct (Name row), (Quantity row), (Unit row); try discriminate.
    intros H Hdb. apply IH in H; [ exact H | ].
    now apply (owners_update_where r_user_id).
Qed.

(** An action of the session of [u] leaves every row with an owner that
    was there before, or gives it the owner [u]. *)
Lemma step_owners (sha256 : string -> string) (a : action) (u : Z)
    (P : Z -> Prop) (w : world) :
  actor a = Some u -> P u -> owners_in P (store w) ->
  owners_in P (store (exec (step sha256 a) w)).
Proof.
  intros Ha Hu (Ht & Hr & He & Hb). unfold owners_in.
  destruct (is_create a) eqn:Hc.
  - destruct (create_step sha256 a u w Hc Ha) as (At & Ar & Ae & Ab).
    refine (conj _ (conj _ (conj _ _))); eapply owners_appended; eassumption.
  - destruct a; try discriminate Hc; try discriminate Ha; cbn [step].
    + destruct (complete_click_effect w user_id k) as [-> | (t & _ & ->)];
        [ now repeat split | ].
      refine (conj _ (conj Hr (conj He Hb))).
      now apply (owners_update_where t_user_id).
    + destruct (advance_click_effect w user_id frequency k)
        as [-> | (t & nd & _ & ->)]; [ now repeat split | ].
      refine (conj _ (conj Hr (conj He Hb))).
      now apply (owners_update_where t_user_id).
    + destruct (inventory_edit_effect w user_id today edits) as [-> | E];
        [ now repeat split | ].
      pose proof (update_rows_owners P _ _ _ _ E Hr) as Hr'.
      apply update_rows_frame in E. rewrite E.
      exact (conj Ht (conj Hr' (conj He Hb))).
    + destruct (update_submit_effect w user_id reagent_id f)
        as [-> | (r0 & _ & _ & ->)]; [ now repeat split | ].
      refine (conj Ht (conj _ (conj He Hb))).
      now apply (owners_update_where r_user_id).
    + destruct (delete_submit_effect w user_id reagent_id)
        as [-> | (r0 & _ & _ & ->)]; [ now repeat split | ].
      refine (conj Ht (conj _ (conj He Hb))).
      now apply (owners_delete_where r_user_id).
Qed.

(** Registration keeps the ids of [users] a primary key. *)
Lemma login_page_register_key_wf (sha256 : string -> string)
    (f : register_form) (now : string) (w : world) :
  key_wf u_id (users (store w)) ->
  key_wf u_id (users (store (exec (login_page_register sha256 f now) w))).
Proof.
  intros H. unfold login_page_register.
  destruct (negb _); [ exact H | ].
  destruct (_ <? _)%nat; [ exact H | ].
  unfold create_user, INSERT_user, insert. step_through; try exact H.
  all: cbn; apply (key_wf_appended u_id (fun _ => 0) 0 (users (store w)));
    [ | exact H ].
  all: right; eexists; cbn; eauto.
Qed.

Lemma session_ok_mono (db db' : database) (s : Session.session_state) :
  (forall r, In r (rows (users db)) -> In r (rows (users db'))) ->
  session_ok db s -> session_ok db' s.
Proof.
  intros Hsub H Hs. destruct (H Hs) as (r & Hr & E). eauto.
Qed.

Lemma owners_in_impl (P Q : Z -> Prop) (db : database) :
  (forall u, P u -> Q u) -> owners_in P db -> owners_in Q db.
Proof.
  intros HPQ (Ht & Hr & He & Hb).
  refine (conj _ (conj _ (conj _ _)));
    [ revert Ht | revert Hr | revert He | revert Hb ];
    apply Forall_impl; intros r; apply HPQ.
Qed.

(** The Login form: the store is left alone, and a session that comes out
    logged in came in so or holds an account. *)
Lemma login_page_login_session (sha256 : string -> string)
    (s : Session.session_state) (n p : string) (w : world) :
  store (exec (Session.login_page_login sha256 s n p) w) = store w
  /\ (session_ok (store w) s ->
      session_ok (store w) (eval (Session.login_page_login sha256 s n p) w)).
Proof.
  unfold Session.login_page_login.
  destruct (Session.logged_in s) eqn:Hs; [ now split | ].
  unfold verify_user. run_app.
  destruct (storage_ok w); cbn [fst snd store storage_ok log];
    [ | now split ].
  unfold SELECT_user_by_credentials, user_by_credentials_rows, select_where,
    fetchone.
  destruct (filter _ (rows (users (store w)))) as [| x l] eqn:Hf;
    cbn [map hd_error fst snd store storage_ok log]; [ now split | ].
  split; [ reflexivity | ]. intros _ _. exists x.
  assert (Hin : In x (x :: l)) by now left.
  rewrite <- Hf in Hin. apply filter_In in Hin. destruct Hin as [Hx Hp].
  apply andb_prop in Hp. destruct Hp as [Hn _]. apply String.eqb_eq in Hn.
  cbn. rewrite Hn. auto.
Qed.

Lemma then_ret {A B : Type} (m : App A) (b : B) (w : world) :
  exec (m ;; ret b) w = exec m w /\ eval (m ;; ret b) w = b.
Proof. unfold exec, eval, bind, ret. now destruct (m w). Qed.

(** One run of the script for one session keeps the invariants of the
    store and leaves every account in place; the session that comes out
    holds an account if it is logged in. *)
Lemma session_step_ok (sha256 : string -> string) (a : Session.session_action)
    (s : Session.session_state) (w : world) :
  let db := store w in
  let s' := eval (Session.session_step sha256 a s) w in
  let db' := store (exec (Session.session_step sha256 a s) w) in
  references_ok db -> users_unique db -> key_wf u_id (users db) ->
  store_wf db -> session_ok db s ->
  references_ok db' /\ users_unique db' /\ key_wf u_id (users db')
  /\ store_wf db' /\ session_ok db' s'
  /\ (forall r, In r (rows (users db)) -> In r (rows (users db'))).
Proof.
  cbv zeta. intros Href Hu Hk Hwf Hs.
  destruct a as [n p | f now | | p]; cbn [Session.session_step].
  - destruct (login_page_login_session sha256 s n p w) as [E Hs'].
    rewrite E. auto 10.
  - destruct (Session.logged_in s) eqn:Hl; [ cbn; auto 10 | ].
    destruct (then_ret (login_page_register sha256 f now) s w) as [-> ->].
    pose proof (login_page_register_appends sha256 f now w) as [extra E].
    assert (Hsub : forall r, In r (rows (users (store w))) ->
                     In r (rows (users (store (exec (login_page_register
                                                       sha256 f now) w))))).
    { intros r Hr. rewrite E. apply in_or_app. now left. }
    refine (conj _ (conj _ (conj _ (conj _ (conj _ Hsub))))).
    + unfold references_ok.
      apply owners_in_impl with (P := is_user (store w)).
      * unfold is_user. intros u Hin. apply in_map_iff in Hin.
        destruct Hin as (r & <- & Hr). apply in_map. now apply Hsub.
      * destruct (login_page_register_effect sha256 f now w) as [t ->].
        exact Href.
    + now apply login_page_register_keeps_unique.
    + now apply login_page_register_key_wf.
    + destruct (login_page_register_effect sha256 f now w) as [t ->].
      exact Hwf.
    + eapply session_ok_mono; eassumption.
  - destruct (Session.logged_in s) eqn:Hl; [ | cbn; auto 10 ].
    destruct (then_ret (emit ev_rerun) (Session.logout s) w) as [-> ->].
    cbn. refine (conj Href (conj Hu (conj Hk (conj Hwf (conj _ _))))); auto.
    intros H. discriminate H.
  - destruct (Session.logged_in s) eqn:Hl; [ | cbn; auto 10 ].
    destruct (Hs Hl) as (r & Hr & Hid & _). rewrite Hid.
    set (a := Session.with_user (u_id r) p).
    destruct (then_ret (step sha256 a) s w) as [-> ->].
    pose proof (with_user_actor (u_id r) p) as Ha. fold a in Ha.
    pose proof (step_users_frame sha256 a (u_id r) w Ha) as Eu.
    assert (Hsub : forall x, In x (rows (users (store w))) ->
                     In x (rows (users (store (exec (step sha256 a) w)))))
      by now rewrite Eu.
    refine (conj _ (conj _ (conj _ (conj _ (conj _ Hsub))))).
    + unfold references_ok.
      apply owners_in_impl with (P := is_user (store w)).
      * unfold is_user. now rewrite Eu.
      * apply step_owners with (u := u_id r); [ exact Ha | | exact Href ].
        unfold is_user. now apply in_map.
    + unfold users_unique. now rewrite Eu.
    + now rewrite Eu.
    + now apply (own_rows_only sha256 a (u_id r) w Ha Hwf).
    + eapply session_ok_mono; eassumption.
Qed.

(** The invariant holds after one more run of the script. *)
Lemma system_step_ok (sha256 : string -> string)
    (e : nat * Session.session_action) (y : Session.system) :
  system_ok y -> system_ok (Session.system_step sha256 e y).
Proof.
  intros (Href & Hsess & Hu & Hk & Hwf). destruct e as [sid a].
  pose proof (session_step_ok sha256 a (Session.sys_sessions y sid)
                (Session.sys_world y) Href Hu Hk Hwf (Hsess sid)) as H.
  cbv zeta in H. unfold Session.system_step, eval, exec in *.
  destruct (Session.session_step sha256 a (Session.sys_sessions y sid)
              (Session.sys_world y)) as [s' w'].
  cbn [fst snd] in H. destruct H as (Href' & Hu' & Hk' & Hwf' & Hs' & Hsub).
  unfold system_ok. cbn [Session.sys_world Session.sys_sessions].
  refine (conj Href' (conj _ (conj Hu' (conj Hk' Hwf')))).
  intros i. destruct (Nat.eqb i sid); [ exact Hs' | ].
  eapply session_ok_mono; [ exact Hsub | apply Hsess ].
Qed.

(** X15. From the first run on, whatever the browser sessions do (log
    in, register, log out, use the pages), in any interleaving: a session
    that is logged in holds the id and the user name of one and the same
    row of [users]; the owner of every task, reagent, protocol and buffer
    is the id of a row of [users], although the connection never turns
    the checks of the foreign keys on; user names are unique; and the ids
    of the five tables are primary keys. *)
Theorem sessions_and_rows_have_accounts (sha256 : string -> string)
    (l : list (nat * Session.session_action)) (storage : bool) :
  system_ok (Session.system_run sha256 l (Session.initial_system storage)).
Proof.
  unfold Session.system_run.
  assert (H0 : system_ok (Session.initial_system storage)).
  { unfold system_ok, Session.initial_system, references_ok, owners_in,
      users_unique, store_wf, key_wf, keys_bounded, session_ok.
    cbn. repeat split; try constructor. all: discriminate. }
  revert H0. generalize (Session.initial_system storage).
  induction l as [| e l IH]; intros y Hy; [ exact Hy | ].
  cbn [fold_left]. apply IH. now apply system_step_ok.
Qed.

(** ** The lists of the planner and of the inventory *)

Lemma insert_sorted_Permutation {R : Type} (le : R -> R -> bool) (x : R)
    (l : list R) :
  Permutation (insert_sorted le x l) (x :: l).
Proof.
  induction l as [| y l IH]; cbn; [ reflexivity | ].
  destruct (le x y); [ reflexivity | ].
  rewrite IH. apply perm_swap.
Qed.

(** [ORDER BY] neither drops nor repeats a row. *)
Lemma order_by_Permutation {R : Type} (le : R -> R -> bool) (l : list R) :
  Permutation (order_by le l) l.
Proof.
  unfold order_by. induction l as [| x l IH]; cbn; [ reflexivity | ].
  rewrite insert_sorted_Permutation. now constructor.
Qed.

(** X16. What the helpers of the planner and of the inventory list, for
    any store. [get_tasks] returns the tasks of the user that are not
    completed (and, in the Weekly/Monthly tab, have the frequency of the
    radio), each one once, in ascending order of the due date as text;
    [get_reagents] returns the reagents of the user, each one once, in
    ascending order of the name. The list of the Daily Tasks tab has no
    frequency filter: every task of a list of the Weekly/Monthly tab is in
    it as well. *)
Theorem planner_and_inventory_lists (db : database) (A : Z) :
  (forall f c,
      Permutation (get_tasks_rows db A f c)
        (filter (get_tasks_where A f c) (rows (tasks db)))
      /\ Sorted (fun a b => String.leb (t_due_date a) (t_due_date b) = true)
           (get_tasks_rows db A f c))
  /\ (forall r, In r (get_tasks_rows db A None false)
                <-> In r (rows (tasks db)) /\ t_user_id r = A
                    /\ t_completed r = 0)
  /\ (forall f r, In r (get_tasks_rows db A (Some (recurring_text f)) false)
                  <-> In r (rows (tasks db)) /\ t_user_id r = A
                      /\ t_frequency r = recurring_text f
                      /\ t_completed r = 0)
  /\ (forall f r, In r (get_tasks_rows db A (Some (recurring_text f)) false)
                  -> In r (get_tasks_rows db A None false))
  /\ Permutation (get_reagents_rows db A)
       (filter (fun r => r_user_id r =? A) (rows (reagents db)))
  /\ Sorted (fun a b => String.leb (r_name a) (r_name b) = true)
       (get_reagents_rows db A)
  /\ (forall r, In r (get_reagents_rows db A)
                <-> In r (rows (reagents db)) /\ r_user_id r = A).
Proof.
  assert (Hnone : forall r, In r (get_tasks_rows db A None false)
                            <-> In r (rows (tasks db)) /\ t_user_id r = A
                                /\ t_completed r = 0).
  { intros r. unfold get_tasks_rows.
    rewrite in_order_by, in_select_where. unfold get_tasks_where. cbn.
    rewrite andb_true_r, andb_true_iff, !Z.eqb_eq. tauto. }
  assert (Hsome : forall f r,
             In r (get_tasks_rows db A (Some (recurring_text f)) false)
             <-> In r (rows (tasks db)) /\ t_user_id r = A
                 /\ t_frequency r = recurring_text f /\ t_completed r = 0).
  { intros f r. unfold get_tasks_rows.
    rewrite in_order_by, in_select_where. unfold get_tasks_where.
    replace (truthy (Some (recurring_text f))) with true by now destruct f.
    cbn [negb]. rewrite !andb_true_iff, !Z.eqb_eq, String.eqb_eq. tauto. }
  refine (conj _ (conj Hnone (conj Hsome (conj _ (conj _ (conj _ _)))))).
  - intros f c. split.
    + apply order_by_Permutation.
    + apply order_by_Sorted. intros a b. apply String.leb_total.
  - intros f r Hr. apply Hnone. apply Hsome in Hr. tauto.
  - apply order_by_Permutation.
  - apply order_by_Sorted. intros a b. apply String.leb_total.
  - intros r. unfold get_reagents_rows.
    rewrite in_order_by, in_select_where, Z.eqb_eq. tauto.
Qed.

(** ** A store that does not open *)

(** X17. What the pages do when [sqlite3.connect] fails, besides the
    message "Database connection error" of create_connection. No action
    changes the store. The Register form, with passwords that match and
    are long enough, reports "Username already exists", whether or not
    the user name is taken; the Login form reports "Invalid credentials",
    whether or not the credentials are right, and the session stays
    logged out; the dashboard has no lists to draw and raises an
    [UnboundLocalError] that nothing catches. *)
Theorem store_that_does_not_open (sha256 : string -> string) (w : world) :
  storage_ok w = false ->
  let refused :=
    ev_error "Database connection error: unable to open database file" in
  (forall a, store (exec (step sha256 a) w) = store w)
  /\ (forall f now,
         new_password f = confirm_password f ->
         (6 <= String.length (new_password f))%nat ->
         log (exec (login_page_register sha256 f now) w)
         = log w ++ [refused; ev_error "Username already exists"])
  /\ (forall s n p,
         Session.logged_in s = false ->
         eval (Session.login_page_login sha256 s n p) w = s
         /\ log (exec (Session.login_page_login sha256 s n p) w)
            = log w ++ [refused; ev_error "Invalid credentials"])
  /\ (forall u today,
         eval (dashboard_page u today) w = None
         /\ log (exec (dashboard_page u today) w)
            = log w ++ [refused; ev_raise "UnboundLocalError"]).
Proof.
  intros Hok. cbv zeta. refine (conj _ (conj _ (conj _ _))).
  - intros a. revert Hok.
    destruct a; cbn [step];
      unfold login_page_register, create_user, add_task, add_recurring_task,
        quick_add_task, insert_task, complete_click, advance_click,
        save_protocol, save_buffer, inventory_edit, add_reagent,
        update_submit, delete_submit, with_selected, update_reagent,
        delete_reagent, get_tasks, get_reagents;
      step_through; intros H; try discriminate H; reflexivity.
  - intros f now Hpw Hlen. unfold login_page_register, create_user.
    rewrite Hpw, String.eqb_refl. cbn [negb].
    destruct (Nat.ltb_spec (String.length (confirm_password f)) 6) as [H | _];
      [ rewrite Hpw in Hlen; lia | ].
    run_app. rewrite Hok. cbn [fst snd store storage_ok log].
    now rewrite <- app_assoc.
  - intros s n p Hs. unfold Session.login_page_login, verify_user.
    rewrite Hs. run_app. rewrite Hok. cbn [fst snd store storage_ok log].
    split; [ reflexivity | now rewrite <- app_assoc ].
  - intros u today. unfold dashboard_page. run_app. rewrite Hok.
    cbn [fst snd store storage_ok log].
    split; [ reflexivity | now rewrite <- app_assoc ].
Qed.

Lemma store_that_does_not_open_witness :
  let sha256 := fun s : string => String "#" s in
  let w := mkworld initialize_db false [] in
  let f := mkregister "alice" "s3cret" "s3cret" "" "" in
  log (exec (login_page_register sha256 f "2024-01-01 09:00:00") w)
  = [ev_error "Database connection error: unable to open database file";
     ev_error "Username already exists"].
Proof.
  exact (proj1 (proj2
    (store_that_does_not_open (fun s : string => String "#" s)
       (mkworld initialize_db false []) eq_refl))
    (mkregister "alice" "s3cret" "s3cret" "" "") "2024-01-01 09:00:00"
    eq_refl (le_n 6)).
Defined.

(** ** The label of the selected reagent *)

Section LabelFacts.
Import Labels.

Lemma append_nil_r (s : string) : (s ++ "")%string = s.
Proof. induction s as [| c s IH]; cbn; [ reflexivity | now rewrite IH ]. Qed.

Lemma append_assoc (a b c : string) :
  ((a ++ b) ++ c)%string = (a ++ b ++ c)%string.
Proof. induction a as [| x a IH]; cbn; [ reflexivity | now rewrite IH ]. Qed.

Lemma all_chars_app (p : ascii -> bool) (a b : string) :
  all_chars p (a ++ b) = all_chars p a && all_chars p b.
Proof.
  induction a as [| c a IH]; cbn; [ reflexivity | ].
  now rewrite IH, andb_assoc.
Qed.

Lemma all_chars_impl (p q : ascii -> bool) (s : string) :
  (forall c, p c = true -> q c = true) ->
  all_chars p s = true -> all_chars q s = true.
Proof.
  intros Hpq. induction s as [| c s IH]; cbn; [ reflexivity | ].
  intros H. apply andb_prop in H. destruct H as [Hc Hs].
  now rewrite (Hpq c Hc), IH.
Qed.

(** *** [partition] around the marker of the label *)

Lemma partition_at_marker (x y : string) :
  no_paren x = true ->
  partition "(ID: " (x ++ "(ID: " ++ y) = Some (x, y).
Proof.
  unfold no_paren. induction x as [| c x IH]; intros H; [ reflexivity | ].
  cbn in H. apply andb_prop in H. destruct H as [Hc Hx].
  apply negb_true_iff in Hc. rewrite Ascii.eqb_sym in Hc.
  change (String c x ++ "(ID: " ++ y)%string
    with (String c (x ++ "(ID: " ++ y)).
  cbn [partition startswith]. rewrite Hc. cbn [andb].
  now rewrite (IH Hx).
Qed.

Lemma partition_without_paren (x : string) :
  no_paren x = true -> partition "(ID: " x = None.
Proof.
  unfold no_paren. induction x as [| c x IH]; intros H; [ reflexivity | ].
  cbn in H. apply andb_prop in H. destruct H as [Hc Hx].
  apply negb_true_iff in Hc. rewrite Ascii.eqb_sym in Hc.
  cbn [partition startswith]. rewrite Hc. cbn [andb].
  now rewrite (IH Hx).
Qed.

(** What follows a text that ends with a space cannot complete the
    marker: the marker has its only space at its end. *)
Lemma startswith_marker_extend (x t : string) :
  startswith "(ID: " (x ++ " ") = false ->
  startswith "(ID: " (x ++ String " " t) = false.
Proof.
  destruct x as [| a [| b [| c [| d [| e x]]]]]; cbn;
    try (intros H; exact H).
  all: repeat match goal with
              | |- context [(?u =? ?v)%char] => destruct (u =? v)%char; cbn
              end; auto.
Qed.

Lemma partition_at_label_marker (name y : string) :
  partition "(ID: " (name ++ " ") = None ->
  partition "(ID: " (name ++ String " " ("(ID: " ++ y))
  = Some ((name ++ " ")%string, y).
Proof.
  remember ("(ID: " ++ y)%string as m eqn:Em.
  induction name as [| c name IH]; intros H; [ now subst m | ].
  cbn [append] in *.
  assert (Hs : startswith "(ID: " (String c (name ++ " ")) = false).
  { cbn [partition] in H.
    destruct (startswith "(ID: " (String c (name ++ " "))); [ discriminate | ].
    reflexivity. }
  assert (Hp : partition "(ID: " (name ++ " ") = None).
  { cbn [partition] in H. rewrite Hs in H.
    destruct (partition "(ID: " (name ++ " ")) as [[b a] |]; [ discriminate | ].
    reflexivity. }
  cbn [partition].
  pose proof (startswith_marker_extend (String c name) m Hs) as Hs'.
  cbn [append] in Hs'. rewrite Hs'. now rewrite (IH Hp).
Qed.

(** *** The digits of [str] *)

(** A digit is no white space, parenthesis, underscore or sign. *)
Lemma digit_char_plain (k : Z) :
  0 <= k <= 9 ->
  tame (Datetime.digit_char k) = true
  /\ (Datetime.digit_char k =? "_")%char = false
  /\ (Datetime.digit_char k =? "-")%char = false
  /\ (Datetime.digit_char k =? "+")%char = false.
Proof.
  intros Hk.
  assert (H : k = 0 \/ k = 1 \/ k = 2 \/ k = 3 \/ k = 4 \/ k = 5 \/ k = 6
              \/ k = 7 \/ k = 8 \/ k = 9) by lia.
  repeat (destruct H as [H | H]); subst k; repeat split; reflexivity.
Qed.

Lemma digits_of_S (fuel : nat) (n : Z) :
  digits_of (S fuel) n
  = if n <? 10 then String (Datetime.digit_char n) ""
    else (digits_of fuel (n / 10)
          ++ String (Datetime.digit_char (n mod 10)) "")%string.
Proof. reflexivity. Qed.

(** A string of digits. *)
Lemma digits_of_digits (fuel : nat) :
  forall n, 0 <= n ->
    all_chars (fun c => match Datetime.digit_val c with
                        | Some _ => negb (c =? "_")%char
                        | None => false
                        end)
      (digits_of (S fuel) n) = true
    /\ all_chars tame (digits_of (S fuel) n) = true
    /\ digits_of (S fuel) n <> "".
Proof.
  induction fuel as [| fuel IH]; intros n Hn; rewrite digits_of_S.
  - destruct (Z.ltb_spec n 10) as [Hlt | Hge].
    + destruct (digit_char_plain n ltac:(lia)) as (Ht & Hu & _).
      cbn. rewrite (digit_val_digit_char n) by lia.
      rewrite Ht, Hu. repeat split; discriminate.
    + cbn. destruct (digit_char_plain (n mod 10)) as (Ht & Hu & _).
      { pose proof (Z.mod_pos_bound n 10 ltac:(lia)). lia. }
      rewrite (digit_val_digit_char (n mod 10))
        by (pose proof (Z.mod_pos_bound n 10 ltac:(lia)); lia).
      rewrite Ht, Hu. repeat split; discriminate.
  - destruct (Z.ltb_spec n 10) as [Hlt | Hge].
    + destruct (digit_char_plain n ltac:(lia)) as (Ht & Hu & _).
      cbn. rewrite (digit_val_digit_char n) by lia.
      rewrite Ht, Hu. repeat split; discriminate.
    + destruct (IH (n / 10)) as (Hd & Ht' & Hne).
      { apply Z.div_pos; lia. }
      destruct (digit_char_plain (n mod 10)) as (Ht & Hu & _).
      { pose proof (Z.mod_pos_bound n 10 ltac:(lia)). lia. }
      remember (digits_of (S fuel) (n / 10)) as ds eqn:Eds. clear Eds.
      rewrite !all_chars_app, Hd, Ht'. cbn.
      rewrite (digit_val_digit_char (n mod 10))
        by (pose proof (Z.mod_pos_bound n 10 ltac:(lia)); lia).
      rewrite Ht, Hu. split; [ reflexivity | split; [ reflexivity | ] ].
      destruct ds; [ now destruct Hne | ]. discriminate.
Qed.

Lemma digit_plain (c : ascii) (x : Z) :
  Datetime.digit_val c = Some x ->
  tame c = true /\ (c =? "_")%char = false /\ (c =? "-")%char = false
  /\ (c =? "+")%char = false.
Proof.
  destruct c as [[] [] [] [] [] [] [] []]; vm_compute; intros H;
    try discriminate H; repeat split.
Qed.

Lemma int_digits_snoc (s : string) (d : Z) :
  0 <= d <= 9 ->
  all_chars (fun c => match Datetime.digit_val c with
                      | Some _ => negb (c =? "_")%char
                      | None => false
                      end) s = true ->
  s <> "" ->
  forall acc,
    int_digits acc (s ++ String (Datetime.digit_char d) "")
    = option_map (fun v => 10 * v + d) (int_digits acc s).
Proof.
  intros Hd. destruct (digit_char_plain d Hd) as (_ & Hu & _).
  pose proof (digit_val_digit_char d Hd) as Hv.
  induction s as [| c s IH]; intros Hs Hne acc; [ now destruct Hne | ].
  cbn [all_chars] in Hs. apply andb_prop in Hs. destruct Hs as [Hc Hs].
  cbn [append int_digits].
  destruct (Datetime.digit_val c) as [x |]; [ | discriminate Hc ].
  cbv zeta. destruct s as [| c2 s2].
  - cbn [append int_digits]. rewrite Hu, Hv. reflexivity.
  - cbn [append].
    assert (Hc2 : (c2 =? "_")%char = false).
    { cbn [all_chars] in Hs. apply andb_prop in Hs. destruct Hs as [Hc2 _].
      destruct (Datetime.digit_val c2); [ | discriminate Hc2 ].
      now apply negb_true_iff in Hc2. }
    rewrite Hc2.
    change (String c2 (s2 ++ String (Datetime.digit_char d) ""))%string
      with (String c2 s2 ++ String (Datetime.digit_char d) "")%string.
    apply IH; [ exact Hs | discriminate ].
Qed.

(** Reading the digits gives the number back. *)
Lemma int_digits_of (fuel : nat) :
  forall n, 0 <= n < 10 ^ Z.of_nat (S fuel) ->
            int_digits 0 (digits_of (S fuel) n) = Some n.
Proof.
  induction fuel as [| fuel IH]; intros n Hn; rewrite digits_of_S.
  - destruct (Z.ltb_spec n 10) as [Hlt | Hge]; [ | cbn in Hn; lia ].
    cbn [int_digits]. rewrite (digit_val_digit_char n) by lia.
    cbv zeta. f_equal; lia.
  - destruct (Z.ltb_spec n 10) as [Hlt | Hge].
    + cbn [int_digits]. rewrite (digit_val_digit_char n) by lia.
      cbv zeta. f_equal; lia.
    + assert (Hq : 0 <= n / 10 < 10 ^ Z.of_nat (S fuel)).
      { split; [ apply Z.div_pos; lia | ].
        apply Z.div_lt_upper_bound; [ lia | ].
        rewrite <- Z.pow_succ_r by lia. rewrite <- Nat2Z.inj_succ. lia. }
      destruct (digits_of_digits fuel (n / 10) (proj1 Hq)) as (Hd & _ & Hne).
      pose proof (Z.mod_pos_bound n 10 ltac:(lia)) as Hm.
      rewrite int_digits_snoc by (try assumption; lia).
      rewrite (IH (n / 10) Hq). cbn [option_map]. f_equal.
      pose proof (Z.div_mod n 10 ltac:(lia)). lia.
Qed.

(** [str] of a number that is not negative is its digits, with fuel
    enough. *)
Lemma str_nonneg (n : Z) :
  0 <= n ->
  exists fuel, str n = digits_of (S fuel) n /\ n < 10 ^ Z.of_nat (S fuel).
Proof.
  intros Hn. exists (Z.to_nat (Z.log2 n)). split.
  - unfold str. destruct (Z.ltb_spec n 0); [ lia | reflexivity ].
  - rewrite Nat2Z.inj_succ, Z2Nat.id by apply Z.log2_nonneg.
    destruct (Z.eq_dec n 0) as [-> | Hne]; [ reflexivity | ].
    destruct (Z.log2_spec n ltac:(lia)) as [_ Hlt].
    pose proof (Z.log2_nonneg n) as HL.
    pose proof (Z.pow_le_mono_l 2 10 (Z.succ (Z.log2 n)) ltac:(lia)).
    lia.
Qed.

(** *** [strip], [replace] and [int] on the text of a number *)

Lemma lstrip_tame (s : string) : all_chars tame s = true -> lstrip s = s.
Proof.
  destruct s as [| c s]; [ reflexivity | ]. cbn. intros H.
  apply andb_prop in H. destruct H as [H _]. unfold tame in H.
  apply andb_prop in H. destruct H as [H _].
  apply andb_prop in H. destruct H as [H _].
  apply negb_true_iff in H. now rewrite H.
Qed.

Lemma rstrip_tame (s : string) : all_chars tame s = true -> rstrip s = s.
Proof.
  induction s as [| c s IH]; [ reflexivity | ]. cbn [all_chars rstrip].
  intros H. apply andb_prop in H. destruct H as [Hc Hs].
  rewrite (IH Hs). destruct s; [ | reflexivity ].
  unfold tame in Hc.
  apply andb_prop in Hc. destruct Hc as [Hc _].
  apply andb_prop in Hc. destruct Hc as [Hc _].
  apply negb_true_iff in Hc. now rewrite Hc.
Qed.

Lemma rstrip_space (s : string) : rstrip (s ++ " ") = rstrip s.
Proof.
  induction s as [| c s IH]; [ reflexivity | ].
  cbn [append rstrip]. now rewrite IH.
Qed.

Lemma strip_tame (s : string) :
  all_chars tame s = true -> s <> "" ->
  strip s = s /\ strip (s ++ " ") = s.
Proof.
  intros Hs Hne. unfold strip. split.
  - now rewrite lstrip_tame, rstrip_tame.
  - assert (Hl : lstrip (s ++ " ") = (s ++ " ")%string).
    { destruct s as [| c s]; [ now destruct Hne | ].
      cbn [all_chars] in Hs. apply andb_prop in Hs. destruct Hs as [Hc _].
      unfold tame in Hc.
      apply andb_prop in Hc. destruct Hc as [Hc _].
      apply andb_prop in Hc. destruct Hc as [Hc _].
      apply negb_true_iff in Hc. cbn [append lstrip]. now rewrite Hc. }
    now rewrite Hl, rstrip_space, rstrip_tame.
Qed.

(** The text of a number has no white space and no parenthesis, and
    [int] reads the number back. *)
Lemma str_read_back (n : Z) :
  all_chars tame (str n) = true /\ str n <> "" /\ int (str n) = Some n.
Proof.
  destruct (Z.lt_ge_cases n 0) as [Hneg | Hpos].
  - destruct (str_nonneg (- n) ltac:(lia)) as (fuel & E & Hb).
    assert (Es : str n = String "-" (digits_of (S fuel) (- n))).
    { unfold str in *. destruct (Z.ltb_spec n 0); [ | lia ].
      destruct (Z.ltb_spec (- n) 0); [ lia | ]. now rewrite E. }
    destruct (digits_of_digits fuel (- n) ltac:(lia)) as (_ & Ht & Hne).
    assert (Htame : all_chars tame (str n) = true)
      by (rewrite Es; cbn [all_chars]; now rewrite Ht).
    refine (conj Htame (conj _ _)); [ rewrite Es; discriminate | ].
    unfold int. rewrite (proj1 (strip_tame (str n) Htame
                                  ltac:(rewrite Es; discriminate))).
    rewrite Es. cbn [Ascii.eqb Bool.eqb].
    rewrite int_digits_of by lia. cbn [option_map]. f_equal. lia.
  - destruct (str_nonneg n ltac:(lia)) as (fuel & E & Hb).
    destruct (digits_of_digits fuel n ltac:(lia)) as (Hd & Ht & Hne).
    rewrite E. refine (conj Ht (conj Hne _)).
    unfold int. rewrite (proj1 (strip_tame _ Ht Hne)).
    pose proof (int_digits_of fuel n ltac:(lia)) as Hi.
    destruct (digits_of (S fuel) n) as [| c t]; [ now destruct Hne | ].
    cbn [all_chars] in Hd. apply andb_prop in Hd. destruct Hd as [Hc _].
    destruct (Datetime.digit_val c) as [x |] eqn:Hx; [ | discriminate Hc ].
    destruct (digit_plain c x Hx) as (_ & _ & Hm & Hp).
    now rewrite Hm, Hp.
Qed.

Lemma remove_char_app (old : ascii) (a b : string) :
  remove_char old (a ++ b) = (remove_char old a ++ remove_char old b)%string.
Proof.
  induction a as [| c a IH]; cbn; [ reflexivity | ].
  destruct (c =? old)%char; cbn; now rewrite IH.
Qed.

Lemma remove_char_tame (s : string) :
  all_chars tame s = true -> remove_char ")" s = s.
Proof.
  induction s as [| c s IH]; [ reflexivity | ]. cbn [all_chars remove_char].
  intros H. apply andb_prop in H. destruct H as [Hc Hs].
  unfold tame in Hc. apply andb_prop in Hc. destruct Hc as [_ Hc].
  apply negb_true_iff in Hc. now rewrite Hc, IH.
Qed.

Lemma tame_no_paren (s : string) : all_chars tame s = true -> no_paren s = true.
Proof.
  apply all_chars_impl. intros c Hc. unfold tame in Hc.
  apply andb_prop in Hc. destruct Hc as [Hc _].
  apply andb_prop in Hc. now destruct Hc as [_ Hc].
Qed.

(** X18. The id that the Update Inventory tab reads off the label of the
    selected reagent, [f"{name} (ID: {id})"], by
    [int(selected.split("(ID: ")[1].replace(")", ""))]. It is the id of
    the reagent when the name, followed by the space of the label, has no
    "(ID: " in it. It is not for a name that has one: for a name that
    ends in "(ID: k)" (after a text without an opening parenthesis) the
    tab reads [k], so that the form and the buttons Update and Delete
    work on the user's reagent [k] (or stop with [StopIteration] when
    the user has none); and for a name that ends in "(ID:" the page
    stops with a [ValueError]. *)
Theorem selected_label_read_back (id : Z) (quantity : float) (unit : string)
    (location supplier catalog_number expiry_date notes : option string) :
  let label name :=
    reagent_label (id, name, quantity, unit, location, supplier,
                   catalog_number, expiry_date, notes) in
  (forall name,
      partition "(ID: " (name ++ " ") = None ->
      selected_reagent_id (label name) = inr id)
  /\ (forall p k,
         no_paren p = true ->
         selected_reagent_id (label (p ++ "(ID: " ++ str k ++ ")")%string)
         = inr k)
  /\ (forall p,
         no_paren p = true ->
         selected_reagent_id (label (p ++ "(ID:")%string) = inl "ValueError").
Proof.
  cbv zeta. unfold reagent_label, selected_reagent_id, split_item_1.
  destruct (str_read_back id) as (Hid & Hidne & Hint).
  assert (Hrest : no_paren (str id ++ ")") = true).
  { unfold no_paren. rewrite all_chars_app.
    fold (no_paren (str id)). now rewrite (tame_no_paren _ Hid). }
  refine (conj _ (conj _ _)).
  - intros name Hname.
    change (name ++ " (ID: " ++ str id ++ ")")%string
      with (name ++ String " " ("(ID: " ++ (str id ++ ")")))%string.
    rewrite (partition_at_label_marker name _ Hname).
    rewrite (partition_without_paren _ Hrest).
    rewrite remove_char_app, (remove_char_tame _ Hid). cbn [remove_char].
    cbn [Ascii.eqb Bool.eqb]. rewrite append_nil_r, Hint. reflexivity.
  - intros p k Hp.
    destruct (str_read_back k) as (Hk & Hkne & Hkint).
    replace ((p ++ "(ID: " ++ str k ++ ")") ++ " (ID: " ++ str id ++ ")")%string
      with (p ++ "(ID: " ++ ((str k ++ ") ") ++ "(ID: " ++ (str id ++ ")")))%string.
    2: { rewrite (append_assoc p), (append_assoc (str k) ") ").
         cbn [append]. now rewrite (append_assoc (str k) ")"). }
    rewrite (partition_at_marker p _ Hp).
    rewrite (partition_at_marker (str k ++ ") ") (str id ++ ")")).
    2: { unfold no_paren. rewrite all_chars_app.
         fold (no_paren (str k)). now rewrite (tame_no_paren _ Hk). }
    rewrite remove_char_app, (remove_char_tame _ Hk). cbn [remove_char].
    cbn [Ascii.eqb Bool.eqb].
    unfold int in *. rewrite (proj2 (strip_tame (str k) Hk Hkne)).
    rewrite (proj1 (strip_tame (str k) Hk Hkne)) in Hkint.
    now rewrite Hkint.
  - intros p Hp.
    replace ((p ++ "(ID:") ++ " (ID: " ++ str id ++ ")")%string
      with (p ++ "(ID: " ++ ("" ++ "(ID: " ++ (str id ++ ")")))%string.
    2: { now rewrite (append_assoc p). }
    rewrite (partition_at_marker p _ Hp).
    rewrite (partition_at_marker "" (str id ++ ")") eq_refl).
    reflexivity.
Qed.

Lemma selected_label_read_back_witness :
  let first := mkreagent 1 1 "Ethanol" 5 "L" (Some "") (Some "") (Some "")
                 "2024-01-01" None (Some "") in
  let second := mkreagent 2 1 "Tris (ID: 1)" 5 "g" (Some "") (Some "")
                  (Some "") "2024-01-01" None (Some "") in
  let w := mkworld (set_reagents initialize_db (mktable [first; second] 2))
             true [] in
  map reagent_label (eval (get_reagents 1) w)
  = ["Ethanol (ID: 1)"; "Tris (ID: 1) (ID: 2)"]
  /\ selected_reagent_id "Tris (ID: 1) (ID: 2)" = inr 1
  /\ map r_name (rows (reagents (store (exec (delete_submit 1 1) w))))
     = ["Tris (ID: 1)"].
Proof.
  cbv zeta. refine (conj eq_refl (conj _ eq_refl)).
  exact (proj1 (proj2
    (selected_label_read_back 2 5 "g" (Some "") (Some "") (Some "") None
       (Some ""))) "Tris " 1 eq_refl).
Defined.

End LabelFacts.

(** ** Stored passwords *)

(** The Register form: nothing, or one account more, with the digest of a
    password that was confirmed and has six characters or more. *)
Lemma login_page_register_row (sha256 : string -> string) (f : register_form)
    (now : string) (w : world) :
  let t := users (store w) in
  let t' := users (store (exec (login_page_register sha256 f now) w)) in
  t' = t
  \/ (rows t'
      = rows t ++ [mkuser (seq t + 1) (new_username f)
                     (sha256 (new_password f)) (email f) (full_name f) now]
      /\ new_password f = confirm_password f
      /\ (6 <= String.length (new_password f))%nat).
Proof.
  cbv zeta. unfold login_page_register.
  destruct (String.eqb_spec (new_password f) (confirm_password f)) as [E | E];
    cbn [negb]; [ | now left ].
  destruct (Nat.ltb_spec (String.length (new_password f)) 6) as [L | L];
    [ now left | ].
  unfold create_user, INSERT_user, insert. step_through; auto.
Qed.

(** X19. In every store that the application reaches from the empty one,
    whatever the users do, the column [password] of every account is the
    SHA-256 digest of a password of at least six characters, namely of the
    one that was typed twice in the Register form: no path stores what was
    typed itself, and no path stores an account without the checks of the
    form. *)
Theorem stored_passwords_are_digests (sha256 : string -> string)
    (l : list action) (storage : bool) :
  passwords_hashed sha256
    (store (run sha256 l (mkworld initialize_db storage []))).
Proof.
  assert (H : forall w, passwords_hashed sha256 (store w) ->
                        passwords_hashed sha256 (store (run sha256 l w))).
  { induction l as [| a l IH]; intros w Hw; [ exact Hw | ].
    rewrite run_cons. apply IH.
    destruct (actor a) as [A |] eqn:Ha.
    - unfold passwords_hashed.
      now rewrite (step_users_frame sha256 a A w Ha).
    - destruct a; try discriminate Ha. cbn [step]. unfold passwords_hashed.
      destruct (login_page_register_row sha256 f now w)
        as [-> | (-> & _ & Hlen)]; [ exact Hw | ].
      apply Forall_app. split; [ exact Hw | ].
      constructor; [ | constructor ]. now exists (new_password f). }
  apply H. constructor.
Qed.

(** ** Whose rows the page changes *)



(** ** The button Delete, as the page runs it *)






